(** * Haplotype read-count extraction: a model of
    [CHT/extract_haplotype_read_counts.py]

    The script is Python 2 (PyTables' [openFile], [/] between integers).
    Its functions are embedded as computations in a small state-and-exception
    monad:

    - integers are [Z]; [/] on integers is floor division ([Z.div]) and [%]
      is [Z.modulo];
    - a raised exception is a value of [exn]; it ends the computation and
      keeps the effects made so far;
    - the world holds what the script touches outside its arguments: the
      stream behind [np.random.randint], the text written to the standard
      streams, the text files [open] can read, and a log of the [getNode]
      calls made on the HDF5 files;
    - an HDF5 file is a finite map from node paths to arrays, an array a
      list, and the genotype probabilities binary64 floats.

    The file has three parts: the model of the script, the vocabulary of
    the statements with the example inputs, and the properties. *)

From Stdlib Require Import ZArith List String Ascii Lia Floats.
From Stdlib Require Import DecimalString.
From Stdlib Require DecimalPos.
From stdpp Require Import gmap strings.
Import ListNotations.

Open Scope string_scope.
Open Scope Z_scope.

(** ** Exceptions and the world *)

Inductive exn : Type :=
| NameError (name : string)
| ValueError (msg : string)
| IndexError
| KeyError (key : string)
| IOError (path : string)
| AttributeError (attr : string)
| NoSuchNodeError (path : string)
| CoordError (msg : string).

Inductive result (A : Type) : Type :=
| Ok (a : A)
| Raise (e : exn).
Arguments Ok {A} a.
Arguments Raise {A} e.

(** Which of the eight HDF5 files of [DataFiles] a [getNode] call went to. *)
Inductive h5_file : Type :=
| ref_count_file | alt_count_file | other_count_file | read_count_file
| snp_tab_file | snp_index_file | geno_prob_file | hap_file.

Record World : Type := mkWorld {
  (** outcome of the [n]-th call of [np.random.randint(2)]: [false] is 0 *)
  rand_stream : nat -> bool;
  (** number of calls of [np.random.randint] made so far *)
  rand_draws : nat;
  (** strings passed to [sys.stdout.write], oldest first *)
  stdout : list string;
  (** strings passed to [sys.stderr.write], oldest first *)
  stderr : list string;
  (** text files by path, each a list of lines *)
  files : gmap string (list string);
  (** [getNode] calls on the data files, oldest first *)
  node_lookups : list (h5_file * string)
}.

Definition M (A : Type) : Type := World -> result A * World.

Definition ret {A} (a : A) : M A := fun w => (Ok a, w).

Definition raise {A} (e : exn) : M A := fun w => (Raise e, w).

Definition bind {A B} (c : M A) (k : A -> M B) : M B :=
  fun w =>
    match c w with
    | (Ok a, w') => k a w'
    | (Raise e, w') => (Raise e, w')
    end.

Declare Scope py_scope.
Delimit Scope py_scope with py.
Notation "x <- c ;; k" := (bind c (fun x => k))
  (at level 100, c at next level, right associativity) : py_scope.
Notation "c ;; k" := (bind c (fun _ => k))
  (at level 100, right associativity) : py_scope.
Open Scope py_scope.

(** [for x in l: acc = body(acc, x)], stopping at the first exception. *)
Fixpoint foldM {A S} (body : S -> A -> M S) (acc : S) (l : list A) : M S :=
  match l with
  | [] => ret acc
  | x :: l' => acc' <- body acc x ;; foldM body acc' l'
  end.

(** A loop that updates every object of a list in turn. *)
Fixpoint mapM {A B} (body : A -> M B) (l : list A) : M (list B) :=
  match l with
  | [] => ret []
  | x :: l' => y <- body x ;; ys <- mapM body l' ;; ret (y :: ys)
  end.

(** ** Effects *)

(** [np.random.randint(2)] *)
Definition randint2 : M Z :=
  fun w =>
    (Ok (if rand_stream w (rand_draws w) then 1 else 0),
     mkWorld (rand_stream w) (S (rand_draws w)) (stdout w) (stderr w)
             (files w) (node_lookups w)).

(** The two files the script writes to. *)
Inductive stream : Type := sys_stdout | sys_stderr.

(** [f.write(s)] *)
Definition write (f : stream) (s : string) : M unit :=
  fun w =>
    (Ok tt,
     match f with
     | sys_stdout =>
         mkWorld (rand_stream w) (rand_draws w) (stdout w ++ [s]) (stderr w)
                 (files w) (node_lookups w)
     | sys_stderr =>
         mkWorld (rand_stream w) (rand_draws w) (stdout w) (stderr w ++ [s])
                 (files w) (node_lookups w)
     end).

(** [open(path)], read as its list of lines *)
Definition open_file (path : string) : M (list string) :=
  fun w =>
    match files w !! path with
    | Some lines => (Ok lines, w)
    | None => (Raise (IOError path), w)
    end.

(** [h5.getNode(node_name)] on one of the data files *)
Definition getNode {A} (which : h5_file) (h5 : gmap string A)
    (node_name : string) : M A :=
  fun w =>
    let w' := mkWorld (rand_stream w) (rand_draws w) (stdout w) (stderr w)
                      (files w) (node_lookups w ++ [(which, node_name)]) in
    match h5 !! node_name with
    | Some node => (Ok node, w')
    | None => (Raise (NoSuchNodeError node_name), w')
    end.

(** ** Python sequences and strings *)

Definition len {A} (l : list A) : Z := Z.of_nat (length l).

(** [l[i]], a negative index counting from the end *)
Definition py_index {A} (l : list A) (i : Z) : M A :=
  let j := if i <? 0 then i + len l else i in
  if j <? 0 then raise IndexError
  else match nth_error l (Z.to_nat j) with
       | Some x => ret x
       | None => raise IndexError
       end.

(** a bound of a slice, brought into [0 .. len] *)
Definition slice_bound (n i : Z) : Z :=
  if i <? 0 then Z.max (i + n) 0 else Z.min i n.

(** [l[a:b]] *)
Definition py_slice {A} (l : list A) (a b : Z) : list A :=
  let lo := slice_bound (len l) a in
  let hi := slice_bound (len l) b in
  firstn (Z.to_nat (hi - lo)) (skipn (Z.to_nat lo) l).

(** whitespace of [str.split()] and [str.rstrip()] *)
Definition is_space (c : ascii) : bool :=
  let n := nat_of_ascii c in
  (n =? 32)%nat || ((9 <=? n)%nat && (n <=? 13)%nat).

(** [s.split(sep)] for a one-character separator: never empty *)
Fixpoint split_on (sep : ascii -> bool) (s : string) : list string :=
  match s with
  | EmptyString => [EmptyString]
  | String c s' =>
      if sep c then EmptyString :: split_on sep s'
      else match split_on sep s' with
           | w :: ws => String c w :: ws
           | [] => [String c EmptyString]
           end
  end.

Definition nonempty (s : string) : bool :=
  match s with EmptyString => false | _ => true end.

(** [s.split()] *)
Definition split_ws (s : string) : list string :=
  List.filter nonempty (split_on is_space s).

(** [s.rstrip()] *)
Fixpoint rstrip (s : string) : string :=
  match s with
  | EmptyString => EmptyString
  | String c s' =>
      match rstrip s' with
      | EmptyString => if is_space c then EmptyString else String c EmptyString
      | r => String c r
      end
  end.

(** [s.startswith(p)] *)
Definition startswith (s p : string) : bool := String.prefix p s.

(** [s.replace(old, new)] for a non-empty [old]: occurrences are replaced
    from the left and do not overlap.  [skip] counts the characters of an
    occurrence still to be dropped. *)
Fixpoint replace_from (old new : string) (skip : nat) (s : string) : string :=
  match s with
  | EmptyString => EmptyString
  | String c s' =>
      match skip with
      | S k => replace_from old new k s'
      | O =>
          if String.prefix old s
          then new +:+ replace_from old new (String.length old - 1)%nat s'
          else String c (replace_from old new O s')
      end
  end.

Definition replace (s old new : string) : string := replace_from old new 0 s.

Definition newline : string := String "010" EmptyString.

(** [sep.join(l)] *)
Definition join (sep : string) (l : list string) : string :=
  String.concat sep l.

(** [str(n)] and ["%d" % n] *)
Definition str_of_int (n : Z) : string := NilZero.string_of_int (Z.to_int n).

Definition is_digit (c : ascii) : bool :=
  let n := nat_of_ascii c in (48 <=? n)%nat && (n <=? 57)%nat.

Fixpoint digits_value (acc : Z) (s : string) : option Z :=
  match s with
  | EmptyString => Some acc
  | String c s' =>
      if is_digit c
      then digits_value (10 * acc + (Z.of_nat (nat_of_ascii c) - 48)) s'
      else None
  end.

(** [int(s)] for a string without surrounding whitespace: an optional sign
    and at least one decimal digit *)
Definition py_int (s : string) : M Z :=
  let invalid := ValueError ("invalid literal for int() with base 10: '" +:+ s +:+ "'") in
  let unsigned (t : string) : option Z :=
    match t with
    | EmptyString => None
    | _ => digits_value 0 t
    end in
  let parsed :=
    match s with
    | String "-" t => option_map Z.opp (unsigned t)
    | String "+" t => unsigned t
    | _ => unsigned s
    end in
  match parsed with
  | Some n => ret n
  | None => raise invalid
  end.

(** ** Name resolution

    A name read in a function body is looked up among the function's local
    names, then the names the module binds at top level, then the builtins.
    The module has no [global] statement and binds nothing dynamically, so
    which names are bound is fixed by its text. *)

(** Names bound at the top level of the module, in source order. *)
Definition module_names : list string :=
  [ "__name__"; "__doc__"; "__file__"; "__package__"; "__builtins__";
    "argparse"; "np"; "sys"; "gzip"; "tables";
    "chromosome"; "chromstat"; "coord";
    "SNP_UNDEF"; "HAP_UNDEF"; "SNP"; "DataFiles";
    "parse_args"; "get_region_snps"; "get_het_snps";
    "lookup_individual_index"; "set_snp_counts"; "write_header";
    "write_NA_line"; "write_output"; "get_genomewide_count";
    "get_region_read_counts"; "get_target_regions"; "main" ].

(** The builtins of Python 2.7. *)
Definition builtin_names : list string :=
  [ "ArithmeticError"; "AssertionError"; "AttributeError"; "BaseException";
    "BufferError"; "BytesWarning"; "DeprecationWarning"; "EOFError";
    "Ellipsis"; "EnvironmentError"; "Exception"; "False";
    "FloatingPointError"; "FutureWarning"; "GeneratorExit"; "IOError";
    "ImportError"; "ImportWarning"; "IndentationError"; "IndexError";
    "KeyError"; "KeyboardInterrupt"; "LookupError"; "MemoryError";
    "NameError"; "None"; "NotImplemented"; "NotImplementedError"; "OSError";
    "OverflowError"; "PendingDeprecationWarning"; "ReferenceError";
    "RuntimeError"; "RuntimeWarning"; "StandardError"; "StopIteration";
    "SyntaxError"; "SyntaxWarning"; "SystemError"; "SystemExit"; "TabError";
    "True"; "TypeError"; "UnboundLocalError"; "UnicodeDecodeError";
    "UnicodeEncodeError"; "UnicodeError"; "UnicodeTranslateError";
    "UnicodeWarning"; "UserWarning"; "ValueError"; "Warning";
    "ZeroDivisionError"; "__debug__"; "__import__"; "abs"; "all"; "any";
    "apply"; "basestring"; "bin"; "bool"; "buffer"; "bytearray"; "bytes";
    "callable"; "chr"; "classmethod"; "cmp"; "coerce"; "compile"; "complex";
    "copyright"; "credits"; "delattr"; "dict"; "dir"; "divmod"; "enumerate";
    "eval"; "execfile"; "exit"; "file"; "filter"; "float"; "format";
    "frozenset"; "getattr"; "globals"; "hasattr"; "hash"; "help"; "hex";
    "id"; "input"; "int"; "intern"; "isinstance"; "issubclass"; "iter";
    "len"; "license"; "list"; "locals"; "long"; "map"; "max"; "memoryview";
    "min"; "next"; "object"; "oct"; "open"; "ord"; "pow"; "print";
    "property"; "quit"; "range"; "raw_input"; "reduce"; "reload"; "repr";
    "reversed"; "round"; "set"; "setattr"; "slice"; "sorted";
    "staticmethod"; "str"; "sum"; "super"; "tuple"; "type"; "unichr";
    "unicode"; "vars"; "xrange"; "zip" ].

(** Parameters and assigned names of the functions that read a name the
    module does not bind. *)
Definition get_region_snps_locals : list string :=
  [ "data_files"; "region_list"; "ind_idx"; "chrom"; "node_name"; "snp_tab";
    "hap_tab"; "geno_tab"; "snp_idx_tab"; "region_snps"; "region"; "snp_idx";
    "offsets"; "test_snp"; "offset"; "i"; "snp_row"; "geno_probs"; "haps";
    "snp" ].

Definition get_genomewide_count_locals : list string :=
  [ "h5file"; "chrom_list"; "stat" ].

Definition main_locals : list string :=
  [ "args"; "ind_idx"; "data_files"; "chrom_list"; "chrom_dict";
    "genomewide_read_counts"; "f"; "line_count"; "line"; "words";
    "chrom_name"; "chrom"; "region_list"; "snp_pos"; "snp_ref_base";
    "snp_alt_base"; "snp_region"; "region_snps"; "test_snp_list";
    "test_snp"; "het_snps"; "region_read_counts" ].

Definition name_bound (locals : list string) (x : string) : bool :=
  existsb (String.eqb x) (locals ++ module_names ++ builtin_names).

(** Evaluating a name that no scope binds.  The five uses below are
    [genome], [CoordError] and [snp_indx_tab] in [get_region_snps], [gdb] in
    [get_genomewide_count] and [dt] in [main]; [unbound_names] checks each
    against its scope. *)
Definition unbound_name {A} (x : string) : M A := raise (NameError x).

(** ** Data model *)

Definition SNP_UNDEF : Z := -1.
Definition HAP_UNDEF : Z := -1.

(** Modelled from the spec: a chromosome of the [chromosome] module, which
    is not part of the sources; it has a name and a length in bases. *)
Record Chromosome : Type := {
  chrom_name : string;
  chrom_length : Z
}.

(** Modelled from the spec: [coord.Coord], whose module is not part of the
    sources.  A region is a chromosome with a 1-based inclusive start and
    end; its length counts both ends. *)
Record Coord : Type := mkCoord {
  chrom : Chromosome;
  start : Z;
  end_ : Z
}.

Definition length_ (region : Coord) : Z := end_ region - start region + 1.

(** [region.start = s; region.end = e] *)
Definition with_bounds (region : Coord) (s e : Z) : Coord :=
  mkCoord (chrom region) s e.

(** [class SNP], with the attributes [get_region_snps] adds to every object
    it builds and the three [set_snp_counts] adds ([None] while unset). *)
Record SNP : Type := mkSNP {
  snp_chrom : Chromosome;
  pos : Z;
  name : string;
  ref_allele : string;
  alt_allele : string;
  het_prob : float;
  geno_sum : float;
  haps : list Z;
  linkage_prob : float;
  ref_hap_count : option Z;
  alt_hap_count : option Z;
  other_count : option Z
}.

(** A row of the [impute2/snps] table. *)
Record SnpRow : Type := {
  row_pos : Z;
  row_name : string;
  row_allele1 : string;
  row_allele2 : string
}.

(** [class DataFiles]: the eight open HDF5 files, each a map from node path
    to the array stored there. *)
Record DataFiles : Type := {
  ref_count_h5 : gmap string (list Z);
  alt_count_h5 : gmap string (list Z);
  other_count_h5 : gmap string (list Z);
  read_count_h5 : gmap string (list Z);
  snp_tab_h5 : gmap string (list SnpRow);
  snp_index_h5 : gmap string (list Z);
  geno_prob_h5 : gmap string (list (list float));
  hap_h5 : gmap string (list (list Z))
}.

(** The attributes of the options object that the functions below read. *)
Record Args : Type := {
  target_region_size : option Z;
  homozygous_as_counts : string;
  sample_file : option string;
  pop : string
}.

(** ** SnpResolver *)

(** [np.where(a != v)[0]]: the offsets whose entry differs from [v] *)
Fixpoint where_ne (from : Z) (a : list Z) (v : Z) : list Z :=
  match a with
  | [] => []
  | x :: a' =>
      if x =? v then where_ne (from + 1) a' v
      else from :: where_ne (from + 1) a' v
  end.

Definition get_region_snps (data_files : DataFiles) (region_list : list Coord)
    (ind_idx : Z) : M (list SNP) :=
  match region_list with
  | [] =>
      (* raise genome.coord.CoordError(...): [genome] is evaluated first *)
      unbound_name "genome"
  | region0 :: _ =>
      let chrom0 := chrom region0 in
      let node_name := "/" +:+ chrom_name chrom0 in
      snp_tab <- getNode snp_tab_file (snp_tab_h5 data_files) node_name ;;
      hap_tab <- getNode hap_file (hap_h5 data_files) node_name ;;
      geno_tab <- getNode geno_prob_file (geno_prob_h5 data_files) node_name ;;
      snp_idx_tab <- getNode snp_index_file (snp_index_h5 data_files) node_name ;;
      foldM
        (fun (region_snps : list SNP) region =>
           if negb (String.eqb (chrom_name (chrom region)) (chrom_name chrom0))
           then
             (* raise CoordError(...): the bare name is evaluated first *)
             unbound_name "CoordError"
           else
             indexed <- unbound_name "snp_indx_tab" ;;
             let snp_idx : list Z :=
               py_slice indexed (start region - 1) (end_ region) in
             let offsets := where_ne 0 snp_idx SNP_UNDEF in
             foldM
               (fun (region_snps : list SNP) offset =>
                  i <- py_index snp_idx offset ;;
                  snp_row <- py_index snp_tab i ;;
                  geno_row <- py_index geno_tab i ;;
                  let geno_probs :=
                    py_slice geno_row (ind_idx * 3) (ind_idx * 3 + 3) in
                  hap_row <- py_index hap_tab i ;;
                  let haps := py_slice hap_row (ind_idx * 2) (ind_idx * 2 + 2) in
                  p_het <- py_index geno_probs 1 ;;
                  p_alt <- py_index geno_probs 2 ;;
                  let snp :=
                    mkSNP (chrom region) (row_pos snp_row) (row_name snp_row)
                          (row_allele1 snp_row) (row_allele2 snp_row)
                          p_het
                          (PrimFloat.add p_het (PrimFloat.mul 2%float p_alt))
                          haps
                          1%float
                          None None None in
                  ret (region_snps ++ [snp])%list)
               region_snps offsets)
        [] region_list
  end.

Definition is_het (snp : SNP) : M bool :=
  h0 <- py_index (haps snp) 0 ;;
  h1 <- py_index (haps snp) 1 ;;
  ret (negb (h0 =? h1)).

Fixpoint get_het_snps (snp_list : list SNP) : M (list SNP) :=
  match snp_list with
  | [] => ret []
  | snp :: rest =>
      het <- is_het snp ;;
      het_snp_list <- get_het_snps rest ;;
      ret (if het then snp :: het_snp_list else het_snp_list)
  end.

(** The scan of the sample file, [idx] being the line number reached. *)
Fixpoint scan_samples (ind_name : string) (missing : exn) (lines : list string)
    (idx : Z) : M Z :=
  match lines with
  | [] => raise missing
  | line :: rest =>
      let words := split_ws (rstrip line) in
      word0 <- py_index words 0 ;;
      let name := replace word0 "NA" "" in
      if String.eqb name ind_name then ret idx
      else scan_samples ind_name missing rest (idx + 1)
  end.

(** ["%s" % v] for a string or [None] *)
Definition str_of_option (v : option string) : string :=
  match v with Some s => s | None => "None" end.

(** [lookup_individual_index], lines 320-323 *)
Definition sample_file_path (options : Args) : string :=
  match sample_file options with
  | None => "/data/share/10_IND/IMPUTE/" +:+ pop options +:+ "_samples.txt"
  | Some path => path
  end.

Definition lookup_individual_index (options : Args) (ind_name : string) : M Z :=
  write sys_stderr ("reading list of individuals from "
                    +:+ sample_file_path options +:+ newline) ;;
  f <- open_file (sample_file_path options) ;;
  scan_samples ind_name
    (ValueError ("individual " +:+ ind_name +:+ " is not in samples file "
                 +:+ str_of_option (sample_file options)))
    f 0.

(** ** HaplotypePhaser *)

(** [set_snp_counts], lines 363-375: the test SNP is homozygous or is
    undefined.  Under [rand_hap] a haplotype is chosen at random; otherwise
    [ref_idx] and [alt_idx] are [None]. *)
Definition fallback_reference (options : Args) : M (option (Z * Z)) :=
  if String.eqb (homozygous_as_counts options) "rand_hap"
  then
    coin <- randint2 ;;
    if coin =? 0 then ret (Some (0, 1)) else ret (Some (1, 0))
  else ret None.

(** [set_snp_counts], lines 350-375: the haplotype slots taken as reference
    and alternate ([ref_idx], [alt_idx]), or [None] for both. *)
Definition phase_reference (test_snp : option SNP) (options : Args)
    : M (option (Z * Z)) :=
  match test_snp with
  | None => fallback_reference options
  | Some test =>
      h0 <- py_index (haps test) 0 ;;
      h1 <- py_index (haps test) 1 ;;
      if negb (h0 =? h1) && negb (h0 =? HAP_UNDEF)
      then
        (* test SNP is heterozygous *)
        if h0 =? 0
        then ret (Some (0, 1))   (* reference allele is first haplotype *)
        else ret (Some (1, 0))   (* alt allele is first haplotype *)
      else fallback_reference options
  end.

Definition with_other_count (snp : SNP) (other : Z) : SNP :=
  mkSNP (snp_chrom snp) (pos snp) (name snp) (ref_allele snp) (alt_allele snp)
        (het_prob snp) (geno_sum snp) (haps snp) (linkage_prob snp)
        (ref_hap_count snp) (alt_hap_count snp) (Some other).

Definition with_hap_counts (snp : SNP) (ref_hap alt_hap : Z) : SNP :=
  mkSNP (snp_chrom snp) (pos snp) (name snp) (ref_allele snp) (alt_allele snp)
        (het_prob snp) (geno_sum snp) (haps snp) (linkage_prob snp)
        (Some ref_hap) (Some alt_hap) (other_count snp).

(** [set_snp_counts], lines 389-424: one SNP against one region, whose three
    count slices have been taken. *)
Definition set_counts_in_region (options : Args) (ref_alt_idx : option (Z * Z))
    (region : Coord) (ref_counts alt_counts other_counts : list Z) (snp : SNP)
    : M SNP :=
  if (pos snp >=? start region) && (pos snp <=? end_ region)
  then
    let offset := pos snp - start region in
    ref_count <- py_index ref_counts offset ;;
    alt_count <- py_index alt_counts offset ;;
    other <- py_index other_counts offset ;;
    let snp := with_other_count snp other in
    match ref_alt_idx with
    | None =>
        if String.eqb (homozygous_as_counts options) "zero"
        then ret (with_hap_counts snp 0 0)
        else if String.eqb (homozygous_as_counts options) "rand_allele"
        then
          coin <- randint2 ;;
          if coin =? 0 then ret (with_hap_counts snp ref_count alt_count)
          else ret (with_hap_counts snp alt_count ref_count)
        else
          raise (ValueError ("unknown homozygous_as_counts option "
                             +:+ homozygous_as_counts options))
    | Some (ref_idx, _) =>
        hap <- py_index (haps snp) ref_idx ;;
        if hap =? 0
        then ret (with_hap_counts snp ref_count alt_count)
        else if hap =? 1
        then ret (with_hap_counts snp alt_count ref_count)
        else raise (ValueError "expected haplotype to be defined")
    end
  else ret snp.

(** [set_snp_counts], lines 378-424: one turn of [for region in
    region_list].  The objects of [snps] are updated in place by the source;
    the updated list is returned here.  No object is read through a second
    reference between two updates, so sharing among the arguments is not
    modelled. *)
Definition set_counts_of_region (data_files : DataFiles) (options : Args)
    (ref_alt_idx : option (Z * Z)) (snps : list SNP) (region : Coord)
    : M (list SNP) :=
  let node_name := "/" +:+ chrom_name (chrom region) in
  ref_node <- getNode ref_count_file (ref_count_h5 data_files) node_name ;;
  alt_node <- getNode alt_count_file (alt_count_h5 data_files) node_name ;;
  other_node <- getNode other_count_file (other_count_h5 data_files) node_name ;;
  let ref_counts := py_slice ref_node (start region - 1) (end_ region) in
  let alt_counts := py_slice alt_node (start region - 1) (end_ region) in
  let other_counts := py_slice other_node (start region - 1) (end_ region) in
  mapM (set_counts_in_region options ref_alt_idx region
                             ref_counts alt_counts other_counts)
       snps.

Definition set_snp_counts (data_files : DataFiles) (region_list : list Coord)
    (snps : list SNP) (test_snp : option SNP) (options : Args)
    : M (list SNP) :=
  ref_alt_idx <- phase_reference test_snp options ;;
  foldM (set_counts_of_region data_files options ref_alt_idx) snps region_list.

(** ** RecordWriter *)

Definition write_NA_line (f : stream) : M unit :=
  write f (join " " (repeat "NA" 15) +:+ newline).

(** The value of an attribute that [set_snp_counts] may not have set. *)
Definition attribute (attr : string) (v : option Z) : M Z :=
  match v with
  | Some n => ret n
  | None => raise (AttributeError attr)
  end.

Section Output.

(** ["%.2f" % x], left to the C library by the source *)
Variable format_2f : float -> string.

Definition write_output (f : stream) (region_list : list Coord)
    (snps : list SNP) (test_snp : option SNP) (test_snp_pos : Z)
    (region_read_count genomewide_read_count : Z) : M unit :=
  region0 <- py_index region_list 0 ;;
  let chrom_name0 := chrom_name (chrom region0) in
  let region_start_str :=
    join ";" (map (fun r => str_of_int (start r)) region_list) in
  let region_end_str :=
    join ";" (map (fun r => str_of_int (end_ r)) region_list) in
  match test_snp with
  | None =>
      (* the SNP did not exist *)
      write f (chrom_name0 +:+ " " +:+ str_of_int test_snp_pos
               +:+ " NA NA NA NA NA " +:+ region_start_str +:+ " "
               +:+ region_end_str) ;;
      write f (" " +:+ join " " (repeat "NA" 8) +:+ newline)
  | Some test =>
      h0 <- py_index (haps test) 0 ;;
      h1 <- py_index (haps test) 1 ;;
      write f (chrom_name (snp_chrom test) +:+ " " +:+ str_of_int (pos test)
               +:+ " " +:+ name test +:+ " " +:+ ref_allele test
               +:+ " " +:+ alt_allele test +:+ " "
               +:+ format_2f (geno_sum test) +:+ " "
               +:+ str_of_int h0 +:+ "|" +:+ str_of_int h1 +:+ " "
               +:+ region_start_str +:+ " " +:+ region_end_str) ;;
      let n_het_snps := len snps in
      (if n_het_snps >? 0
       then
         write f (" " +:+ join ";" (map (fun s => str_of_int (pos s)) snps)) ;;
         write f (" " +:+ join ";" (map (fun s => format_2f (het_prob s)) snps)) ;;
         write f (" " +:+ join ";" (map (fun s => format_2f (linkage_prob s)) snps)) ;;
         ref_haps <- mapM (fun s => attribute "ref_hap_count" (ref_hap_count s)) snps ;;
         write f (" " +:+ join ";" (map str_of_int ref_haps)) ;;
         alt_haps <- mapM (fun s => attribute "alt_hap_count" (alt_hap_count s)) snps ;;
         write f (" " +:+ join ";" (map str_of_int alt_haps)) ;;
         others <- mapM (fun s => attribute "other_count" (other_count s)) snps ;;
         write f (" " +:+ join ";" (map str_of_int others))
       else
         (* no linked heterozygous SNPs *)
         write f (" " +:+ join " " (repeat "NA" 6))) ;;
      write f (" " +:+ str_of_int region_read_count +:+ " "
               +:+ str_of_int genomewide_read_count +:+ newline)
  end.

End Output.

(** ** RegionAggregator *)

Section Chromstat.

(** The module [chromstat] is not part of the sources: [get_stats], the
    type of its first argument, the statistics object it returns and the
    [sum] attribute of that object are left open. *)
Variable GenomeDB : Type.
Variable ChromStats : Type.
Variable get_stats : GenomeDB -> list Chromosome -> M ChromStats.
Variable sum : ChromStats -> Z.

Definition get_genomewide_count (h5file : gmap string (list Z))
    (chrom_list : list Chromosome) : M Z :=
  gdb <- unbound_name "gdb" ;;
  stat <- get_stats gdb chrom_list ;;
  ret (sum stat).

End Chromstat.

Definition get_region_read_counts (data_files : DataFiles)
    (region_list : list Coord) : M Z :=
  foldM
    (fun total_count region =>
       let node_name := "/" +:+ chrom_name (chrom region) in
       node <- getNode read_count_file (read_count_h5 data_files) node_name ;;
       let counts := py_slice node (start region - 1) (end_ region) in
       ret (total_count + fold_right Z.add 0 counts))
    0 region_list.

(** ** Target regions *)

(** [range(n)] *)
Definition range (n : Z) : list Z := map Z.of_nat (seq 0 (Z.to_nat n)).

Definition semicolon (c : ascii) : bool := Ascii.eqb c ";".

(** [get_target_regions], lines 542-552: the region after the size given on
    the command line has been applied. *)
Definition override_size (args : Args) (chrom : Chromosome) (region : Coord)
    : Coord :=
  match target_region_size args with
  | None => region
  | Some size =>
      if size =? 0 then region
      else if negb (length_ region =? size)
      then
        let mid := (start region + end_ region) / 2 in
        let new_start := mid - size / 2 in
        let new_end := mid + size / 2 in
        with_bounds region
          (if new_start <? 1 then 1 else new_start)
          (if new_end >? chrom_length chrom then chrom_length chrom
           else new_end)
      else region
  end.

Definition get_target_regions (args : Args) (chrom : Chromosome)
    (words : list string) : M (list Coord) :=
  word7 <- py_index words 7 ;;
  let start_words := split_on semicolon word7 in
  word8 <- py_index words 8 ;;
  let end_words := split_on semicolon word8 in
  if negb (len start_words =? len end_words)
  then
    raise (CoordError ("number of start (" +:+ str_of_int (len start_words)
                       +:+ ") and end (" +:+ str_of_int (len end_words)
                       +:+ ") positions do not match"))
  else
    let n_coord := len start_words in
    foldM
      (fun (region_list : list Coord) i =>
         start_word <- py_index start_words i ;;
         start <- py_int start_word ;;
         end_word <- py_index end_words i ;;
         end_ <- py_int end_word ;;
         let region := mkCoord chrom start end_ in
         ret (region_list ++ [override_size args chrom region])%list)
      [] (range n_coord).

(** ** The input loop of [main] *)

Section Main.

Variable format_2f : float -> string.

(** One turn of [for line in f] (lines 587-634); the value is the updated
    [line_count]. *)
Definition main_loop_body (args : Args) (data_files : DataFiles)
    (chrom_dict : gmap string Chromosome) (ind_idx : Z)
    (genomewide_read_counts : Z) (line_count : Z) (line : string) : M Z :=
  let line_count := line_count + 1 in
  (if line_count mod 1000 =? 0 then write sys_stderr "." else ret tt) ;;
  if startswith line "#" then ret line_count
  else
    let words := split_ws (rstrip line) in
    word1 <- py_index words 1 ;;
    if String.eqb word1 "NA"
    then
      (* no SNP defined on this line *)
      write_NA_line sys_stdout ;;
      ret line_count
    else
      chrom_word <- py_index words 0 ;;
      chrom <- match chrom_dict !! chrom_word with
               | Some c => ret c
               | None => raise (KeyError chrom_word)
               end ;;
      region_list <- get_target_regions args chrom words ;;
      snp_pos <- py_int word1 ;;
      snp_ref_base <- py_index words 3 ;;
      snp_alt_base <- py_index words 4 ;;
      let snp_region := mkCoord chrom snp_pos snp_pos in
      (* pull out all of the SNPs in the target region(s) *)
      region_snps <- get_region_snps data_files region_list ind_idx ;;
      (* pull out test SNP *)
      dt <- unbound_name "dt" ;;
      test_snp_list <- get_region_snps dt [snp_region] ind_idx ;;
      found <-
        (if negb (len test_snp_list =? 1)
         then
           write sys_stderr
             ("WARNING: could not find test SNP at position "
              +:+ chrom_name chrom +:+ ":" +:+ str_of_int snp_pos
              +:+ newline) ;;
           ret (None, [])
         else
           test_snp <- py_index test_snp_list 0 ;;
           (* pull out haplotype counts from linked heterozygous SNPs *)
           het_snps <- get_het_snps region_snps ;;
           het_snps <- set_snp_counts data_files region_list het_snps
                                      (Some test_snp) args ;;
           ret (Some test_snp, het_snps)) ;;
      let test_snp : option SNP := fst found in
      let het_snps : list SNP := snd found in
      region_read_counts <- get_region_read_counts data_files region_list ;;
      write_output format_2f sys_stdout region_list het_snps test_snp snp_pos
                   region_read_counts genomewide_read_counts ;;
      ret line_count.

End Main.

(** ** The header and the rest of [main] *)

Definition write_header (f : stream) : M unit :=
  write f ("CHROM "
           +:+ "TEST.SNP.POS "
           +:+ "TEST.SNP.ID "
           +:+ "TEST.SNP.REF.ALLELE "
           +:+ "TEST.SNP.ALT.ALLELE "
           +:+ "TEST.SNP.GENOTYPE "
           +:+ "TEST.SNP.HAPLOTYPE "
           +:+ "REGION.START "
           +:+ "REGION.END "
           +:+ "REGION.SNP.POS "
           +:+ "REGION.SNP.HET.PROB "
           +:+ "REGION.SNP.LINKAGE.PROB "
           +:+ "REGION.SNP.REF.HAP.COUNT "
           +:+ "REGION.SNP.ALT.HAP.COUNT "
           +:+ "REGION.SNP.OTHER.HAP.COUNT "
           +:+ "REGION.READ.COUNT "
           +:+ "GENOMEWIDE.READ.COUNT" +:+ newline).

Section MainInput.

Variable format_2f : float -> string.

(** [main], lines 581-638: what follows the opening of the input file, [f]
    being its lines.  [f.close()] has no effect that is modelled; the
    [dt.close()] after it reads a name that nothing binds. *)
Definition main_input (args : Args) (data_files : DataFiles)
    (chrom_dict : gmap string Chromosome) (ind_idx : Z)
    (genomewide_read_counts : Z) (f : list string) : M unit :=
  (match target_region_size args with
   | None => ret tt
   | Some size =>
       if size =? 0 then ret tt
       else write sys_stderr ("setting target region size to "
                              +:+ str_of_int size +:+ newline)
   end) ;;
  line_count <- foldM (main_loop_body format_2f args data_files chrom_dict
                                      ind_idx genomewide_read_counts)
                      0 f ;;
  write sys_stderr newline ;;
  dt <- unbound_name "dt" ;;
  let closed : DataFiles := dt in
  ret tt.

End MainInput.

(** ** The command line

    The module [argparse] is not part of the sources.  Of
    [parser.add_argument(name, *more, **kwargs)] the model keeps the check
    the library makes on the strings it is given, before it looks at a
    keyword argument: a single string that does not start with ['-']
    declares a positional argument; in every other case each string has to
    start with ['-'], and the first that does not raises [ValueError].  What
    the library does with a declaration that passes the check, and what
    [parser.parse_args()] reads from [sys.argv], are left open. *)

(** [s[0] in parser.prefix_chars], the prefix characters being ["-"] *)
Definition starts_with_prefix (s : string) : M bool :=
  match s with
  | EmptyString => raise IndexError
  | String c _ => ret (Ascii.eqb c "-")
  end.

Section CommandLine.

Variable Namespace : Type.
Variable add_action : string -> list string -> M unit.
Variable parser_parse_args : M Namespace.

(** The message shows the string as [%r] does, between single quotes for a
    string without quote or backslash. *)
Definition add_argument (name : string) (more : list string) : M unit :=
  positional <-
    (match more with
     | [] => starts <- starts_with_prefix name ;; ret (negb starts)
     | _ :: _ => ret false
     end) ;;
  if (positional : bool) then add_action name more
  else
    foldM
      (fun (_ : unit) option_string =>
         starts <- starts_with_prefix option_string ;;
         if (starts : bool) then ret tt
         else raise (ValueError ("invalid option string '" +:+ option_string
                                 +:+ "': must start with a character '-'")))
      tt (name :: more) ;;
    add_action name more.

Definition parse_args : M Namespace :=
  add_argument "--target_region_size" [] ;;
  add_argument "--chrom" [] ;;
  add_argument "--samples" [] ;;
  add_argument "--individual" [] ;;
  add_argument "--snp_index" [] ;;
  add_argument "--geno_prob"
    ["Path to HDF5 file containing genotype probabilities"] ;;
  add_argument "--haplotype" [] ;;
  add_argument "--homozygous_as_counts" [] ;;
  add_argument "--ref_as_counts" [] ;;
  add_argument "--alt_as_counts" [] ;;
  add_argument "--other_as_counts" [] ;;
  add_argument "--read_counts" [] ;;
  add_argument "input_file" [] ;;
  args <- parser_parse_args ;;
  ret args.

(** [main], lines 560-563 *)
Definition main_opening : M Namespace :=
  args <- parse_args ;;
  write_header sys_stdout ;;
  ret args.

End CommandLine.

(** * Vocabulary of the statements *)

(** The world after further [getNode] calls. *)
Definition after_lookups (w : World) (calls : list (h5_file * string)) : World :=
  mkWorld (rand_stream w) (rand_draws w) (stdout w) (stderr w) (files w)
          (node_lookups w ++ calls).

(** The region's chromosome has a node in the four SNP files, and the slice
    of the SNP index over the region holds the row number of some SNP. *)
Definition region_has_indexed_snp (data_files : DataFiles) (region : Coord)
    : Prop :=
  exists snp_tab hap_tab geno_tab snp_idx_tab i,
    snp_tab_h5 data_files !! ("/" +:+ chrom_name (chrom region)) = Some snp_tab /\
    hap_h5 data_files !! ("/" +:+ chrom_name (chrom region)) = Some hap_tab /\
    geno_prob_h5 data_files !! ("/" +:+ chrom_name (chrom region)) = Some geno_tab /\
    snp_index_h5 data_files !! ("/" +:+ chrom_name (chrom region)) = Some snp_idx_tab /\
    In i (py_slice snp_idx_tab (start region - 1) (end_ region)) /\
    i <> SNP_UNDEF.

(** *** The test SNP *)

(** The test SNP exists, its two haplotype indices differ, and neither is
    the undefined sentinel. *)
Definition het_with_defined_indices (test_snp : option SNP) : Prop :=
  exists test h0 h1,
    test_snp = Some test /\ haps test = [h0; h1] /\
    h0 <> h1 /\ h0 <> HAP_UNDEF /\ h1 <> HAP_UNDEF.

(** The test SNP exists, its two haplotype indices differ, and the first is
    not the undefined sentinel. *)
Definition het_with_first_index_defined (test_snp : option SNP) : Prop :=
  exists test h0 h1 rest,
    test_snp = Some test /\ haps test = h0 :: h1 :: rest /\
    h0 <> h1 /\ h0 <> HAP_UNDEF.

(** [set_snp_counts] takes its reference from the test SNP alone: the same
    two slots whatever the fallback policy and the random stream, and no
    number is drawn. *)
Definition treated_as_phased (test_snp : option SNP) : Prop :=
  exists ref_idx alt_idx,
    forall options w,
      phase_reference test_snp options w = (Ok (Some (ref_idx, alt_idx)), w).

(** *** The sample list *)

(** The first column of a line of the sample file, when it has one. *)
Definition first_column (line : string) : option string :=
  hd_error (split_ws (rstrip line)).

(** The name a line is compared by: its first column with every ["NA"]
    removed. *)
Definition sample_name (line : string) : option string :=
  option_map (fun word => replace word "NA" "") (first_column line).

(** A line with a first column that names somebody else. *)
Definition names_another (ind_name line : string) : Prop :=
  exists other, sample_name line = Some other /\ other <> ind_name.

(** The normalisation of the specification: a leading ["NA"] is stripped. *)
Definition strip_NA_prefix (word : string) : string :=
  match word with
  | String "N" (String "A" rest) => rest
  | _ => word
  end.

(** The exception of a lookup that found nobody. *)
Definition not_in_samples (options : Args) (ind_name : string) : exn :=
  ValueError ("individual " +:+ ind_name +:+ " is not in samples file "
              +:+ str_of_option (sample_file options)).

(** *** Regions, SNPs and raw counts *)

(** [snp.pos >= region.start and snp.pos <= region.end] *)
Definition contains (region : Coord) (snp : SNP) : Prop :=
  start region <= pos snp <= end_ region.

Definition in_some_region (region_list : list Coord) (snp : SNP) : Prop :=
  exists region, In region region_list /\ contains region snp.

(** The count a count file holds for the 1-based position [p] of a
    chromosome. *)
Definition raw_count (h5 : gmap string (list Z)) (chrom : Chromosome) (p : Z)
    : option Z :=
  match h5 !! ("/" +:+ chrom_name chrom) with
  | Some node => if 1 <=? p then nth_error node (Z.to_nat (p - 1)) else None
  | None => None
  end.

(** [snp.haps] is a pair. *)
Definition has_hap_pair (snp : SNP) : Prop :=
  exists h0 h1, haps snp = [h0; h1].

(** The two haplotype indices of a SNP differ. *)
Definition hap_indices_differ (snp : SNP) : bool :=
  match haps snp with
  | [h0; h1] => negb (h0 =? h1)
  | _ => false
  end.

(** A computation that draws no random number. *)
Definition draws_nothing {A} (c : M A) : Prop :=
  forall w, rand_draws (snd (c w)) = rand_draws w.

(** The haplotype counts of an updated SNP add up to the raw reference
    and alternate counts at its position on the region's chromosome. *)
Definition counts_conserved (data_files : DataFiles) (region : Coord)
    (snp : SNP) : Prop :=
  exists ref_count alt_count ref_hap alt_hap,
    raw_count (ref_count_h5 data_files) (chrom region) (pos snp) = Some ref_count /\
    raw_count (alt_count_h5 data_files) (chrom region) (pos snp) = Some alt_count /\
    ref_hap_count snp = Some ref_hap /\
    alt_hap_count snp = Some alt_hap /\
    ref_hap + alt_hap = ref_count + alt_count.

(** Both haplotype counts of an updated SNP are 0 and its other count is
    the raw other-allele count at its position. *)
Definition counts_zeroed (data_files : DataFiles) (region : Coord)
    (snp : SNP) : Prop :=
  ref_hap_count snp = Some 0 /\
  alt_hap_count snp = Some 0 /\
  exists other,
    raw_count (other_count_h5 data_files) (chrom region) (pos snp) = Some other /\
    other_count snp = Some other.

(** How a SNP [snp] of the list given to [set_snp_counts] relates to its
    state [snp'] after the regions [region_list] have been gone through,
    [good] being what a region establishes for a SNP it contains: position
    and haplotypes are kept, and a SNP that some region contains has been
    given its counts from such a region. *)
Definition settled (good : Coord -> SNP -> Prop) (region_list : list Coord)
    (snp snp' : SNP) : Prop :=
  1 <= pos snp /\
  pos snp' = pos snp /\
  haps snp' = haps snp /\
  (in_some_region region_list snp ->
   exists region,
     In region region_list /\ contains region snp /\ good region snp').

(** The three count files hold a count for position [p] of the region's
    chromosome. *)
Definition counts_readable (data_files : DataFiles) (region : Coord) (p : Z)
    : Prop :=
  exists ref_count alt_count other,
    raw_count (ref_count_h5 data_files) (chrom region) p = Some ref_count /\
    raw_count (alt_count_h5 data_files) (chrom region) p = Some alt_count /\
    raw_count (other_count_h5 data_files) (chrom region) p = Some other.

(** A region that [set_snp_counts] can go through: it starts at position 1
    or later, its chromosome has a node in the three count files, and these
    hold counts for every SNP of the list that the region contains. *)
Definition tracks_ready (data_files : DataFiles) (snps : list SNP)
    (region : Coord) : Prop :=
  1 <= start region /\
  (exists ref_node alt_node other_node,
      ref_count_h5 data_files !! ("/" +:+ chrom_name (chrom region))
      = Some ref_node /\
      alt_count_h5 data_files !! ("/" +:+ chrom_name (chrom region))
      = Some alt_node /\
      other_count_h5 data_files !! ("/" +:+ chrom_name (chrom region))
      = Some other_node) /\
  Forall (fun snp => contains region snp ->
                     counts_readable data_files region (pos snp)) snps.

(** A haplotype pair with both indices defined. *)
Definition defined_pair (hap_pair : list Z) : Prop :=
  exists h0 h1, hap_pair = [h0; h1] /\ (h0 = 0 \/ h0 = 1) /\ (h1 = 0 \/ h1 = 1).

(** Position and haplotypes are those of the SNP given. *)
Definition same_snp (snp snp' : SNP) : Prop :=
  pos snp' = pos snp /\ haps snp' = haps snp.

(** The test SNP gives no phase by the test of line 350: it is missing, or
    its two haplotype indices are equal, or the first is undefined. *)
Definition without_phase (test_snp : option SNP) : Prop :=
  test_snp = None \/
  exists test h0 h1 rest,
    test_snp = Some test /\ haps test = h0 :: h1 :: rest /\
    (h0 = h1 \/ h0 = HAP_UNDEF).

(** The test SNP is missing, homozygous, or has an undefined haplotype
    index. *)
Definition missing_homozygous_or_undefined (test_snp : option SNP) : Prop :=
  test_snp = None \/
  exists test h0 h1,
    test_snp = Some test /\ haps test = [h0; h1] /\
    (h0 = h1 \/ h0 = HAP_UNDEF \/ h1 = HAP_UNDEF).

(** ** Example inputs *)

Definition chr1 : Chromosome := {| chrom_name := "chr1"; chrom_length := 1000 |}.
Definition chr2 : Chromosome := {| chrom_name := "chr2"; chrom_length := 1000 |}.

Definition world0 : World :=
  mkWorld (fun _ => false) 0 [] [] ∅ [].

(** SNP files with one SNP, at position 3 of chr1, in row 0. *)
Definition one_snp_files : DataFiles :=
  {| ref_count_h5 := ∅; alt_count_h5 := ∅; other_count_h5 := ∅;
     read_count_h5 := ∅;
     snp_tab_h5 :=
       {[ "/chr1" := [ {| row_pos := 3; row_name := "rs1";
                          row_allele1 := "A"; row_allele2 := "C" |} ] ]};
     snp_index_h5 := {[ "/chr1" := [-1; -1; 0; -1; -1] ]};
     geno_prob_h5 := {[ "/chr1" := [ [0%float; 1%float; 0%float] ] ]};
     hap_h5 := {[ "/chr1" := [ [0; 1] ] ]} |}.


(** A chromosome of 120 bases. *)
Definition chr_short : Chromosome :=
  {| chrom_name := "chr1"; chrom_length := 120 |}.

Definition args_with_size (size : Z) : Args :=
  {| target_region_size := Some size; homozygous_as_counts := "zero";
     sample_file := None; pop := "YRI" |}.

(** The words of an input line with test SNP at 120 and target region
    [100, 149]. *)
Definition line_100_149 : list string :=
  ["chr1"; "120"; "rs1"; "A"; "C"; "+"; "gene"; "100"; "149"].

(** The row [write_NA_line] writes. *)
Definition NA_row : string :=
  "NA NA NA NA NA NA NA NA NA NA NA NA NA NA NA" +:+ newline.

Definition snp_at (p : Z) (hap_pair : list Z) : SNP :=
  mkSNP chr1 p "rs1" "A" "C" 1%float 1%float hap_pair 1%float None None None.

Definition args_with_policy (policy : string) : Args :=
  {| target_region_size := None; homozygous_as_counts := policy;
     sample_file := None; pop := "YRI" |}.

(** A sample file whose second line has ["NA"] inside its first column. *)
Definition sample_lines : list string :=
  [ "NA18505 YRI" +:+ newline; "XNA1 YRI" +:+ newline ].

Definition world_with_samples : World :=
  mkWorld (fun _ => false) 0 [] []
          {[ "/data/share/10_IND/IMPUTE/YRI_samples.txt" := sample_lines ]} [].

(** Count tracks of five positions on chr1, with reads at positions 2
    and 4. *)
Definition count_files : DataFiles :=
  {| ref_count_h5 := {[ "/chr1" := [0; 7; 0; 10; 0] ]};
     alt_count_h5 := {[ "/chr1" := [0; 2; 0; 3; 0] ]};
     other_count_h5 := {[ "/chr1" := [0; 1; 0; 5; 0] ]};
     read_count_h5 := {[ "/chr1" := [4; 9; 0; 20; 1] ]};
     snp_tab_h5 := ∅; snp_index_h5 := ∅; geno_prob_h5 := ∅; hap_h5 := ∅ |}.

Definition region_1_5 : Coord := mkCoord chr1 1 5.

(** Two linked heterozygous SNPs, at positions 2 and 4, in opposite
    phase. *)
Definition linked_snps : list SNP := [snp_at 2 [0; 1]; snp_at 4 [1; 0]].

Definition counted (snp : SNP) (ref_hap alt_hap other : Z) : SNP :=
  with_hap_counts (with_other_count snp other) ref_hap alt_hap.

(** [linked_snps] after phasing on a test SNP with haplotype pair (0, 1). *)
Definition linked_snps_phased : list SNP :=
  [counted (snp_at 2 [0; 1]) 7 2 1; counted (snp_at 4 [1; 0]) 3 10 5].

(** [linked_snps] after the [zero] policy. *)
Definition linked_snps_zeroed : list SNP :=
  [counted (snp_at 2 [0; 1]) 0 0 1; counted (snp_at 4 [1; 0]) 0 0 5].

(** * Vocabulary of the further properties *)

(** The first two haplotype indices of a SNP exist and differ. *)
Definition first_two_differ (snp : SNP) : bool :=
  match haps snp with
  | h0 :: h1 :: _ => negb (h0 =? h1)
  | _ => false
  end.

(** [snp.haps] has at least two entries. *)
Definition has_two_haps (snp : SNP) : Prop :=
  exists h0 h1 rest, haps snp = h0 :: h1 :: rest.

(** The test of line 392, as a boolean. *)
Definition inside (region : Coord) (snp : SNP) : bool :=
  (pos snp >=? start region) && (pos snp <=? end_ region).

(** Example: a sample file with an empty second line. *)
Definition sample_lines_with_blank : list string :=
  [ "NA18505 YRI" +:+ newline; newline; "NA18507 YRI" +:+ newline ].

Definition world_with_blank_sample : World :=
  mkWorld (fun _ => false) 0 [] []
          {[ "/data/share/10_IND/IMPUTE/YRI_samples.txt"
             := sample_lines_with_blank ]} [].

(** Two states of a SNP object that differ at most in the three count
    attributes. *)
Definition same_but_counts (snp snp' : SNP) : Prop :=
  snp_chrom snp' = snp_chrom snp /\ pos snp' = pos snp /\
  name snp' = name snp /\ ref_allele snp' = ref_allele snp /\
  alt_allele snp' = alt_allele snp /\ het_prob snp' = het_prob snp /\
  geno_sum snp' = geno_sum snp /\ haps snp' = haps snp /\
  linkage_prob snp' = linkage_prob snp.

(** The three count attributes of a SNP are set. *)
Definition counts_set (snp : SNP) : Prop :=
  exists ref_hap alt_hap other,
    ref_hap_count snp = Some ref_hap /\ alt_hap_count snp = Some alt_hap /\
    other_count snp = Some other.

(** How a SNP [snp] of the list given to [set_snp_counts] relates to its
    state [snp'] after the regions [region_list], whatever the policy: only
    the counts can have changed; a SNP in some region has got from such a
    region what [good] says, and a SNP in no region is as it was. *)
Definition carried (good : Coord -> SNP -> Prop) (region_list : list Coord)
    (snp snp' : SNP) : Prop :=
  same_but_counts snp snp' /\
  (in_some_region region_list snp ->
   exists region,
     In region region_list /\ contains region snp /\ good region snp') /\
  (~ in_some_region region_list snp -> snp' = snp).



(** The number of pairs of a region of the list and a SNP it contains: a SNP
    counts once for every region that contains it. *)
Definition containments (region_list : list Coord) (snps : list SNP) : nat :=
  list_sum (map (fun region => length (List.filter (inside region) snps))
                region_list).

(** Example: two regions that overlap on positions 2 to 5. *)
Definition region_2_9 : Coord := mkCoord chr1 2 9.

(** [linked_snps] with the raw reference count as reference-haplotype count
    at both SNPs. *)
Definition linked_snps_unswapped : list SNP :=
  [counted (snp_at 2 [0; 1]) 7 2 1; counted (snp_at 4 [1; 0]) 10 3 5].

(** The SNP with its two haplotype counts exchanged. *)
Definition swap_counts (snp : SNP) : SNP :=
  mkSNP (snp_chrom snp) (pos snp) (name snp) (ref_allele snp) (alt_allele snp)
        (het_prob snp) (geno_sum snp) (haps snp) (linkage_prob snp)
        (alt_hap_count snp) (ref_hap_count snp) (other_count snp).

(** The outcome of [set_snp_counts] with the haplotype counts of every SNP
    exchanged; an exception and the world are kept. *)
Definition swap_outcome (outcome : result (list SNP) * World)
    : result (list SNP) * World :=
  (match fst outcome with
   | Ok snps => Ok (map swap_counts snps)
   | Raise e => Raise e
   end,
   snd outcome).

(** A heterozygous SNP with both haplotype indices defined: its pair is
    (0, 1) or (1, 0). *)
Definition het_defined_pair (snp : SNP) : Prop :=
  haps snp = [0; 1] \/ haps snp = [1; 0].

(** A SNP as [get_region_snps] builds it: no haplotype count yet. *)
Definition uncounted (snp : SNP) : Prop :=
  ref_hap_count snp = None /\ alt_hap_count snp = None.

(** The sum of a list of counts, as [np.sum]. *)
Definition total (counts : list Z) : Z := fold_right Z.add 0 counts.

(** The count a track holds for the 1-based position [p], 0 beyond its
    end. *)
Definition count_at (node : list Z) (p : Z) : Z :=
  nth (Z.to_nat (p - 1)) node 0.

(** The positions [first], [first + 1], ... [last]. *)
Definition positions (first last : Z) : list Z :=
  map (fun i => first + Z.of_nat i) (seq 0 (Z.to_nat (last - first + 1))).

(** The value of a decimal numeral read from the left, [acc] being the
    value of the digits already read. *)
Fixpoint uint_value (acc : Z) (d : Decimal.uint) : Z :=
  match d with
  | Decimal.Nil => acc
  | Decimal.D0 d => uint_value (10 * acc + 0) d
  | Decimal.D1 d => uint_value (10 * acc + 1) d
  | Decimal.D2 d => uint_value (10 * acc + 2) d
  | Decimal.D3 d => uint_value (10 * acc + 3) d
  | Decimal.D4 d => uint_value (10 * acc + 4) d
  | Decimal.D5 d => uint_value (10 * acc + 5) d
  | Decimal.D6 d => uint_value (10 * acc + 6) d
  | Decimal.D7 d => uint_value (10 * acc + 7) d
  | Decimal.D8 d => uint_value (10 * acc + 8) d
  | Decimal.D9 d => uint_value (10 * acc + 9) d
  end.

(** No character of the string satisfies [p]. *)
Fixpoint free_of (p : ascii -> bool) (s : string) : bool :=
  match s with
  | EmptyString => true
  | String c s' => negb (p c) && free_of p s'
  end.

(** Fields 7 and 8 of an input line, as [write_output] prints the starts
    and the ends of a region list. *)
Definition region_start_str (region_list : list Coord) : string :=
  join ";" (map (fun r => str_of_int (start r)) region_list).

Definition region_end_str (region_list : list Coord) : string :=
  join ";" (map (fun r => str_of_int (end_ r)) region_list).

Definition args_without_size : Args :=
  {| target_region_size := None; homozygous_as_counts := "zero";
     sample_file := None; pop := "YRI" |}.

(** The world after [f.write(s)]. *)
Definition written (f : stream) (s : string) (w : World) : World :=
  match f with
  | sys_stdout =>
      mkWorld (rand_stream w) (rand_draws w) (stdout w ++ [s]) (stderr w)
              (files w) (node_lookups w)
  | sys_stderr =>
      mkWorld (rand_stream w) (rand_draws w) (stdout w) (stderr w ++ [s])
              (files w) (node_lookups w)
  end.

(** A computation that writes nothing to the standard output. *)
Definition keeps_stdout {A} (c : M A) : Prop :=
  forall w, stdout (snd (c w)) = stdout w.

(** A computation that raises in every world, the standard output left as
    it found it. *)
Definition fails_quietly {A} (c : M A) : Prop :=
  forall w, (exists e, fst (c w) = Raise e) /\ stdout (snd (c w)) = stdout w.

(** The second field of an input line, [words[1]]. *)
Definition second_field (line : string) : option string :=
  nth_error (split_ws (rstrip line)) 1.

(** An input line that the loop of [main] skips: a comment. *)
Definition comment_line (line : string) : bool := startswith line "#".

(** An input line without a test SNP: not a comment, ["NA"] in its second
    field. *)
Definition NA_line (line : string) : bool :=
  negb (startswith line "#") &&
  match second_field line with
  | Some word => String.eqb word "NA"
  | None => false
  end.

(** Example: an input file without a test SNP, two comments and two lines
    with ["NA"] in the second field. *)
Definition lines_without_snp : list string :=
  [ "# CHROM TEST.SNP.POS" +:+ newline;
    "chr1 NA rs1 A C + gene 100 149" +:+ newline;
    "# second gene" +:+ newline;
    "chr1 NA rs2 G T - gene 300 349" +:+ newline ].

(** A computation that raises in every world. *)
Definition never_returns {A} (c : M A) : Prop :=
  forall w, exists e, fst (c w) = Raise e.

(** A parser that takes every declaration it is handed. *)
Definition accepts_all (add_action : string -> list string -> M unit) : Prop :=
  forall name more w, add_action name more w = (Ok tt, w).

(** The message of the [ValueError] that the declaration of [--geno_prob]
    raises. *)
Definition geno_prob_message : string :=
  "invalid option string 'Path to HDF5 file containing genotype probabilities': must start with a character '-'".

(** * Properties *)

(** ** Reasoning about computations *)

Lemma bind_ok {A B} (c : M A) (k : A -> M B) w b w' :
  bind c k w = (Ok b, w') ->
  exists a w1, c w = (Ok a, w1) /\ k a w1 = (Ok b, w').
Proof.
  unfold bind. destruct (c w) as [[a|e] w1]; intros H.
  - exists a, w1. split; [reflexivity | exact H].
  - discriminate H.
Qed.

Lemma bind_raise {A B} (c : M A) (k : A -> M B) w e w' :
  c w = (Raise e, w') -> bind c k w = (Raise e, w').
Proof. unfold bind. intros ->. reflexivity. Qed.

Lemma bind_step {A B} (c : M A) (k : A -> M B) w a w1 :
  c w = (Ok a, w1) -> bind c k w = k a w1.
Proof. unfold bind. intros ->. reflexivity. Qed.

Lemma py_index_world {A} (l : list A) i w : snd (py_index l i w) = w.
Proof.
  unfold py_index. destruct (_ <? 0); [reflexivity |].
  destruct (nth_error _ _); reflexivity.
Qed.

Lemma py_index_ok {A} (l : list A) i w x w' :
  py_index l i w = (Ok x, w') ->
  w' = w /\
  exists j, (if i <? 0 then i + len l else i) = j /\ 0 <= j /\
            nth_error l (Z.to_nat j) = Some x.
Proof.
  unfold py_index. set (j := if i <? 0 then i + len l else i).
  destruct (j <? 0) eqn:Hj; [discriminate |].
  destruct (nth_error l (Z.to_nat j)) as [y|] eqn:Hn; [| discriminate].
  unfold ret. intros H. injection H as <- <-.
  split; [reflexivity |]. exists j. repeat split; [lia | exact Hn].
Qed.

Lemma py_index_nth {A} (l : list A) (n : nat) x w :
  nth_error l n = Some x -> py_index l (Z.of_nat n) w = (Ok x, w).
Proof.
  intros H. unfold py_index. cbv zeta.
  destruct (Z.ltb_spec (Z.of_nat n) 0) as [Hneg|_]; [lia |].
  destruct (Z.ltb_spec (Z.of_nat n) 0) as [Hneg|_]; [lia |].
  rewrite Nat2Z.id, H. reflexivity.
Qed.

(** The five names read without being bound, each checked against the scope
    it is read in; the names they were meant to be are bound. *)
Lemma unbound_names :
  name_bound get_region_snps_locals "genome" = false /\
  name_bound get_region_snps_locals "CoordError" = false /\
  name_bound get_region_snps_locals "snp_indx_tab" = false /\
  name_bound get_region_snps_locals "snp_idx_tab" = true /\
  name_bound get_genomewide_count_locals "gdb" = false /\
  name_bound main_locals "dt" = false /\
  name_bound main_locals "data_files" = true.
Proof. vm_compute. repeat split. Qed.

Lemma getNode_found {A} which (h5 : gmap string A) node_name node w :
  h5 !! node_name = Some node ->
  getNode which h5 node_name w = (Ok node, after_lookups w [(which, node_name)]).
Proof. unfold getNode. intros ->. reflexivity. Qed.

Lemma after_lookups_app w l1 l2 :
  after_lookups (after_lookups w l1) l2 = after_lookups w (l1 ++ l2).
Proof. unfold after_lookups. simpl. rewrite <- app_assoc. reflexivity. Qed.

(** ** SnpResolver: [get_region_snps] *)

(** No call of [get_region_snps] returns a list of SNPs. *)
Lemma get_region_snps_raises data_files region_list ind_idx w :
  exists e, fst (get_region_snps data_files region_list ind_idx w) = Raise e.
Proof.
  destruct region_list as [|region0 rest]; simpl.
  - eexists. reflexivity.
  - unfold bind, getNode.
    destruct (snp_tab_h5 data_files !! _); [| eexists; reflexivity].
    destruct (hap_h5 data_files !! _); [| eexists; reflexivity].
    destruct (geno_prob_h5 data_files !! _); [| eexists; reflexivity].
    destruct (snp_index_h5 data_files !! _); [| eexists; reflexivity].
    rewrite String.eqb_refl. simpl. eexists. reflexivity.
Qed.

(** [get_region_snps] raises nothing but a [NameError] or, for a chromosome
    missing from a file, PyTables' [NoSuchNodeError]. *)
Lemma get_region_snps_exceptions data_files region_list ind_idx w e :
  fst (get_region_snps data_files region_list ind_idx w) = Raise e ->
  (exists x, e = NameError x /\ name_bound get_region_snps_locals x = false) \/
  (exists path, e = NoSuchNodeError path).
Proof.
  destruct region_list as [|region0 rest]; simpl.
  - intros [= <-]. left. eexists. split; reflexivity.
  - unfold bind, getNode.
    destruct (snp_tab_h5 data_files !! _);
      [| intros [= <-]; right; eexists; reflexivity].
    destruct (hap_h5 data_files !! _);
      [| intros [= <-]; right; eexists; reflexivity].
    destruct (geno_prob_h5 data_files !! _);
      [| intros [= <-]; right; eexists; reflexivity].
    destruct (snp_index_h5 data_files !! _);
      [| intros [= <-]; right; eexists; reflexivity].
    rewrite String.eqb_refl. simpl.
    intros [= <-]. left. eexists. split; reflexivity.
Qed.

(** C8: for a non-empty region list whose first region holds an indexed SNP,
    [get_region_snps] makes its four [getNode] calls and then raises
    [NameError] for [snp_indx_tab], a name no scope binds (the table is bound
    as [snp_idx_tab]); no SNP record is built, and no call of the function,
    on any input, returns. *)
Theorem get_region_snps_NameError data_files region rest ind_idx w :
  region_has_indexed_snp data_files region ->
  get_region_snps data_files (region :: rest) ind_idx w =
    (Raise (NameError "snp_indx_tab"),
     after_lookups w
       [ (snp_tab_file, "/" +:+ chrom_name (chrom region));
         (hap_file, "/" +:+ chrom_name (chrom region));
         (geno_prob_file, "/" +:+ chrom_name (chrom region));
         (snp_index_file, "/" +:+ chrom_name (chrom region)) ]) /\
  name_bound get_region_snps_locals "snp_indx_tab" = false /\
  name_bound get_region_snps_locals "snp_idx_tab" = true /\
  forall data_files' region_list' ind_idx' w',
    exists e,
      fst (get_region_snps data_files' region_list' ind_idx' w') = Raise e.
Proof.
  intros (snp_tab & hap_tab & geno_tab & snp_idx_tab & i
          & Hsnp & Hhap & Hgeno & Hidx & _ & _).
  split; [| split; [| split]].
  - unfold get_region_snps.
    rewrite (bind_step _ _ _ _ _ (getNode_found _ _ _ _ _ Hsnp)).
    rewrite (bind_step _ _ _ _ _ (getNode_found _ _ _ _ _ Hhap)).
    rewrite (bind_step _ _ _ _ _ (getNode_found _ _ _ _ _ Hgeno)).
    rewrite (bind_step _ _ _ _ _ (getNode_found _ _ _ _ _ Hidx)).
    rewrite !after_lookups_app. simpl.
    rewrite String.eqb_refl. reflexivity.
  - apply unbound_names.
  - apply unbound_names.
  - intros. apply get_region_snps_raises.
Qed.

Lemma get_region_snps_NameError_witness :
  fst (get_region_snps one_snp_files [mkCoord chr1 1 5] 0 world0)
  = Raise (NameError "snp_indx_tab").
Proof.
  assert (H : region_has_indexed_snp one_snp_files (mkCoord chr1 1 5)).
  { exists [ {| row_pos := 3; row_name := "rs1";
                row_allele1 := "A"; row_allele2 := "C" |} ],
           [ [0; 1] ], [ [0%float; 1%float; 0%float] ], [-1; -1; 0; -1; -1], 0.
    repeat split; try reflexivity.
    - vm_compute. right. right. left. reflexivity.
    - discriminate. }
  destruct (get_region_snps_NameError one_snp_files (mkCoord chr1 1 5) [] 0
              world0 H) as [Hrun _].
  rewrite Hrun. reflexivity.
Defined.

(** ** RegionAggregator: [get_genomewide_count] *)

(** C9: whatever the HDF5 file and the chromosome list, and whatever
    [chromstat.get_stats] does, [get_genomewide_count] raises [NameError]
    for [gdb] before [get_stats] is called: no count is computed and the
    world is untouched. *)
Theorem get_genomewide_count_NameError
    (GenomeDB ChromStats : Type)
    (get_stats : GenomeDB -> list Chromosome -> M ChromStats)
    (sum : ChromStats -> Z)
    (h5file : gmap string (list Z)) (chrom_list : list Chromosome) (w : World) :
  get_genomewide_count GenomeDB ChromStats get_stats sum h5file chrom_list w
  = (Raise (NameError "gdb"), w) /\
  name_bound get_genomewide_count_locals "gdb" = false.
Proof. split; [reflexivity | apply unbound_names]. Qed.

(** ** Target regions *)

(** A region recentred without clamping is one base longer than twice the
    half size: for an even size, one more than the size asked for. *)
Lemma override_size_length args chrom region size :
  target_region_size args = Some size ->
  size <> 0 ->
  length_ region <> size ->
  1 <= (start region + end_ region) / 2 - size / 2 ->
  (start region + end_ region) / 2 + size / 2 <= chrom_length chrom ->
  length_ (override_size args chrom region) = 2 * (size / 2) + 1.
Proof.
  intros Hsize Hnz Hlen Hlo Hhi. unfold override_size. rewrite Hsize.
  destruct (Z.eqb_spec size 0) as [|_]; [contradiction |].
  destruct (Z.eqb_spec (length_ region) size) as [|_]; [contradiction |].
  simpl.
  destruct (Z.ltb_spec ((start region + end_ region) / 2 - size / 2) 1);
    [lia |].
  destruct (Z.gtb_spec ((start region + end_ region) / 2 + size / 2)
                       (chrom_length chrom)); [lia |].
  unfold length_, with_bounds. simpl. lia.
Qed.

(** C4: on the sub-interval [100, 149] (length 50) with target size 20,
    [get_target_regions] returns [114, 134], which is 21 bases long, not the
    [115, 134] of a 20-base region; with target size 200 on a chromosome of
    120 bases it returns [24, 120], the end clamped to 120.  Whenever a
    region is recentred to an even size without clamping, it comes out one
    base longer than the size. *)
Theorem get_target_regions_recentred :
  fst (get_target_regions (args_with_size 20) chr1 line_100_149 world0)
  = Ok [mkCoord chr1 114 134] /\
  length_ (mkCoord chr1 114 134) = 21 /\
  fst (get_target_regions (args_with_size 200) chr_short line_100_149 world0)
  = Ok [mkCoord chr_short 24 120] /\
  forall chrom region half,
    half <> 0 ->
    length_ region <> 2 * half ->
    1 <= (start region + end_ region) / 2 - half ->
    (start region + end_ region) / 2 + half <= chrom_length chrom ->
    length_ (override_size (args_with_size (2 * half)) chrom region)
    = 2 * half + 1.
Proof.
  split; [vm_compute; reflexivity |].
  split; [reflexivity |].
  split; [vm_compute; reflexivity |].
  intros chrom region half Hnz Hlen Hlo Hhi.
  assert (Hhalf : 2 * half / 2 = half)
    by (rewrite Z.mul_comm; apply Z.div_mul; lia).
  rewrite (override_size_length _ chrom region (2 * half));
    rewrite ?Hhalf; try assumption; try reflexivity; lia.
Qed.

Lemma py_index_raises {A} (l : list A) i w e w' :
  py_index l i w = (Raise e, w') -> e = IndexError.
Proof.
  unfold py_index. destruct (_ <? 0); [intros [= <- _]; reflexivity |].
  destruct (nth_error _ _); [discriminate | intros [= <- _]; reflexivity].
Qed.

Lemma py_int_raises s w e w' :
  py_int s w = (Raise e, w') -> exists msg, e = ValueError msg.
Proof.
  unfold py_int.
  match goal with
  | |- context [match ?parsed with Some _ => _ | None => _ end] =>
      destruct parsed
  end; [discriminate |].
  intros [= <- _]. eexists. reflexivity.
Qed.

Lemma bind_raises {A B} (c : M A) (k : A -> M B) w e w' :
  bind c k w = (Raise e, w') ->
  c w = (Raise e, w') \/ exists a w1, c w = (Ok a, w1) /\ k a w1 = (Raise e, w').
Proof.
  unfold bind. destruct (c w) as [[a|e1] w1]; intros H.
  - right. exists a, w1. auto.
  - left. injection H as <- <-. reflexivity.
Qed.

(** The loop of [get_target_regions] raises nothing but the [IndexError] of
    a subscript or the [ValueError] of [int]. *)
Lemma region_parsing_exceptions args chrom start_words end_words indices :
  forall region_list w e w',
    foldM
      (fun (region_list : list Coord) i =>
         start_word <- py_index start_words i ;;
         start <- py_int start_word ;;
         end_word <- py_index end_words i ;;
         end_ <- py_int end_word ;;
         let region := mkCoord chrom start end_ in
         ret (region_list ++ [override_size args chrom region])%list)
      region_list indices w = (Raise e, w') ->
    e = IndexError \/ exists msg, e = ValueError msg.
Proof.
  induction indices as [|i indices IH]; intros region_list w e w' Hrun.
  - discriminate Hrun.
  - simpl in Hrun. apply bind_raises in Hrun.
    destruct Hrun as [Hbody | (acc & w1 & _ & Hrest)]; [| exact (IH _ _ _ _ Hrest)].
    apply bind_raises in Hbody.
    destruct Hbody as [H | (sw & w1 & _ & Hbody)];
      [left; exact (py_index_raises _ _ _ _ _ H) |].
    apply bind_raises in Hbody.
    destruct Hbody as [H | (sv & w2 & _ & Hbody)];
      [right; exact (py_int_raises _ _ _ _ H) |].
    apply bind_raises in Hbody.
    destruct Hbody as [H | (ew & w3 & _ & Hbody)];
      [left; exact (py_index_raises _ _ _ _ _ H) |].
    apply bind_raises in Hbody.
    destruct Hbody as [H | (ev & w4 & _ & Hbody)];
      [right; exact (py_int_raises _ _ _ _ H) |].
    discriminate Hbody.
Qed.

(** [get_target_regions] raises [CoordError] exactly when the start list and
    the end list of the line differ in length. *)
Lemma get_target_regions_CoordError args chrom words w word7 word8 :
  nth_error words 7 = Some word7 ->
  nth_error words 8 = Some word8 ->
  (exists msg,
      fst (get_target_regions args chrom words w) = Raise (CoordError msg))
  <-> len (split_on semicolon word7) <> len (split_on semicolon word8).
Proof.
  intros H7 H8. unfold get_target_regions.
  rewrite (bind_step _ _ _ _ _ (py_index_nth _ 7 _ w H7)).
  rewrite (bind_step _ _ _ _ _ (py_index_nth _ 8 _ w H8)).
  destruct (Z.eqb_spec (len (split_on semicolon word7))
                       (len (split_on semicolon word8))) as [Heq|Hne]; simpl.
  - split; [| intros Hne; contradiction].
    intros (msg & Hrun).
    destruct (foldM _ [] _ w) as [[regions|e] w'] eqn:Hfold;
      [discriminate Hrun |].
    simpl in Hrun. injection Hrun as ->.
    apply region_parsing_exceptions in Hfold.
    destruct Hfold as [H | (m & H)]; discriminate H.
  - split; [intros _; exact Hne |]. intros _. eexists. reflexivity.
Qed.

(** C7: a region list on two chromosomes does not raise [CoordError] in
    [get_region_snps]; the first region already stops the call with a
    [NameError], and so would the [raise CoordError(...)] of the chromosome
    check, whose class name is not bound either: no call of
    [get_region_snps] raises [CoordError].  [get_target_regions] does raise
    it, exactly when the start and end lists of a line differ in length. *)
Theorem get_region_snps_no_CoordError :
  fst (get_region_snps one_snp_files [mkCoord chr1 1 5; mkCoord chr2 1 5] 0
                       world0)
  = Raise (NameError "snp_indx_tab") /\
  name_bound get_region_snps_locals "CoordError" = false /\
  (forall data_files region_list ind_idx w msg,
      fst (get_region_snps data_files region_list ind_idx w)
      <> Raise (CoordError msg)) /\
  (forall args chrom words w word7 word8,
      nth_error words 7 = Some word7 ->
      nth_error words 8 = Some word8 ->
      (exists msg,
          fst (get_target_regions args chrom words w) = Raise (CoordError msg))
      <-> len (split_on semicolon word7) <> len (split_on semicolon word8)).
Proof.
  split; [vm_compute; reflexivity |].
  split; [apply unbound_names |].
  split.
  - intros data_files region_list ind_idx w msg H.
    apply get_region_snps_exceptions in H.
    destruct H as [(x & H & _) | (path & H)]; discriminate H.
  - intros. apply get_target_regions_CoordError; assumption.
Qed.

(** ** The input loop *)

(** C6: a line that is not a comment and whose second field is ["NA"] makes
    the loop body write one row to the standard output, made of exactly 15
    ["NA"] tokens, and return; no [getNode] call is made on any data file
    and no random number is drawn. *)
Theorem main_loop_body_NA_line
    (format_2f : float -> string) (args : Args) (data_files : DataFiles)
    (chrom_dict : gmap string Chromosome)
    (ind_idx genomewide_read_counts line_count : Z) (line : string)
    (w : World) :
  startswith line "#" = false ->
  nth_error (split_ws (rstrip line)) 1 = Some "NA" ->
  fst (main_loop_body format_2f args data_files chrom_dict ind_idx
                      genomewide_read_counts line_count line w)
  = Ok (line_count + 1) /\
  stdout (snd (main_loop_body format_2f args data_files chrom_dict ind_idx
                              genomewide_read_counts line_count line w))
  = (stdout w ++ [NA_row])%list /\
  split_ws NA_row = repeat "NA" 15 /\
  node_lookups (snd (main_loop_body format_2f args data_files chrom_dict
                                    ind_idx genomewide_read_counts line_count
                                    line w))
  = node_lookups w /\
  rand_draws (snd (main_loop_body format_2f args data_files chrom_dict
                                  ind_idx genomewide_read_counts line_count
                                  line w))
  = rand_draws w.
Proof.
  intros Hcomment Hfield.
  assert (Hbody :
    exists w1,
      main_loop_body format_2f args data_files chrom_dict ind_idx
                     genomewide_read_counts line_count line w
      = (Ok (line_count + 1),
         mkWorld (rand_stream w1) (rand_draws w1) (stdout w1 ++ [NA_row])
                 (stderr w1) (files w1) (node_lookups w1)) /\
      stdout w1 = stdout w /\ node_lookups w1 = node_lookups w /\
      rand_draws w1 = rand_draws w).
  { unfold main_loop_body.
    set (tick := if (line_count + 1) mod 1000 =? 0
                 then write sys_stderr "." else ret tt).
    assert (Htick : exists w1, tick w = (Ok tt, w1) /\ stdout w1 = stdout w /\
                      node_lookups w1 = node_lookups w /\
                      rand_draws w1 = rand_draws w).
    { subst tick. destruct (_ =? 0); eexists; (split; [reflexivity |]);
        simpl; auto. }
    destruct Htick as (w1 & Htick & Hout & Hlook & Hrand).
    exists w1. split; [| auto].
    rewrite (bind_step _ _ _ _ _ Htick). rewrite Hcomment.
    rewrite (bind_step _ _ _ _ _ (py_index_nth _ 1 _ w1 Hfield)).
    reflexivity. }
  destruct Hbody as (w1 & -> & Hout & Hlook & Hrand). simpl.
  rewrite Hout, Hlook, Hrand. repeat split.
Qed.

Lemma main_loop_body_NA_line_witness :
  fst (main_loop_body (fun _ => "0.00") (args_with_size 20) one_snp_files ∅ 0
                      0 0 ("chr1 NA rs1 A C + gene 100 149" +:+ newline)
                      world0)
  = Ok 1.
Proof.
  apply (main_loop_body_NA_line (fun _ => "0.00") (args_with_size 20)
           one_snp_files ∅ 0 0 0
           ("chr1 NA rs1 A C + gene 100 149" +:+ newline) world0);
    reflexivity.
Defined.

(** ** HaplotypePhaser: the phase reference *)

Lemma py_index_0 {A} (x : A) l w : py_index (x :: l) 0 w = (Ok x, w).
Proof. reflexivity. Qed.

Lemma py_index_1 {A} (x y : A) l w : py_index (x :: y :: l) 1 w = (Ok y, w).
Proof. reflexivity. Qed.

Lemma phase_reference_het test h0 h1 rest options w :
  haps test = h0 :: h1 :: rest -> h0 <> h1 -> h0 <> HAP_UNDEF ->
  phase_reference (Some test) options w
  = (Ok (Some (if h0 =? 0 then (0, 1) else (1, 0))), w).
Proof.
  intros Hhaps Hne Hdef. unfold phase_reference. rewrite Hhaps.
  rewrite (bind_step _ _ _ _ _ (py_index_0 _ _ _)).
  rewrite (bind_step _ _ _ _ _ (py_index_1 _ _ _ _)).
  destruct (Z.eqb_spec h0 h1) as [|_]; [contradiction |].
  destruct (Z.eqb_spec h0 HAP_UNDEF) as [|_]; [contradiction |].
  simpl. destruct (h0 =? 0); reflexivity.
Qed.

Lemma phase_reference_not_het test h0 h1 rest options :
  haps test = h0 :: h1 :: rest -> h0 = h1 \/ h0 = HAP_UNDEF ->
  forall w, phase_reference (Some test) options w = fallback_reference options w.
Proof.
  intros Hhaps Hcase w. unfold phase_reference. rewrite Hhaps.
  rewrite (bind_step _ _ _ _ _ (py_index_0 _ _ _)).
  rewrite (bind_step _ _ _ _ _ (py_index_1 _ _ _ _)).
  destruct (Z.eqb_spec h0 h1) as [|Hne]; [reflexivity |].
  destruct (Z.eqb_spec h0 HAP_UNDEF) as [|Hdef]; [reflexivity |].
  destruct Hcase; contradiction.
Qed.

(** A test SNP that is treated as phased passes the test of line 350. *)
Lemma treated_as_phased_inv test_snp :
  treated_as_phased test_snp -> het_with_first_index_defined test_snp.
Proof.
  intros (ref_idx & alt_idx & Hrun).
  specialize (Hrun (args_with_policy "zero") world0).
  destruct test_snp as [test|]; [| discriminate Hrun].
  destruct (haps test) as [|h0 [|h1 rest]] eqn:Hhaps.
  - unfold phase_reference in Hrun. rewrite Hhaps in Hrun. discriminate Hrun.
  - unfold phase_reference in Hrun. rewrite Hhaps in Hrun. discriminate Hrun.
  - destruct (Z.eq_dec h0 h1) as [Heq|Hne].
    + rewrite (phase_reference_not_het test h0 h1 rest _ Hhaps (or_introl Heq))
        in Hrun.
      discriminate Hrun.
    + destruct (Z.eq_dec h0 HAP_UNDEF) as [Hundef|Hdef].
      * rewrite (phase_reference_not_het test h0 h1 rest _ Hhaps
                   (or_intror Hundef)) in Hrun.
        discriminate Hrun.
      * exists test, h0, h1, rest. auto.
Qed.

(** C2, as the code has it: the test SNP is treated as phased exactly when it
    exists, its two haplotype indices differ and the first of them is not the
    undefined sentinel (the second is not looked at).  The reference slot is
    then slot 0 when its allele is 0 and slot 1 otherwise, the alternate slot
    being the other one; when both alleles are 0 or 1, the reference slot is
    the one whose allele is 0.  In every other case with a readable
    haplotype pair, and when the test SNP is missing, the fallback policy
    decides. *)
Theorem phase_reference_phased_iff (test_snp : option SNP) :
  (treated_as_phased test_snp <-> het_with_first_index_defined test_snp) /\
  (forall test h0 h1 rest options w,
      test_snp = Some test -> haps test = h0 :: h1 :: rest ->
      h0 <> h1 -> h0 <> HAP_UNDEF ->
      exists ref_idx alt_idx,
        phase_reference test_snp options w = (Ok (Some (ref_idx, alt_idx)), w) /\
        ref_idx = (if h0 =? 0 then 0 else 1) /\ alt_idx = 1 - ref_idx /\
        ((h0 = 0 \/ h0 = 1) -> (h1 = 0 \/ h1 = 1) ->
         nth_error (haps test) (Z.to_nat ref_idx) = Some 0 /\
         nth_error (haps test) (Z.to_nat alt_idx) = Some 1)) /\
  (forall options w,
      test_snp = None \/
      (exists test h0 h1 rest,
          test_snp = Some test /\ haps test = h0 :: h1 :: rest /\
          (h0 = h1 \/ h0 = HAP_UNDEF)) ->
      phase_reference test_snp options w = fallback_reference options w).
Proof.
  split; [| split].
  - split; [apply treated_as_phased_inv |].
    intros (test & h0 & h1 & rest & -> & Hhaps & Hne & Hdef).
    exists (if h0 =? 0 then 0 else 1), (if h0 =? 0 then 1 else 0).
    intros options w.
    rewrite (phase_reference_het test h0 h1 rest options w Hhaps Hne Hdef).
    destruct (h0 =? 0); reflexivity.
  - intros test h0 h1 rest options w -> Hhaps Hne Hdef.
    exists (if h0 =? 0 then 0 else 1), (if h0 =? 0 then 1 else 0).
    rewrite (phase_reference_het test h0 h1 rest options w Hhaps Hne Hdef).
    split; [destruct (h0 =? 0); reflexivity |].
    split; [reflexivity |].
    split; [destruct (h0 =? 0); reflexivity |].
    intros H0 H1. rewrite Hhaps.
    destruct H0 as [-> | ->], H1 as [-> | ->]; try contradiction;
      split; reflexivity.
  - intros options w [-> | (test & h0 & h1 & rest & -> & Hhaps & Hcase)].
    + reflexivity.
    + apply (phase_reference_not_het test h0 h1 rest options Hhaps Hcase).
Qed.

(** C2 as stated fails for a test SNP with haplotype pair (1, undefined):
    one index is undefined, yet it is treated as phased, with reference
    slot 1, whose allele is the undefined one. *)
Lemma phased_with_undefined_second_index :
  ~ (treated_as_phased (Some (snp_at 3 [1; HAP_UNDEF])) <->
     het_with_defined_indices (Some (snp_at 3 [1; HAP_UNDEF]))) /\
  (forall options w,
      phase_reference (Some (snp_at 3 [1; HAP_UNDEF])) options w
      = (Ok (Some (1, 0)), w)) /\
  nth_error (haps (snp_at 3 [1; HAP_UNDEF])) 1 = Some HAP_UNDEF.
Proof.
  split; [| split; [reflexivity | reflexivity]].
  intros [Hto _].
  destruct Hto as (test & h0 & h1 & Heq & Hhaps & _ & _ & Hdef).
  - exists 1, 0. reflexivity.
  - injection Heq as <-. simpl in Hhaps. injection Hhaps as <- <-.
    apply Hdef. reflexivity.
Qed.

(** ** SnpResolver: [lookup_individual_index] *)

Lemma scan_samples_skips ind_name missing before rest idx w :
  Forall (names_another ind_name) before ->
  scan_samples ind_name missing (before ++ rest) idx w
  = scan_samples ind_name missing rest (idx + len before) w.
Proof.
  intros Hbefore. revert idx.
  induction Hbefore as [|line before (other & Hname & Hother) _ IH]; intros idx.
  - simpl. unfold len. simpl. rewrite Z.add_0_r. reflexivity.
  - simpl. unfold sample_name, first_column in Hname.
    destruct (split_ws (rstrip line)) as [|word0 words] eqn:Hwords;
      [discriminate Hname |].
    simpl in Hname. injection Hname as Hname.
    rewrite (bind_step _ _ _ _ _ (py_index_0 _ _ _)).
    rewrite Hname.
    destruct (String.eqb_spec other ind_name) as [|_]; [contradiction |].
    rewrite IH. f_equal. unfold len. simpl length. lia.
Qed.

Lemma scan_samples_finds ind_name missing line rest idx w :
  sample_name line = Some ind_name ->
  scan_samples ind_name missing (line :: rest) idx w = (Ok idx, w).
Proof.
  intros Hname. simpl. unfold sample_name, first_column in Hname.
  destruct (split_ws (rstrip line)) as [|word0 words] eqn:Hwords;
    [discriminate Hname |].
  simpl in Hname. injection Hname as Hname.
  rewrite (bind_step _ _ _ _ _ (py_index_0 _ _ _)).
  rewrite Hname, String.eqb_refl. reflexivity.
Qed.

(** C5, as the code has it: [lookup_individual_index] scans the lines of the
    sample file in order, compares the first column of each with every
    ["NA"] removed from it (not only a leading one) to the identifier, and
    returns the 0-based number of the first line that matches; when every
    line has a first column and none matches, it raises the [ValueError]
    that reports the individual as missing. *)
Theorem lookup_individual_index_scan options ind_name w lines :
  files w !! sample_file_path options = Some lines ->
  (forall before line after,
      lines = (before ++ line :: after)%list ->
      Forall (names_another ind_name) before ->
      sample_name line = Some ind_name ->
      fst (lookup_individual_index options ind_name w) = Ok (len before)) /\
  (Forall (names_another ind_name) lines ->
   fst (lookup_individual_index options ind_name w)
   = Raise (not_in_samples options ind_name)).
Proof.
  intros Hfile.
  assert (Hrun : forall w1,
             files w1 = files w ->
             open_file (sample_file_path options) w1 = (Ok lines, w1)).
  { intros w1 Hw1. unfold open_file. rewrite Hw1, Hfile. reflexivity. }
  split.
  - intros before line after -> Hbefore Hname.
    unfold lookup_individual_index.
    erewrite bind_step by reflexivity.
    match goal with
    | |- context [bind (open_file _) _ ?w1] =>
        rewrite (bind_step _ _ w1 _ w1 (Hrun w1 eq_refl))
    end.
    rewrite (scan_samples_skips _ _ _ _ _ _ Hbefore).
    rewrite (scan_samples_finds _ _ _ _ _ _ Hname). reflexivity.
  - intros Hnone.
    unfold lookup_individual_index.
    erewrite bind_step by reflexivity.
    match goal with
    | |- context [bind (open_file _) _ ?w1] =>
        rewrite (bind_step _ _ w1 _ w1 (Hrun w1 eq_refl))
    end.
    rewrite <- (app_nil_r lines).
    rewrite (scan_samples_skips _ _ _ _ _ _ Hnone). reflexivity.
Qed.

Lemma lookup_individual_index_scan_witness :
  fst (lookup_individual_index (args_with_policy "zero") "X1"
                               world_with_samples)
  = Ok 1.
Proof.
  destruct (lookup_individual_index_scan (args_with_policy "zero") "X1"
              world_with_samples sample_lines eq_refl) as [Hfound _].
  apply (Hfound [ "NA18505 YRI" +:+ newline ] ("XNA1 YRI" +:+ newline) []).
  - reflexivity.
  - constructor; [| constructor].
    exists "18505". split; [reflexivity | discriminate].
  - reflexivity.
Defined.

(** C5 as stated fails on a sample list holding [XNA1]: no first column
    equals [X1] once a leading ["NA"] is stripped, so the lookup of [X1]
    should fail; the code returns index 1. *)
Lemma lookup_removes_inner_NA :
  fst (lookup_individual_index (args_with_policy "zero") "X1"
                               world_with_samples)
  = Ok 1 /\
  files world_with_samples !! sample_file_path (args_with_policy "zero")
  = Some sample_lines /\
  forall line word,
    In line sample_lines -> first_column line = Some word ->
    strip_NA_prefix word <> "X1".
Proof.
  split; [vm_compute; reflexivity |].
  split; [reflexivity |].
  intros line word [<- | [<- | []]] Hword; vm_compute in Hword;
    injection Hword as <-; discriminate.
Qed.

(** ** Slices of the count tracks *)

(** What [set_snp_counts] reads at a SNP's offset in the slice of a region
    is the entry of the track for the SNP's 1-based position. *)
Lemma slice_read (l : list Z) (s e p : Z) w x w' :
  1 <= p -> s <= p ->
  py_index (py_slice l (s - 1) e) (p - s) w = (Ok x, w') ->
  nth_error l (Z.to_nat (p - 1)) = Some x /\ w' = w.
Proof.
  intros Hp Hs Hread.
  apply py_index_ok in Hread. destruct Hread as (-> & j & Hj & Hj0 & Hnth).
  split; [| reflexivity].
  destruct (Z.ltb_spec (p - s) 0) as [Hneg|_]; [lia |]. subst j.
  unfold py_slice in Hnth. rewrite nth_error_firstn in Hnth.
  destruct (Nat.ltb_spec (Z.to_nat (p - s))
              (Z.to_nat (slice_bound (len l) e - slice_bound (len l) (s - 1))))
    as [Hlt|_]; [| discriminate Hnth].
  rewrite nth_error_skipn in Hnth.
  assert (Hin : (Z.to_nat (slice_bound (len l) (s - 1)) + Z.to_nat (p - s)
                 < length l)%nat).
  { apply nth_error_Some. rewrite Hnth. discriminate. }
  rewrite <- Hnth. f_equal.
  unfold slice_bound, len in *.
  destruct (Z.ltb_spec (s - 1) 0), (Z.ltb_spec e 0); lia.
Qed.

Lemma slice_has (l : list Z) (s e p : Z) w x :
  1 <= s -> s <= p -> p <= e ->
  nth_error l (Z.to_nat (p - 1)) = Some x ->
  py_index (py_slice l (s - 1) e) (p - s) w = (Ok x, w).
Proof.
  intros Hs Hsp Hpe Hnth.
  assert (Hin : (Z.to_nat (p - 1) < length l)%nat).
  { apply nth_error_Some. rewrite Hnth. discriminate. }
  replace (p - s) with (Z.of_nat (Z.to_nat (p - s))) by lia.
  apply py_index_nth.
  unfold py_slice. rewrite nth_error_firstn.
  assert (Hlo : slice_bound (len l) (s - 1) = s - 1).
  { unfold slice_bound, len. destruct (Z.ltb_spec (s - 1) 0); lia. }
  assert (Hhi : p <= slice_bound (len l) e).
  { unfold slice_bound, len. destruct (Z.ltb_spec e 0); lia. }
  rewrite Hlo.
  destruct (Nat.ltb_spec (Z.to_nat (p - s))
              (Z.to_nat (slice_bound (len l) e - (s - 1)))) as [_|Hge];
    [| lia].
  rewrite nth_error_skipn. rewrite <- Hnth. f_equal. lia.
Qed.

(** ** Loops *)

Lemma mapM_ok {A B} (body : A -> M B) (l : list A) w l' w' :
  mapM body l w = (Ok l', w') ->
  Forall2 (fun x y => exists w1 w2, body x w1 = (Ok y, w2)) l l'.
Proof.
  revert w l' w'. induction l as [|x l IH]; intros w l' w' Hrun.
  - injection Hrun as <- _. constructor.
  - simpl in Hrun.
    apply bind_ok in Hrun. destruct Hrun as (y & w1 & Hx & Hrun).
    apply bind_ok in Hrun. destruct Hrun as (ys & w2 & Hl & Hrun).
    injection Hrun as <- _.
    constructor; [exists w, w1; exact Hx | exact (IH _ _ _ Hl)].
Qed.

Lemma draws_nothing_ret {A} (a : A) : draws_nothing (ret a).
Proof. intros w. reflexivity. Qed.

Lemma draws_nothing_raise {A} e : draws_nothing (@raise A e).
Proof. intros w. reflexivity. Qed.

Lemma draws_nothing_bind {A B} (c : M A) (k : A -> M B) :
  draws_nothing c -> (forall a, draws_nothing (k a)) ->
  draws_nothing (bind c k).
Proof.
  intros Hc Hk w. unfold bind. specialize (Hc w).
  destruct (c w) as [[a|e] w1]; simpl in *.
  - rewrite Hk. exact Hc.
  - exact Hc.
Qed.

Lemma draws_nothing_py_index {A} (l : list A) i : draws_nothing (py_index l i).
Proof. intros w. rewrite py_index_world. reflexivity. Qed.

Lemma draws_nothing_getNode {A} which (h5 : gmap string A) node_name :
  draws_nothing (getNode which h5 node_name).
Proof. intros w. unfold getNode. destruct (h5 !! node_name); reflexivity. Qed.

Lemma draws_nothing_mapM {A B} (body : A -> M B) l :
  (forall x, draws_nothing (body x)) -> draws_nothing (mapM body l).
Proof.
  intros Hbody. induction l as [|x l IH]; simpl.
  - apply draws_nothing_ret.
  - apply draws_nothing_bind; [apply Hbody |]. intros y.
    apply draws_nothing_bind; [exact IH |]. intros ys.
    apply draws_nothing_ret.
Qed.

Lemma draws_nothing_foldM {A S} (body : S -> A -> M S) l :
  (forall acc x, draws_nothing (body acc x)) ->
  forall acc, draws_nothing (foldM body acc l).
Proof.
  intros Hbody. induction l as [|x l IH]; intros acc; simpl.
  - apply draws_nothing_ret.
  - apply draws_nothing_bind; [apply Hbody | exact IH].
Qed.

Lemma getNode_ok {A} which (h5 : gmap string A) node_name w node w' :
  getNode which h5 node_name w = (Ok node, w') -> h5 !! node_name = Some node.
Proof.
  unfold getNode. destruct (h5 !! node_name); intros H; [| discriminate H].
  injection H as <- _. reflexivity.
Qed.

(** ** HaplotypePhaser: the loop over the regions *)

Section RegionLoop.

Variable data_files : DataFiles.
Variable options : Args.
Variable ref_alt_idx : option (Z * Z).

(** What one region establishes for a SNP it contains. *)
Variable good : Coord -> SNP -> Prop.

Hypothesis one_snp :
  forall region ref_node alt_node other_node snp snp' w w',
    ref_count_h5 data_files !! ("/" +:+ chrom_name (chrom region))
    = Some ref_node ->
    alt_count_h5 data_files !! ("/" +:+ chrom_name (chrom region))
    = Some alt_node ->
    other_count_h5 data_files !! ("/" +:+ chrom_name (chrom region))
    = Some other_node ->
    1 <= pos snp ->
    set_counts_in_region options ref_alt_idx region
      (py_slice ref_node (start region - 1) (end_ region))
      (py_slice alt_node (start region - 1) (end_ region))
      (py_slice other_node (start region - 1) (end_ region))
      snp w = (Ok snp', w') ->
    pos snp' = pos snp /\ haps snp' = haps snp /\
    (contains region snp -> good region snp') /\
    (~ contains region snp -> snp' = snp).

Lemma settled_step processed region snp cur cur' :
  settled good processed snp cur ->
  pos cur' = pos cur /\ haps cur' = haps cur /\
  (contains region cur -> good region cur') /\
  (~ contains region cur -> cur' = cur) ->
  settled good (processed ++ [region]) snp cur'.
Proof.
  intros (Hpos1 & Hpos & Hhaps & Hdone) (Hpos' & Hhaps' & Hin & Hout).
  split; [exact Hpos1 |]. split; [congruence |]. split; [congruence |].
  intros (region' & Hmem & Hcontains).
  assert (Hdec : contains region cur \/ ~ contains region cur).
  { unfold contains. lia. }
  destruct Hdec as [Hyes|Hno].
  - exists region. split; [apply in_or_app; right; left; reflexivity |].
    split; [| exact (Hin Hyes)].
    unfold contains in *. rewrite <- Hpos. exact Hyes.
  - rewrite (Hout Hno).
    apply in_app_or in Hmem. destruct Hmem as [Hmem | [<- | []]].
    + destruct (Hdone (ex_intro _ region' (conj Hmem Hcontains)))
        as (r & Hr & Hc & Hg).
      exists r. split; [apply in_or_app; left; exact Hr | auto].
    + exfalso. apply Hno. unfold contains in *. rewrite Hpos.
      exact Hcontains.
Qed.

Lemma set_counts_of_region_settles processed region snps cur w cur' w' :
  Forall2 (settled good processed) snps cur ->
  set_counts_of_region data_files options ref_alt_idx cur region w
  = (Ok cur', w') ->
  Forall2 (settled good (processed ++ [region])) snps cur'.
Proof.
  intros Hcur Hrun. unfold set_counts_of_region in Hrun.
  apply bind_ok in Hrun. destruct Hrun as (ref_node & w1 & Href & Hrun).
  apply bind_ok in Hrun. destruct Hrun as (alt_node & w2 & Halt & Hrun).
  apply bind_ok in Hrun. destruct Hrun as (other_node & w3 & Hother & Hrun).
  apply getNode_ok in Href, Halt, Hother.
  apply mapM_ok in Hrun.
  revert cur' Hrun.
  induction Hcur as [|snp c snps cur Hsnp Hcur IH]; intros cur' Hrun.
  - inversion Hrun. constructor.
  - inversion Hrun as [|c0 c' cur0 cur1 (wa & wb & Hc) Hrest]; subst.
    constructor; [| exact (IH _ Hrest)].
    apply (settled_step processed region snp c c' Hsnp).
    apply (one_snp region ref_node alt_node other_node c c' wa wb
             Href Halt Hother); [| exact Hc].
    destruct Hsnp as (Hpos1 & Hpos & _). lia.
Qed.

Lemma region_loop_settles rest :
  forall processed snps cur w snps' w',
    Forall2 (settled good processed) snps cur ->
    foldM (set_counts_of_region data_files options ref_alt_idx) cur rest w
    = (Ok snps', w') ->
    Forall2 (settled good (processed ++ rest)) snps snps'.
Proof.
  induction rest as [|region rest IH];
    intros processed snps cur w snps' w' Hcur Hrun.
  - injection Hrun as <- _. rewrite app_nil_r. exact Hcur.
  - simpl in Hrun.
    apply bind_ok in Hrun. destruct Hrun as (cur1 & w1 & Hregion & Hrun).
    replace (processed ++ region :: rest)%list
      with ((processed ++ [region]) ++ rest)%list
      by (rewrite <- app_assoc; reflexivity).
    apply (IH (processed ++ [region])%list snps cur1 w1 snps' w');
      [| exact Hrun].
    exact (set_counts_of_region_settles processed region snps cur w cur1 w1
             Hcur Hregion).
Qed.

Lemma settled_start snps :
  Forall (fun snp => 1 <= pos snp) snps ->
  Forall2 (settled good []) snps snps.
Proof.
  induction 1 as [|snp snps Hsnp _ IH]; constructor; [| exact IH].
  split; [exact Hsnp |]. split; [reflexivity |]. split; [reflexivity |].
  intros (region & [] & _).
Qed.

End RegionLoop.

(** ** HaplotypePhaser: one SNP against one region *)

Lemma contains_test region snp :
  (pos snp >=? start region) && (pos snp <=? end_ region) = true
  <-> contains region snp.
Proof.
  unfold contains. rewrite andb_true_iff, Z.geb_le, Z.leb_le. lia.
Qed.

Lemma raw_count_node h5 chrom node p x :
  h5 !! ("/" +:+ chrom_name chrom) = Some node ->
  1 <= p ->
  nth_error node (Z.to_nat (p - 1)) = Some x ->
  raw_count h5 chrom p = Some x.
Proof.
  intros Hnode Hp Hnth. unfold raw_count. rewrite Hnode.
  destruct (Z.leb_spec 1 p); [exact Hnth | lia].
Qed.

Lemma raw_count_inv h5 chrom p x :
  raw_count h5 chrom p = Some x ->
  exists node,
    h5 !! ("/" +:+ chrom_name chrom) = Some node /\ 1 <= p /\
    nth_error node (Z.to_nat (p - 1)) = Some x.
Proof.
  unfold raw_count. destruct (h5 !! _) as [node|]; [| discriminate].
  destruct (Z.leb_spec 1 p); [| discriminate].
  intros Hnth. exists node. auto.
Qed.

(** The three reads of lines 395-397. *)
Lemma region_reads data_files region ref_node alt_node other_node snp w
    ref_count alt_count other w1 w2 w3 :
  ref_count_h5 data_files !! ("/" +:+ chrom_name (chrom region)) = Some ref_node ->
  alt_count_h5 data_files !! ("/" +:+ chrom_name (chrom region)) = Some alt_node ->
  other_count_h5 data_files !! ("/" +:+ chrom_name (chrom region)) = Some other_node ->
  1 <= pos snp -> contains region snp ->
  py_index (py_slice ref_node (start region - 1) (end_ region))
           (pos snp - start region) w = (Ok ref_count, w1) ->
  py_index (py_slice alt_node (start region - 1) (end_ region))
           (pos snp - start region) w1 = (Ok alt_count, w2) ->
  py_index (py_slice other_node (start region - 1) (end_ region))
           (pos snp - start region) w2 = (Ok other, w3) ->
  raw_count (ref_count_h5 data_files) (chrom region) (pos snp) = Some ref_count /\
  raw_count (alt_count_h5 data_files) (chrom region) (pos snp) = Some alt_count /\
  raw_count (other_count_h5 data_files) (chrom region) (pos snp) = Some other.
Proof.
  intros Href Halt Hother Hpos [Hlo _] Hr Ha Ho.
  apply slice_read in Hr, Ha, Ho; try assumption.
  destruct Hr as [Hr _], Ha as [Ha _], Ho as [Ho _].
  repeat split; eapply raw_count_node; eassumption.
Qed.

Lemma one_snp_phased data_files options ref_idx alt_idx
    region ref_node alt_node other_node snp snp' w w' :
  ref_count_h5 data_files !! ("/" +:+ chrom_name (chrom region)) = Some ref_node ->
  alt_count_h5 data_files !! ("/" +:+ chrom_name (chrom region)) = Some alt_node ->
  other_count_h5 data_files !! ("/" +:+ chrom_name (chrom region)) = Some other_node ->
  1 <= pos snp ->
  set_counts_in_region options (Some (ref_idx, alt_idx)) region
    (py_slice ref_node (start region - 1) (end_ region))
    (py_slice alt_node (start region - 1) (end_ region))
    (py_slice other_node (start region - 1) (end_ region))
    snp w = (Ok snp', w') ->
  pos snp' = pos snp /\ haps snp' = haps snp /\
  (contains region snp -> counts_conserved data_files region snp') /\
  (~ contains region snp -> snp' = snp).
Proof.
  intros Href Halt Hother Hpos Hrun. unfold set_counts_in_region in Hrun.
  destruct ((pos snp >=? start region) && (pos snp <=? end_ region)) eqn:Hin.
  - apply contains_test in Hin.
    apply bind_ok in Hrun. destruct Hrun as (ref_count & w1 & Hr & Hrun).
    apply bind_ok in Hrun. destruct Hrun as (alt_count & w2 & Ha & Hrun).
    apply bind_ok in Hrun. destruct Hrun as (other & w3 & Ho & Hrun).
    destruct (region_reads data_files region ref_node alt_node other_node snp
                w ref_count alt_count other w1 w2 w3
                Href Halt Hother Hpos Hin Hr Ha Ho) as (Hraw_r & Hraw_a & _).
    apply bind_ok in Hrun. destruct Hrun as (hap & w4 & _ & Hrun).
    destruct (hap =? 0); [| destruct (hap =? 1); [| discriminate Hrun]];
      injection Hrun as <- _; simpl;
      (split; [reflexivity |]); (split; [reflexivity |]);
      (split; [| intros Hno; contradiction]); intros _.
    + exists ref_count, alt_count, ref_count, alt_count. simpl. auto.
    + exists ref_count, alt_count, alt_count, ref_count. simpl.
      repeat split; auto. lia.
  - injection Hrun as <- _.
    split; [reflexivity |]. split; [reflexivity |].
    split; [| reflexivity].
    intros Hyes. apply contains_test in Hyes. congruence.
Qed.

Lemma one_snp_zero data_files options
    region ref_node alt_node other_node snp snp' w w' :
  homozygous_as_counts options = "zero" ->
  ref_count_h5 data_files !! ("/" +:+ chrom_name (chrom region)) = Some ref_node ->
  alt_count_h5 data_files !! ("/" +:+ chrom_name (chrom region)) = Some alt_node ->
  other_count_h5 data_files !! ("/" +:+ chrom_name (chrom region)) = Some other_node ->
  1 <= pos snp ->
  set_counts_in_region options None region
    (py_slice ref_node (start region - 1) (end_ region))
    (py_slice alt_node (start region - 1) (end_ region))
    (py_slice other_node (start region - 1) (end_ region))
    snp w = (Ok snp', w') ->
  pos snp' = pos snp /\ haps snp' = haps snp /\
  (contains region snp -> counts_zeroed data_files region snp') /\
  (~ contains region snp -> snp' = snp).
Proof.
  intros Hzero Href Halt Hother Hpos Hrun. unfold set_counts_in_region in Hrun.
  destruct ((pos snp >=? start region) && (pos snp <=? end_ region)) eqn:Hin.
  - apply contains_test in Hin.
    apply bind_ok in Hrun. destruct Hrun as (ref_count & w1 & Hr & Hrun).
    apply bind_ok in Hrun. destruct Hrun as (alt_count & w2 & Ha & Hrun).
    apply bind_ok in Hrun. destruct Hrun as (other & w3 & Ho & Hrun).
    destruct (region_reads data_files region ref_node alt_node other_node snp
                w ref_count alt_count other w1 w2 w3
                Href Halt Hother Hpos Hin Hr Ha Ho) as (_ & _ & Hraw_o).
    rewrite Hzero in Hrun. simpl in Hrun. injection Hrun as <- _. simpl.
    split; [reflexivity |]. split; [reflexivity |].
    split; [| intros Hno; contradiction]. intros _.
    split; [reflexivity |]. split; [reflexivity |].
    exists other. simpl. auto.
  - injection Hrun as <- _.
    split; [reflexivity |]. split; [reflexivity |].
    split; [| reflexivity].
    intros Hyes. apply contains_test in Hyes. congruence.
Qed.

Lemma set_counts_in_region_draws_nothing options ref_idx alt_idx region
    ref_counts alt_counts other_counts snp :
  draws_nothing (set_counts_in_region options (Some (ref_idx, alt_idx)) region
                   ref_counts alt_counts other_counts snp).
Proof.
  unfold set_counts_in_region.
  destruct (_ && _); [| apply draws_nothing_ret].
  repeat (apply draws_nothing_bind; [apply draws_nothing_py_index | intros ?]).
  destruct (_ =? 0); [apply draws_nothing_ret |].
  destruct (_ =? 1); [apply draws_nothing_ret | apply draws_nothing_raise].
Qed.

Lemma set_counts_in_region_zero_draws_nothing options region
    ref_counts alt_counts other_counts snp :
  homozygous_as_counts options = "zero" ->
  draws_nothing (set_counts_in_region options None region
                   ref_counts alt_counts other_counts snp).
Proof.
  intros Hzero. unfold set_counts_in_region.
  destruct (_ && _); [| apply draws_nothing_ret].
  repeat (apply draws_nothing_bind; [apply draws_nothing_py_index | intros ?]).
  rewrite Hzero. apply draws_nothing_ret.
Qed.

Lemma set_counts_of_region_draws_nothing data_files options ref_alt_idx :
  (forall region ref_counts alt_counts other_counts snp,
      draws_nothing (set_counts_in_region options ref_alt_idx region
                       ref_counts alt_counts other_counts snp)) ->
  forall snps region,
    draws_nothing (set_counts_of_region data_files options ref_alt_idx snps
                                        region).
Proof.
  intros Hsnp snps region. unfold set_counts_of_region.
  repeat (apply draws_nothing_bind; [apply draws_nothing_getNode | intros ?]).
  apply draws_nothing_mapM. intros snp. apply Hsnp.
Qed.

(** ** HaplotypePhaser: when the loop returns *)

Lemma mapM_total {A B} (body : A -> M B) (R : A -> B -> Prop) (l : list A) :
  Forall (fun x => exists y, (forall w, body x w = (Ok y, w)) /\ R x y) l ->
  exists l', (forall w, mapM body l w = (Ok l', w)) /\ Forall2 R l l'.
Proof.
  induction 1 as [|x l (y & Hy & Hxy) _ (l' & Hl' & Hll')].
  - exists []. split; [reflexivity | constructor].
  - exists (y :: l'). split; [| constructor; assumption].
    intros w. simpl.
    rewrite (bind_step _ _ _ _ _ (Hy w)).
    rewrite (bind_step _ _ _ _ _ (Hl' w)). reflexivity.
Qed.

Lemma region_reads_ok data_files region ref_node alt_node other_node p :
  ref_count_h5 data_files !! ("/" +:+ chrom_name (chrom region)) = Some ref_node ->
  alt_count_h5 data_files !! ("/" +:+ chrom_name (chrom region)) = Some alt_node ->
  other_count_h5 data_files !! ("/" +:+ chrom_name (chrom region)) = Some other_node ->
  1 <= start region -> start region <= p -> p <= end_ region ->
  counts_readable data_files region p ->
  exists ref_count alt_count other,
    forall w,
      py_index (py_slice ref_node (start region - 1) (end_ region))
               (p - start region) w = (Ok ref_count, w) /\
      py_index (py_slice alt_node (start region - 1) (end_ region))
               (p - start region) w = (Ok alt_count, w) /\
      py_index (py_slice other_node (start region - 1) (end_ region))
               (p - start region) w = (Ok other, w).
Proof.
  intros Href Halt Hother Hstart Hlo Hhi (ref_count & alt_count & other
                                          & Hr & Ha & Ho).
  apply raw_count_inv in Hr, Ha, Ho.
  destruct Hr as (ref_node' & Href' & _ & Hr).
  destruct Ha as (alt_node' & Halt' & _ & Ha).
  destruct Ho as (other_node' & Hother' & _ & Ho).
  assert (ref_node' = ref_node) as -> by congruence.
  assert (alt_node' = alt_node) as -> by congruence.
  assert (other_node' = other_node) as -> by congruence.
  exists ref_count, alt_count, other. intros w.
  repeat split; apply slice_has; assumption.
Qed.

Lemma one_snp_phased_ok data_files options ref_idx alt_idx
    region ref_node alt_node other_node snp :
  ref_idx = 0 \/ ref_idx = 1 ->
  ref_count_h5 data_files !! ("/" +:+ chrom_name (chrom region)) = Some ref_node ->
  alt_count_h5 data_files !! ("/" +:+ chrom_name (chrom region)) = Some alt_node ->
  other_count_h5 data_files !! ("/" +:+ chrom_name (chrom region)) = Some other_node ->
  1 <= start region ->
  defined_pair (haps snp) ->
  (contains region snp -> counts_readable data_files region (pos snp)) ->
  exists snp',
    (forall w,
        set_counts_in_region options (Some (ref_idx, alt_idx)) region
          (py_slice ref_node (start region - 1) (end_ region))
          (py_slice alt_node (start region - 1) (end_ region))
          (py_slice other_node (start region - 1) (end_ region))
          snp w = (Ok snp', w)) /\
    same_snp snp snp'.
Proof.
  intros Hidx Href Halt Hother Hstart (h0 & h1 & Hhaps & Hh0 & Hh1) Hreadable.
  unfold set_counts_in_region.
  destruct ((pos snp >=? start region) && (pos snp <=? end_ region)) eqn:Hin.
  - apply contains_test in Hin.
    destruct (region_reads_ok data_files region ref_node alt_node other_node
                (pos snp) Href Halt Hother Hstart (proj1 Hin) (proj2 Hin)
                (Hreadable Hin))
      as (ref_count & alt_count & other & Hreads).
    assert (Hhap : exists hap,
               (forall w, py_index (haps snp) ref_idx w = (Ok hap, w)) /\
               (hap = 0 \/ hap = 1)).
    { rewrite Hhaps. destruct Hidx as [-> | ->];
        [exists h0 | exists h1]; split; auto. }
    destruct Hhap as (hap & Hhap & Hdef).
    exists (if hap =? 0
            then with_hap_counts (with_other_count snp other)
                                 ref_count alt_count
            else with_hap_counts (with_other_count snp other)
                                 alt_count ref_count).
    split; [| destruct (hap =? 0); split; reflexivity].
    intros w. destruct (Hreads w) as (Hr & Ha & Ho).
    rewrite (bind_step _ _ _ _ _ Hr), (bind_step _ _ _ _ _ Ha),
      (bind_step _ _ _ _ _ Ho).
    simpl haps. rewrite (bind_step _ _ _ _ _ (Hhap w)).
    destruct Hdef as [-> | ->]; reflexivity.
  - exists snp. split; [reflexivity | split; reflexivity].
Qed.

Lemma one_snp_zero_ok data_files options
    region ref_node alt_node other_node snp :
  homozygous_as_counts options = "zero" ->
  ref_count_h5 data_files !! ("/" +:+ chrom_name (chrom region)) = Some ref_node ->
  alt_count_h5 data_files !! ("/" +:+ chrom_name (chrom region)) = Some alt_node ->
  other_count_h5 data_files !! ("/" +:+ chrom_name (chrom region)) = Some other_node ->
  1 <= start region ->
  True ->
  (contains region snp -> counts_readable data_files region (pos snp)) ->
  exists snp',
    (forall w,
        set_counts_in_region options None region
          (py_slice ref_node (start region - 1) (end_ region))
          (py_slice alt_node (start region - 1) (end_ region))
          (py_slice other_node (start region - 1) (end_ region))
          snp w = (Ok snp', w)) /\
    same_snp snp snp'.
Proof.
  intros Hzero Href Halt Hother Hstart _ Hreadable.
  unfold set_counts_in_region.
  destruct ((pos snp >=? start region) && (pos snp <=? end_ region)) eqn:Hin.
  - apply contains_test in Hin.
    destruct (region_reads_ok data_files region ref_node alt_node other_node
                (pos snp) Href Halt Hother Hstart (proj1 Hin) (proj2 Hin)
                (Hreadable Hin))
      as (ref_count & alt_count & other & Hreads).
    exists (with_hap_counts (with_other_count snp other) 0 0).
    split; [| split; reflexivity].
    intros w. destruct (Hreads w) as (Hr & Ha & Ho).
    rewrite (bind_step _ _ _ _ _ Hr), (bind_step _ _ _ _ _ Ha),
      (bind_step _ _ _ _ _ Ho).
    rewrite Hzero. reflexivity.
  - exists snp. split; [reflexivity | split; reflexivity].
Qed.

Section RegionLoopReturns.

Variable data_files : DataFiles.
Variable options : Args.
Variable ref_alt_idx : option (Z * Z).

(** What the haplotypes of a SNP must be for its turn to return. *)
Variable fit : list Z -> Prop.

Hypothesis one_snp_ok :
  forall region ref_node alt_node other_node snp,
    ref_count_h5 data_files !! ("/" +:+ chrom_name (chrom region))
    = Some ref_node ->
    alt_count_h5 data_files !! ("/" +:+ chrom_name (chrom region))
    = Some alt_node ->
    other_count_h5 data_files !! ("/" +:+ chrom_name (chrom region))
    = Some other_node ->
    1 <= start region ->
    fit (haps snp) ->
    (contains region snp -> counts_readable data_files region (pos snp)) ->
    exists snp',
      (forall w,
          set_counts_in_region options ref_alt_idx region
            (py_slice ref_node (start region - 1) (end_ region))
            (py_slice alt_node (start region - 1) (end_ region))
            (py_slice other_node (start region - 1) (end_ region))
            snp w = (Ok snp', w)) /\
      same_snp snp snp'.

Lemma set_counts_of_region_returns region snps cur w :
  Forall2 same_snp snps cur ->
  Forall (fun snp => fit (haps snp)) snps ->
  tracks_ready data_files snps region ->
  exists cur' w',
    set_counts_of_region data_files options ref_alt_idx cur region w
    = (Ok cur', w') /\
    Forall2 same_snp snps cur'.
Proof.
  intros Hcur Hfit (Hstart & (ref_node & alt_node & other_node
                              & Href & Halt & Hother) & Hreadable).
  unfold set_counts_of_region.
  rewrite (bind_step _ _ _ _ _ (getNode_found _ _ _ _ _ Href)).
  rewrite (bind_step _ _ _ _ _ (getNode_found _ _ _ _ _ Halt)).
  rewrite (bind_step _ _ _ _ _ (getNode_found _ _ _ _ _ Hother)).
  destruct (mapM_total
              (set_counts_in_region options ref_alt_idx region
                 (py_slice ref_node (start region - 1) (end_ region))
                 (py_slice alt_node (start region - 1) (end_ region))
                 (py_slice other_node (start region - 1) (end_ region)))
              same_snp cur) as (cur' & Hrun & Hsame).
  { clear w. induction Hcur as [|snp c snps cur [Hpos Hhaps] Hcur IH];
      constructor.
    - apply (one_snp_ok region ref_node alt_node other_node c
               Href Halt Hother Hstart).
      + rewrite Hhaps. exact (Forall_inv Hfit).
      + intros Hin. rewrite Hpos. apply (Forall_inv Hreadable).
        unfold contains in *. rewrite <- Hpos. exact Hin.
    - apply IH; [exact (Forall_inv_tail Hfit)
                | exact (Forall_inv_tail Hreadable)]. }
  exists cur'. eexists. split; [apply Hrun |].
  apply (Forall2_trans same_snp same_snp same_snp snps cur cur');
    [| exact Hcur | exact Hsame].
  intros x y z [Hp1 Hh1] [Hp2 Hh2]. split; congruence.
Qed.

Lemma region_loop_returns region_list :
  forall snps cur w,
    Forall2 same_snp snps cur ->
    Forall (fun snp => fit (haps snp)) snps ->
    Forall (tracks_ready data_files snps) region_list ->
    exists snps' w',
      foldM (set_counts_of_region data_files options ref_alt_idx) cur
            region_list w
      = (Ok snps', w').
Proof.
  induction region_list as [|region rest IH]; intros snps cur w Hcur Hfit Hready.
  - exists cur, w. reflexivity.
  - destruct (set_counts_of_region_returns region snps cur w Hcur Hfit
                (Forall_inv Hready)) as (cur' & w1 & Hregion & Hcur').
    destruct (IH snps cur' w1 Hcur' Hfit (Forall_inv_tail Hready))
      as (snps' & w' & Hrest).
    exists snps', w'. simpl.
    rewrite (bind_step _ _ _ _ _ Hregion). exact Hrest.
Qed.

End RegionLoopReturns.

Lemma same_snp_refl snps : Forall2 same_snp snps snps.
Proof. induction snps; constructor; [split; reflexivity | assumption]. Qed.

(** ** HaplotypePhaser: [set_snp_counts] *)

(** C1: with a test SNP whose two haplotype indices differ and are both
    defined, [set_snp_counts] draws no random number, and when it returns,
    every SNP of its list (positions being 1-based) keeps its position and
    haplotypes and, if some region contains it, carries haplotype counts
    whose sum is the raw reference count plus the raw alternate count at its
    position.  It does return when the haplotype pairs of the listed SNPs
    are defined and the count files cover the regions. *)
Theorem set_snp_counts_phased_conserves
    data_files region_list snps test options h0 h1 w :
  haps test = [h0; h1] ->
  h0 <> h1 -> h0 <> HAP_UNDEF -> h1 <> HAP_UNDEF ->
  Forall (fun snp => 1 <= pos snp) snps ->
  rand_draws (snd (set_snp_counts data_files region_list snps (Some test)
                                  options w))
  = rand_draws w /\
  (forall snps',
      fst (set_snp_counts data_files region_list snps (Some test) options w)
      = Ok snps' ->
      Forall2 (settled (counts_conserved data_files) region_list) snps snps') /\
  (Forall (fun snp => defined_pair (haps snp)) snps ->
   Forall (tracks_ready data_files snps) region_list ->
   exists snps',
     fst (set_snp_counts data_files region_list snps (Some test) options w)
     = Ok snps').
Proof.
  intros Hhaps Hne Hdef0 _ Hpos. unfold set_snp_counts.
  rewrite (bind_step _ _ _ _ _
             (phase_reference_het test h0 h1 [] options w Hhaps Hne Hdef0)).
  assert (Hidx : exists ref_idx alt_idx,
             (if h0 =? 0 then (0, 1) else (1, 0)) = (ref_idx, alt_idx) /\
             (ref_idx = 0 \/ ref_idx = 1)).
  { destruct (h0 =? 0); [exists 0, 1 | exists 1, 0]; auto. }
  destruct Hidx as (ref_idx & alt_idx & -> & Hidx).
  split; [| split].
  - apply draws_nothing_foldM. intros acc region.
    apply set_counts_of_region_draws_nothing. intros.
    apply set_counts_in_region_draws_nothing.
  - intros snps' Hrun.
    destruct (foldM _ snps region_list w) as [res w'] eqn:Hfold.
    simpl in Hrun. subst res.
    apply (region_loop_settles data_files options (Some (ref_idx, alt_idx))
             (counts_conserved data_files)
             (one_snp_phased data_files options ref_idx alt_idx)
             region_list [] snps snps w snps' w');
      [apply settled_start; exact Hpos | exact Hfold].
  - intros Hdefined Hready.
    destruct (region_loop_returns data_files options
                (Some (ref_idx, alt_idx)) defined_pair
                (fun region ref_node alt_node other_node snp =>
                   one_snp_phased_ok data_files options ref_idx alt_idx
                     region ref_node alt_node other_node snp Hidx)
                region_list snps snps w (same_snp_refl snps) Hdefined Hready)
      as (snps' & w' & Hrun).
    exists snps'. rewrite Hrun. reflexivity.
Qed.

Lemma set_snp_counts_phased_conserves_witness :
  Forall2 (settled (counts_conserved count_files) [region_1_5])
          linked_snps linked_snps_phased.
Proof.
  destruct (set_snp_counts_phased_conserves count_files [region_1_5]
              linked_snps (snp_at 3 [0; 1]) (args_with_policy "zero") 0 1
              world0) as (_ & Hcounts & _);
    try reflexivity; try discriminate.
  - repeat constructor; simpl; lia.
  - apply Hcounts. vm_compute. reflexivity.
Defined.

(** C3, as the code has it: under policy [zero], when the test SNP is
    missing, or its two haplotype indices are equal, or the first of them is
    undefined, [set_snp_counts] draws no random number, and when it returns,
    every SNP of its list (positions being 1-based) that some region
    contains has both haplotype counts 0 and its other count equal to the
    raw other-allele count at its position.  It does return when the count
    files cover the regions. *)
Theorem set_snp_counts_zero data_files region_list snps test_snp options w :
  homozygous_as_counts options = "zero" ->
  without_phase test_snp ->
  Forall (fun snp => 1 <= pos snp) snps ->
  rand_draws (snd (set_snp_counts data_files region_list snps test_snp
                                  options w))
  = rand_draws w /\
  (forall snps',
      fst (set_snp_counts data_files region_list snps test_snp options w)
      = Ok snps' ->
      Forall2 (settled (counts_zeroed data_files) region_list) snps snps') /\
  (Forall (tracks_ready data_files snps) region_list ->
   exists snps',
     fst (set_snp_counts data_files region_list snps test_snp options w)
     = Ok snps').
Proof.
  intros Hzero Hunphased Hpos. unfold set_snp_counts.
  assert (Href : phase_reference test_snp options w = (Ok None, w)).
  { assert (Hfallback : fallback_reference options w = (Ok None, w))
      by (unfold fallback_reference; rewrite Hzero; reflexivity).
    destruct Hunphased as [-> | (test & h0 & h1 & rest & -> & Hhaps & Hcase)].
    - exact Hfallback.
    - rewrite (phase_reference_not_het test h0 h1 rest options Hhaps Hcase).
      exact Hfallback. }
  rewrite (bind_step _ _ _ _ _ Href).
  split; [| split].
  - apply draws_nothing_foldM. intros acc region.
    apply set_counts_of_region_draws_nothing. intros.
    apply set_counts_in_region_zero_draws_nothing. exact Hzero.
  - intros snps' Hrun.
    destruct (foldM _ snps region_list w) as [res w'] eqn:Hfold.
    simpl in Hrun. subst res.
    apply (region_loop_settles data_files options None
             (counts_zeroed data_files)
             (fun region ref_node alt_node other_node snp snp' w1 w2 =>
                one_snp_zero data_files options region ref_node alt_node
                             other_node snp snp' w1 w2 Hzero)
             region_list [] snps snps w snps' w');
      [apply settled_start; exact Hpos | exact Hfold].
  - intros Hready.
    destruct (region_loop_returns data_files options None (fun _ => True)
                (fun region ref_node alt_node other_node snp =>
                   one_snp_zero_ok data_files options region ref_node
                     alt_node other_node snp Hzero)
                region_list snps snps w (same_snp_refl snps)
                (proj2 (Forall_forall _ snps) (fun _ _ => I)) Hready)
      as (snps' & w' & Hrun).
    exists snps'. rewrite Hrun. reflexivity.
Qed.

Lemma set_snp_counts_zero_witness :
  Forall2 (settled (counts_zeroed count_files) [region_1_5])
          linked_snps linked_snps_zeroed.
Proof.
  destruct (set_snp_counts_zero count_files [region_1_5] linked_snps
              (Some (snp_at 3 [1; 1])) (args_with_policy "zero") world0)
    as (_ & Hcounts & _).
  - reflexivity.
  - right. exists (snp_at 3 [1; 1]), 1, 1, []. auto.
  - repeat constructor; simpl; lia.
  - apply Hcounts. vm_compute. reflexivity.
Defined.

(** C3 as stated fails for a test SNP with haplotype pair (0, undefined):
    it has an undefined haplotype index, yet under policy [zero] the linked
    SNP at position 2 gets the raw counts 7 and 2, not 0 and 0. *)
Lemma zero_policy_not_applied :
  missing_homozygous_or_undefined (Some (snp_at 3 [0; HAP_UNDEF])) /\
  contains region_1_5 (snp_at 2 [0; 1]) /\
  fst (set_snp_counts count_files [region_1_5] [snp_at 2 [0; 1]]
                      (Some (snp_at 3 [0; HAP_UNDEF]))
                      (args_with_policy "zero") world0)
  = Ok [counted (snp_at 2 [0; 1]) 7 2 1] /\
  ref_hap_count (counted (snp_at 2 [0; 1]) 7 2 1) <> Some 0.
Proof.
  split.
  { right. exists (snp_at 3 [0; HAP_UNDEF]), 0, HAP_UNDEF. auto. }
  split; [unfold contains; simpl; lia |].
  split; [vm_compute; reflexivity | discriminate].
Qed.

(** ** SnpResolver: [get_het_snps] *)

(** On SNPs that carry a haplotype pair, [get_het_snps] keeps, in order,
    those whose two indices differ. *)
Lemma get_het_snps_filter snp_list w :
  Forall has_hap_pair snp_list ->
  get_het_snps snp_list w = (Ok (List.filter hap_indices_differ snp_list), w).
Proof.
  induction 1 as [|snp rest (h0 & h1 & Hhaps) _ IH]; [reflexivity |].
  assert (Hdiffer : hap_indices_differ snp = negb (h0 =? h1))
    by (unfold hap_indices_differ; rewrite Hhaps; reflexivity).
  simpl. rewrite Hdiffer. unfold is_het. rewrite Hhaps.
  rewrite (bind_step _ _ w (negb (h0 =? h1)) w) by reflexivity.
  rewrite (bind_step _ _ _ _ _ IH).
  destruct (negb (h0 =? h1)); reflexivity.
Qed.

(** C10: [get_het_snps] keeps every SNP whose two haplotype indices differ,
    one with pair (allele, undefined) included; handed to [set_snp_counts]
    with a phased test SNP whose reference slot is slot 1, such a SNP, once
    a region contains it and its raw counts have been read, stops the call
    with the [ValueError] of an undefined haplotype. *)
Theorem undefined_het_snp_fails
    data_files region snp test options w allele h0 h1
    ref_count alt_count other :
  haps snp = [allele; HAP_UNDEF] -> allele <> HAP_UNDEF ->
  haps test = [h0; h1] -> h0 <> h1 -> h0 <> HAP_UNDEF -> h0 <> 0 ->
  1 <= start region -> contains region snp ->
  raw_count (ref_count_h5 data_files) (chrom region) (pos snp) = Some ref_count ->
  raw_count (alt_count_h5 data_files) (chrom region) (pos snp) = Some alt_count ->
  raw_count (other_count_h5 data_files) (chrom region) (pos snp) = Some other ->
  get_het_snps [snp] w = (Ok [snp], w) /\
  fst (set_snp_counts data_files [region] [snp] (Some test) options w)
  = Raise (ValueError "expected haplotype to be defined") /\
  forall snp_list w',
    Forall has_hap_pair snp_list ->
    get_het_snps snp_list w'
    = (Ok (List.filter hap_indices_differ snp_list), w').
Proof.
  intros Hsnp Hallele Htest Hne Hdef Hnz Hstart [Hlo Hhi] Hr Ha Ho.
  split; [| split; [| intros; apply get_het_snps_filter; assumption]].
  - rewrite get_het_snps_filter
      by (constructor; [exists allele, HAP_UNDEF; exact Hsnp | constructor]).
    simpl. unfold hap_indices_differ. rewrite Hsnp.
    destruct (Z.eqb_spec allele HAP_UNDEF) as [|_]; [contradiction |].
    reflexivity.
  - apply raw_count_inv in Hr, Ha, Ho.
    destruct Hr as (ref_node & Href & Hpos & Hr).
    destruct Ha as (alt_node & Halt & _ & Ha).
    destruct Ho as (other_node & Hother & _ & Ho).
    unfold set_snp_counts.
    rewrite (bind_step _ _ _ _ _
               (phase_reference_het test h0 h1 [] options w Htest Hne Hdef)).
    destruct (Z.eqb_spec h0 0) as [|_]; [contradiction |].
    assert (Hone : forall w1,
               set_counts_in_region options (Some (1, 0)) region
                 (py_slice ref_node (start region - 1) (end_ region))
                 (py_slice alt_node (start region - 1) (end_ region))
                 (py_slice other_node (start region - 1) (end_ region))
                 snp w1
               = (Raise (ValueError "expected haplotype to be defined"), w1)).
    { intros w1. unfold set_counts_in_region.
      replace ((pos snp >=? start region) && (pos snp <=? end_ region))
        with true by (symmetry; apply contains_test; split; assumption).
      rewrite (bind_step _ _ _ _ _
                 (slice_has ref_node _ _ _ _ _ Hstart Hlo Hhi Hr)).
      rewrite (bind_step _ _ _ _ _
                 (slice_has alt_node _ _ _ _ _ Hstart Hlo Hhi Ha)).
      rewrite (bind_step _ _ _ _ _
                 (slice_has other_node _ _ _ _ _ Hstart Hlo Hhi Ho)).
      simpl haps. rewrite Hsnp.
      rewrite (bind_step _ _ _ _ _ (py_index_1 _ _ _ _)).
      reflexivity. }
    assert (Hregion : exists w1,
               set_counts_of_region data_files options (Some (1, 0)) [snp]
                                    region w
               = (Raise (ValueError "expected haplotype to be defined"), w1)).
    { unfold set_counts_of_region.
      rewrite (bind_step _ _ _ _ _ (getNode_found _ _ _ _ _ Href)).
      rewrite (bind_step _ _ _ _ _ (getNode_found _ _ _ _ _ Halt)).
      rewrite (bind_step _ _ _ _ _ (getNode_found _ _ _ _ _ Hother)).
      eexists. simpl mapM. apply bind_raise. apply Hone. }
    destruct Hregion as (w1 & Hregion).
    simpl foldM. rewrite (bind_raise _ _ _ _ _ Hregion). reflexivity.
Qed.

Lemma undefined_het_snp_fails_witness :
  fst (set_snp_counts count_files [region_1_5] [snp_at 2 [0; HAP_UNDEF]]
                      (Some (snp_at 3 [1; 0])) (args_with_policy "zero")
                      world0)
  = Raise (ValueError "expected haplotype to be defined").
Proof.
  apply (undefined_het_snp_fails count_files region_1_5
           (snp_at 2 [0; HAP_UNDEF]) (snp_at 3 [1; 0])
           (args_with_policy "zero") world0 0 1 0 7 2 1);
    try reflexivity; try discriminate; try (unfold contains; simpl; lia).
Defined.

(** * Further properties *)

(** ** SnpResolver *)

(** X1: what [get_region_snps] does depends on nothing but the chromosome
    name of the first region and the nodes of the four SNP files: the
    individual and the regions after the first are never looked at.  An
    empty region list raises [NameError] for [genome] without any lookup,
    and every exception is a [NameError] or a [NoSuchNodeError]. *)
Theorem get_region_snps_reads_first_region data_files ind_idx w :
  get_region_snps data_files [] ind_idx w = (Raise (NameError "genome"), w) /\
  (forall region region' rest rest' ind_idx',
      chrom_name (chrom region) = chrom_name (chrom region') ->
      get_region_snps data_files (region :: rest) ind_idx w
      = get_region_snps data_files (region' :: rest') ind_idx' w) /\
  (forall region_list e,
      fst (get_region_snps data_files region_list ind_idx w) = Raise e ->
      (exists x, e = NameError x) \/ (exists path, e = NoSuchNodeError path)).
Proof.
  split; [reflexivity |]. split.
  - intros region region' rest rest' ind_idx' Hname.
    unfold get_region_snps. rewrite <- Hname.
    unfold bind, getNode.
    destruct (snp_tab_h5 data_files !! _); [| reflexivity].
    destruct (hap_h5 data_files !! _); [| reflexivity].
    destruct (geno_prob_h5 data_files !! _); [| reflexivity].
    destruct (snp_index_h5 data_files !! _); [| reflexivity].
    simpl. rewrite String.eqb_refl, Hname, String.eqb_refl. reflexivity.
  - intros region_list e Hrun.
    destruct (get_region_snps_exceptions _ _ _ _ _ Hrun)
      as [(x & -> & _) | (path & ->)]; [left | right]; eexists; reflexivity.
Qed.

Lemma is_het_two snp h0 h1 rest w :
  haps snp = h0 :: h1 :: rest -> is_het snp w = (Ok (negb (h0 =? h1)), w).
Proof. intros H. unfold is_het. rewrite H. reflexivity. Qed.

Lemma is_het_short snp w :
  ~ has_two_haps snp -> is_het snp w = (Raise IndexError, w).
Proof.
  intros Hshort. unfold is_het.
  destruct (haps snp) as [|h0 [|h1 rest]] eqn:H; try reflexivity.
  exfalso. apply Hshort. exists h0, h1, rest. exact H.
Qed.

Lemma has_two_haps_dec snp : has_two_haps snp \/ ~ has_two_haps snp.
Proof.
  unfold has_two_haps. destruct (haps snp) as [|h0 [|h1 rest]].
  - right. intros (? & ? & ? & H). discriminate H.
  - right. intros (? & ? & ? & H). discriminate H.
  - left. eauto.
Qed.

(** X2: [get_het_snps] returns exactly when every SNP of the list has two
    haplotype entries, otherwise it raises [IndexError]; what it returns is
    the list filtered, in order, to the SNPs whose first two indices differ,
    and filtering the result again changes nothing. *)
Theorem get_het_snps_returns snp_list w :
  (Forall has_two_haps snp_list ->
   get_het_snps snp_list w = (Ok (List.filter first_two_differ snp_list), w) /\
   get_het_snps (List.filter first_two_differ snp_list) w
   = (Ok (List.filter first_two_differ snp_list), w)) /\
  (~ Forall has_two_haps snp_list ->
   get_het_snps snp_list w = (Raise IndexError, w)).
Proof.
  assert (Hfilter : forall l,
             Forall has_two_haps l ->
             get_het_snps l w = (Ok (List.filter first_two_differ l), w)).
  { induction 1 as [|snp rest (h0 & h1 & tl & Hhaps) _ IH]; [reflexivity |].
    assert (Hdiffer : first_two_differ snp = negb (h0 =? h1))
      by (unfold first_two_differ; rewrite Hhaps; reflexivity).
    simpl. rewrite Hdiffer.
    rewrite (bind_step _ _ _ _ _ (is_het_two snp h0 h1 tl w Hhaps)).
    rewrite (bind_step _ _ _ _ _ IH).
    destruct (negb (h0 =? h1)); reflexivity. }
  split.
  - intros Hall. split; [apply Hfilter; exact Hall |].
    rewrite Hfilter.
    + f_equal. f_equal. clear.
      induction snp_list as [|snp rest IH]; [reflexivity |].
      simpl. destruct (first_two_differ snp) eqn:Hsnp; [| exact IH].
      simpl. rewrite Hsnp, IH. reflexivity.
    + apply List.Forall_forall. intros snp Hin.
      apply List.filter_In in Hin. destruct Hin as [Hin _].
      exact (proj1 (List.Forall_forall _ _) Hall snp Hin).
  - induction snp_list as [|snp rest IH]; intros Hnot.
    + exfalso. apply Hnot. constructor.
    + simpl. destruct (has_two_haps_dec snp) as [(h0 & h1 & tl & Hhaps)|Hshort].
      * rewrite (bind_step _ _ _ _ _ (is_het_two snp h0 h1 tl w Hhaps)).
        apply bind_raise. apply IH. intros Hrest. apply Hnot.
        constructor; [exists h0, h1, tl; exact Hhaps | exact Hrest].
      * apply bind_raise. apply is_het_short. exact Hshort.
Qed.

Lemma get_het_snps_returns_witness :
  get_het_snps [snp_at 2 [0; 1]; snp_at 3 [1; 1]; snp_at 4 [1; 0]] world0
  = (Ok [snp_at 2 [0; 1]; snp_at 4 [1; 0]], world0).
Proof.
  apply (get_het_snps_returns
           [snp_at 2 [0; 1]; snp_at 3 [1; 1]; snp_at 4 [1; 0]] world0).
  repeat constructor; eexists _, _, _; reflexivity.
Defined.

(** ** SnpResolver: the sample list *)

Lemma scan_samples_ok ind_name missing lines :
  forall idx0 w idx w',
    scan_samples ind_name missing lines idx0 w = (Ok idx, w') ->
    w' = w /\
    exists before line after,
      lines = (before ++ line :: after)%list /\
      idx = idx0 + len before /\
      sample_name line = Some ind_name /\
      Forall (names_another ind_name) before.
Proof.
  induction lines as [|line rest IH]; intros idx0 w idx w' Hrun.
  - discriminate Hrun.
  - simpl in Hrun.
    apply bind_ok in Hrun. destruct Hrun as (word0 & w1 & Hword & Hrun).
    apply py_index_ok in Hword.
    destruct Hword as (-> & j & Hj & _ & Hnth). simpl in Hj. subst j.
    assert (Hname : sample_name line = Some (replace word0 "NA" "")).
    { unfold sample_name, first_column.
      destruct (split_ws (rstrip line)); [discriminate Hnth |].
      injection Hnth as ->. reflexivity. }
    destruct (String.eqb_spec (replace word0 "NA" "") ind_name) as [Heq|Hne].
    + injection Hrun as <- <-. split; [reflexivity |].
      exists [], line, rest. unfold len. simpl.
      repeat split; [lia | congruence | constructor].
    + destruct (IH _ _ _ _ Hrun)
        as (-> & before & match_line & after & -> & -> & Hmatch & Hbefore).
      split; [reflexivity |].
      exists (line :: before), match_line, after.
      repeat split; [unfold len; simpl length; lia | exact Hmatch |].
      constructor; [| exact Hbefore].
      exists (replace word0 "NA" ""). auto.
Qed.

(** X3: an index returned by [lookup_individual_index] is the 0-based number
    of a line of the sample file whose first column, with every ["NA"]
    removed, is the identifier, and no line before it matches: the index is
    within the file and names the first match. *)
Theorem lookup_individual_index_sound options ind_name w lines idx :
  files w !! sample_file_path options = Some lines ->
  fst (lookup_individual_index options ind_name w) = Ok idx ->
  0 <= idx < len lines /\
  exists before line after,
    lines = (before ++ line :: after)%list /\
    idx = len before /\
    sample_name line = Some ind_name /\
    Forall (names_another ind_name) before.
Proof.
  intros Hfile Hrun. unfold lookup_individual_index in Hrun.
  erewrite bind_step in Hrun by reflexivity.
  match type of Hrun with
  | context [bind (open_file _) _ ?w1] =>
      assert (Hopen : open_file (sample_file_path options) w1 = (Ok lines, w1))
        by (unfold open_file; simpl; rewrite Hfile; reflexivity);
      rewrite (bind_step _ _ w1 _ w1 Hopen) in Hrun
  end.
  match type of Hrun with
  | fst (scan_samples ?i ?m ?l ?z ?w1) = _ =>
      destruct (scan_samples i m l z w1) as [res w2] eqn:Hscan
  end.
  simpl in Hrun. subst res.
  apply scan_samples_ok in Hscan.
  destruct Hscan as (_ & before & line & after & -> & -> & Hname & Hbefore).
  split.
  - unfold len. rewrite length_app. simpl length. lia.
  - exists before, line, after. repeat split; auto.
Qed.

Lemma lookup_individual_index_sound_witness :
  0 <= 1 < len sample_lines.
Proof.
  apply (lookup_individual_index_sound (args_with_policy "zero") "X1"
           world_with_samples sample_lines 1); reflexivity.
Defined.

(** X4: [lookup_individual_index] does not skip a line without a first
    column: when such a line comes before any match, the lookup raises
    [IndexError], also when a later line names the individual.  A sample
    file that cannot be opened raises [IOError], after the message on the
    standard error. *)
Theorem lookup_individual_index_blank_line
    options ind_name w lines before blank after :
  files w !! sample_file_path options = Some lines ->
  lines = (before ++ blank :: after)%list ->
  Forall (names_another ind_name) before ->
  first_column blank = None ->
  fst (lookup_individual_index options ind_name w) = Raise IndexError /\
  forall w0,
    files w0 !! sample_file_path options = None ->
    fst (lookup_individual_index options ind_name w0)
    = Raise (IOError (sample_file_path options)) /\
    stderr (snd (lookup_individual_index options ind_name w0))
    = (stderr w0 ++ ["reading list of individuals from "
                     +:+ sample_file_path options +:+ newline])%list.
Proof.
  intros Hfile -> Hbefore Hblank. split.
  - unfold lookup_individual_index.
    erewrite bind_step by reflexivity.
    match goal with
    | |- context [bind (open_file _) _ ?w1] =>
        assert (Hopen : open_file (sample_file_path options) w1
                        = (Ok (before ++ blank :: after)%list, w1))
          by (unfold open_file; simpl; rewrite Hfile; reflexivity);
        rewrite (bind_step _ _ w1 _ w1 Hopen)
    end.
    rewrite (scan_samples_skips _ _ _ _ _ _ Hbefore).
    simpl. unfold first_column in Hblank.
    destruct (split_ws (rstrip blank)); [reflexivity | discriminate Hblank].
  - intros w0 Hmissing. unfold lookup_individual_index.
    erewrite bind_step by reflexivity.
    unfold bind, open_file. simpl. rewrite Hmissing. simpl.
    split; reflexivity.
Qed.

Lemma lookup_individual_index_blank_line_witness :
  fst (lookup_individual_index (args_with_policy "zero") "18507"
                               world_with_blank_sample)
  = Raise IndexError.
Proof.
  apply (lookup_individual_index_blank_line (args_with_policy "zero") "18507"
           world_with_blank_sample sample_lines_with_blank
           [ "NA18505 YRI" +:+ newline ] newline
           [ "NA18507 YRI" +:+ newline ]);
    try reflexivity.
  constructor; [| constructor].
  exists "18505". split; [reflexivity | discriminate].
Defined.

(** ** HaplotypePhaser: whatever the policy *)

Lemma same_but_counts_refl snp : same_but_counts snp snp.
Proof. repeat split. Qed.

Lemma same_but_counts_trans a b c :
  same_but_counts a b -> same_but_counts b c -> same_but_counts a c.
Proof.
  unfold same_but_counts.
  intros (?&?&?&?&?&?&?&?&?) (?&?&?&?&?&?&?&?&?).
  repeat split; congruence.
Qed.

Lemma same_but_counts_updated snp other ref_hap alt_hap :
  same_but_counts snp (with_hap_counts (with_other_count snp other)
                                       ref_hap alt_hap).
Proof. repeat split. Qed.

Section AnyPolicy.

Variable data_files : DataFiles.
Variable options : Args.
Variable ref_alt_idx : option (Z * Z).
Variable good : Coord -> SNP -> Prop.

Hypothesis one_snp_any :
  forall region ref_counts alt_counts other_counts snp snp' w w',
    set_counts_in_region options ref_alt_idx region
      ref_counts alt_counts other_counts snp w = (Ok snp', w') ->
    contains region snp -> good region snp'.

Lemma set_counts_in_region_any region ref_counts alt_counts other_counts
    snp snp' w w' :
  set_counts_in_region options ref_alt_idx region
    ref_counts alt_counts other_counts snp w = (Ok snp', w') ->
  same_but_counts snp snp' /\
  (contains region snp -> good region snp') /\
  (~ contains region snp -> snp' = snp).
Proof.
  intros Hrun. split; [| split].
  - unfold set_counts_in_region in Hrun.
    destruct ((pos snp >=? start region) && (pos snp <=? end_ region));
      [| injection Hrun as <- _; apply same_but_counts_refl].
    apply bind_ok in Hrun. destruct Hrun as (ref_count & w1 & _ & Hrun).
    apply bind_ok in Hrun. destruct Hrun as (alt_count & w2 & _ & Hrun).
    apply bind_ok in Hrun. destruct Hrun as (other & w3 & _ & Hrun).
    destruct ref_alt_idx as [[ref_idx alt_idx]|].
    + apply bind_ok in Hrun. destruct Hrun as (hap & w4 & _ & Hrun).
      destruct (hap =? 0); [| destruct (hap =? 1); [| discriminate Hrun]];
        injection Hrun as <- _; apply same_but_counts_updated.
    + destruct (String.eqb _ "zero");
        [injection Hrun as <- _; apply same_but_counts_updated |].
      destruct (String.eqb _ "rand_allele"); [| discriminate Hrun].
      apply bind_ok in Hrun. destruct Hrun as (coin & w4 & _ & Hrun).
      destruct (coin =? 0); injection Hrun as <- _;
        apply same_but_counts_updated.
  - apply (one_snp_any _ _ _ _ _ _ _ _ Hrun).
  - intros Hout. unfold set_counts_in_region in Hrun.
    destruct ((pos snp >=? start region) && (pos snp <=? end_ region)) eqn:Hin.
    + exfalso. apply Hout. apply contains_test. exact Hin.
    + injection Hrun as <- _. reflexivity.
Qed.

Lemma carried_step processed region snp cur cur' :
  carried good processed snp cur ->
  same_but_counts cur cur' /\
  (contains region cur -> good region cur') /\
  (~ contains region cur -> cur' = cur) ->
  carried good (processed ++ [region]) snp cur'.
Proof.
  intros (Hsame & Hdone & Hkept) (Hsame' & Hin & Hout).
  assert (Hpos : pos cur = pos snp) by apply Hsame.
  split; [exact (same_but_counts_trans _ _ _ Hsame Hsame') |].
  assert (Hdec : contains region cur \/ ~ contains region cur)
    by (unfold contains; lia).
  split.
  - intros (region' & Hmem & Hcontains).
    destruct Hdec as [Hyes|Hno].
    + exists region. split; [apply in_or_app; right; left; reflexivity |].
      split; [| exact (Hin Hyes)].
      unfold contains in *. rewrite <- Hpos. exact Hyes.
    + rewrite (Hout Hno).
      apply in_app_or in Hmem. destruct Hmem as [Hmem | [<- | []]].
      * destruct (Hdone (ex_intro _ region' (conj Hmem Hcontains)))
          as (r & Hr & Hc & Hg).
        exists r. split; [apply in_or_app; left; exact Hr | auto].
      * exfalso. apply Hno. unfold contains in *. rewrite Hpos.
        exact Hcontains.
  - intros Hnone.
    assert (Hno : ~ contains region cur).
    { intros Hyes. apply Hnone. exists region.
      split; [apply in_or_app; right; left; reflexivity |].
      unfold contains in *. rewrite <- Hpos. exact Hyes. }
    rewrite (Hout Hno). apply Hkept.
    intros (region' & Hmem & Hcontains). apply Hnone.
    exists region'. split; [apply in_or_app; left; exact Hmem | exact Hcontains].
Qed.

Lemma any_region_carries processed region snps cur w cur' w' :
  Forall2 (carried good processed) snps cur ->
  set_counts_of_region data_files options ref_alt_idx cur region w
  = (Ok cur', w') ->
  Forall2 (carried good (processed ++ [region])) snps cur'.
Proof.
  intros Hcur Hrun. unfold set_counts_of_region in Hrun.
  apply bind_ok in Hrun. destruct Hrun as (ref_node & w1 & _ & Hrun).
  apply bind_ok in Hrun. destruct Hrun as (alt_node & w2 & _ & Hrun).
  apply bind_ok in Hrun. destruct Hrun as (other_node & w3 & _ & Hrun).
  apply mapM_ok in Hrun.
  revert cur' Hrun.
  induction Hcur as [|snp c snps cur Hsnp Hcur IH]; intros cur' Hrun.
  - inversion Hrun. constructor.
  - inversion Hrun as [|c0 c' cur0 cur1 (wa & wb & Hc) Hrest]; subst.
    constructor; [| exact (IH _ Hrest)].
    apply (carried_step processed region snp c c' Hsnp).
    exact (set_counts_in_region_any _ _ _ _ _ _ _ _ Hc).
Qed.

Lemma any_loop_carries rest :
  forall processed snps cur w snps' w',
    Forall2 (carried good processed) snps cur ->
    foldM (set_counts_of_region data_files options ref_alt_idx) cur rest w
    = (Ok snps', w') ->
    Forall2 (carried good (processed ++ rest)) snps snps'.
Proof.
  induction rest as [|region rest IH];
    intros processed snps cur w snps' w' Hcur Hrun.
  - injection Hrun as <- _. rewrite app_nil_r. exact Hcur.
  - simpl in Hrun.
    apply bind_ok in Hrun. destruct Hrun as (cur1 & w1 & Hregion & Hrun).
    replace (processed ++ region :: rest)%list
      with ((processed ++ [region]) ++ rest)%list
      by (rewrite <- app_assoc; reflexivity).
    apply (IH (processed ++ [region])%list snps cur1 w1 snps' w');
      [| exact Hrun].
    exact (any_region_carries processed region snps cur w cur1 w1
             Hcur Hregion).
Qed.

Lemma carried_start snps : Forall2 (carried good []) snps snps.
Proof.
  induction snps as [|snp snps IH]; constructor; [| exact IH].
  split; [apply same_but_counts_refl |].
  split; [intros (region & [] & _) | reflexivity].
Qed.

End AnyPolicy.

Lemma set_snp_counts_carries good data_files region_list snps test_snp
    options w snps' :
  (forall ref_alt_idx region ref_counts alt_counts other_counts snp snp' w1 w2,
      set_counts_in_region options ref_alt_idx region
        ref_counts alt_counts other_counts snp w1 = (Ok snp', w2) ->
      contains region snp -> good region snp') ->
  fst (set_snp_counts data_files region_list snps test_snp options w)
  = Ok snps' ->
  Forall2 (carried good region_list) snps snps'.
Proof.
  intros Hgood Hrun. unfold set_snp_counts in Hrun.
  destruct (bind _ _ w) as [res w'] eqn:Hbind. simpl in Hrun. subst res.
  apply bind_ok in Hbind. destruct Hbind as (idx & w1 & _ & Hloop).
  exact (any_loop_carries data_files options idx good (Hgood idx)
           region_list [] snps snps w1 snps' w' (carried_start good snps)
           Hloop).
Qed.

Lemma counted_in_region options ref_alt_idx region
    ref_counts alt_counts other_counts snp snp' w w' :
  set_counts_in_region options ref_alt_idx region
    ref_counts alt_counts other_counts snp w = (Ok snp', w') ->
  contains region snp -> counts_set snp'.
Proof.
  intros Hrun Hin. unfold set_counts_in_region in Hrun.
  replace ((pos snp >=? start region) && (pos snp <=? end_ region))
    with true in Hrun by (symmetry; apply contains_test; exact Hin).
  apply bind_ok in Hrun. destruct Hrun as (ref_count & w1 & _ & Hrun).
  apply bind_ok in Hrun. destruct Hrun as (alt_count & w2 & _ & Hrun).
  apply bind_ok in Hrun. destruct Hrun as (other & w3 & _ & Hrun).
  destruct ref_alt_idx as [[ref_idx alt_idx]|].
  - apply bind_ok in Hrun. destruct Hrun as (hap & w4 & _ & Hrun).
    destruct (hap =? 0); [| destruct (hap =? 1); [| discriminate Hrun]];
      injection Hrun as <- _; eexists _, _, _; simpl; auto.
  - destruct (String.eqb _ "zero");
      [injection Hrun as <- _; eexists _, _, _; simpl; auto |].
    destruct (String.eqb _ "rand_allele"); [| discriminate Hrun].
    apply bind_ok in Hrun. destruct Hrun as (coin & w4 & _ & Hrun).
    destruct (coin =? 0); injection Hrun as <- _;
      eexists _, _, _; simpl; auto.
Qed.

(** X5: whatever the test SNP and the policy, when [set_snp_counts] returns
    it has changed nothing of a SNP but its three count attributes: a SNP
    that some region contains has all three of them set, and a SNP that no
    region contains is exactly as it was given. *)
Theorem set_snp_counts_touches_counts_only
    data_files region_list snps test_snp options w snps' :
  fst (set_snp_counts data_files region_list snps test_snp options w)
  = Ok snps' ->
  Forall2 (fun snp snp' =>
             same_but_counts snp snp' /\
             (in_some_region region_list snp -> counts_set snp') /\
             (~ in_some_region region_list snp -> snp' = snp))
          snps snps'.
Proof.
  intros Hrun.
  apply (Forall2_impl (carried (fun _ => counts_set) region_list)).
  - apply (set_snp_counts_carries (fun _ => counts_set) data_files region_list
             snps test_snp options w snps'); [| exact Hrun].
    intros idx region rc ac oc snp snp' w1 w2.
    apply counted_in_region.
  - intros snp snp' (Hsame & Hin & Hout).
    split; [exact Hsame |]. split; [| exact Hout].
    intros Hsome. destruct (Hin Hsome) as (region & _ & _ & Hset).
    exact Hset.
Qed.

Lemma set_snp_counts_touches_counts_only_witness :
  Forall2 (fun snp snp' =>
             same_but_counts snp snp' /\
             (in_some_region [region_1_5] snp -> counts_set snp') /\
             (~ in_some_region [region_1_5] snp -> snp' = snp))
          linked_snps linked_snps_phased.
Proof.
  apply (set_snp_counts_touches_counts_only count_files [region_1_5]
           linked_snps (Some (snp_at 3 [0; 1])) (args_with_policy "zero")
           world0).
  vm_compute. reflexivity.
Defined.

(** ** HaplotypePhaser: the fallback policies *)

Lemma fallback_reference_none options w :
  homozygous_as_counts options <> "rand_hap" ->
  fallback_reference options w = (Ok None, w).
Proof.
  intros Hpolicy. unfold fallback_reference.
  destruct (String.eqb_spec (homozygous_as_counts options) "rand_hap");
    [contradiction | reflexivity].
Qed.

Lemma phase_reference_fallback test_snp options w :
  without_phase test_snp ->
  phase_reference test_snp options w = fallback_reference options w.
Proof.
  intros [-> | (test & h0 & h1 & rest & -> & Hhaps & Hcase)]; [reflexivity |].
  apply (phase_reference_not_het test h0 h1 rest options Hhaps Hcase).
Qed.







Lemma randint2_draws w :
  exists coin w1,
    randint2 w = (Ok coin, w1) /\ rand_draws w1 = S (rand_draws w) /\
    (coin = 0 \/ coin = 1).
Proof.
  unfold randint2. eexists _, _. split; [reflexivity |]. split; [reflexivity |].
  destruct (rand_stream w (rand_draws w)); auto.
Qed.

(** X7: under [rand_hap] with a test SNP that gives no phase,
    [set_snp_counts] draws exactly one random number, whatever the numbers
    of regions and SNPs and whether it returns or raises; when it returns,
    the two haplotype counts of every SNP (1-based position) that a region
    contains add up to the raw reference plus the raw alternate count at
    its position. *)
Theorem set_snp_counts_rand_hap
    data_files region_list snps test_snp options w :
  homozygous_as_counts options = "rand_hap" ->
  without_phase test_snp ->
  Forall (fun snp => 1 <= pos snp) snps ->
  rand_draws (snd (set_snp_counts data_files region_list snps test_snp
                                  options w))
  = S (rand_draws w) /\
  forall snps',
    fst (set_snp_counts data_files region_list snps test_snp options w)
    = Ok snps' ->
    Forall2 (settled (counts_conserved data_files) region_list) snps snps'.
Proof.
  intros Hpolicy Hunphased Hpos.
  destruct (randint2_draws w) as (coin & w1 & Hcoin & Hdraw & Hbit).
  assert (Href : exists ref_idx alt_idx,
             phase_reference test_snp options w
             = (Ok (Some (ref_idx, alt_idx)), w1)).
  { rewrite (phase_reference_fallback _ _ _ Hunphased).
    unfold fallback_reference. rewrite Hpolicy. simpl.
    rewrite (bind_step _ _ _ _ _ Hcoin).
    destruct (coin =? 0); eexists _, _; reflexivity. }
  destruct Href as (ref_idx & alt_idx & Href).
  unfold set_snp_counts. rewrite (bind_step _ _ _ _ _ Href).
  split.
  - rewrite <- Hdraw. apply draws_nothing_foldM. intros acc region.
    apply set_counts_of_region_draws_nothing. intros.
    apply set_counts_in_region_draws_nothing.
  - intros snps' Hrun.
    destruct (foldM _ snps region_list w1) as [res w'] eqn:Hfold.
    simpl in Hrun. subst res.
    apply (region_loop_settles data_files options (Some (ref_idx, alt_idx))
             (counts_conserved data_files)
             (one_snp_phased data_files options ref_idx alt_idx)
             region_list [] snps snps w1 snps' w');
      [apply settled_start; exact Hpos | exact Hfold].
Qed.

Lemma set_snp_counts_rand_hap_witness :
  rand_draws (snd (set_snp_counts count_files [region_1_5] linked_snps None
                                  (args_with_policy "rand_hap") world0))
  = 1%nat.
Proof.
  apply (set_snp_counts_rand_hap count_files [region_1_5] linked_snps None
           (args_with_policy "rand_hap") world0).
  - reflexivity.
  - left. reflexivity.
  - repeat constructor; simpl; lia.
Defined.

Lemma py_index_ok_world {A} (l : list A) i w x w' :
  py_index l i w = (Ok x, w') -> w' = w.
Proof. intros H. apply py_index_ok in H. apply H. Qed.

Lemma getNode_ok_draws {A} which (h5 : gmap string A) node_name w node w' :
  getNode which h5 node_name w = (Ok node, w') -> rand_draws w' = rand_draws w.
Proof.
  intros H. pose proof (draws_nothing_getNode which h5 node_name w) as Hd.
  rewrite H in Hd. exact Hd.
Qed.

Lemma one_snp_rand_allele data_files options
    region ref_node alt_node other_node snp snp' w w' :
  homozygous_as_counts options = "rand_allele" ->
  ref_count_h5 data_files !! ("/" +:+ chrom_name (chrom region)) = Some ref_node ->
  alt_count_h5 data_files !! ("/" +:+ chrom_name (chrom region)) = Some alt_node ->
  other_count_h5 data_files !! ("/" +:+ chrom_name (chrom region)) = Some other_node ->
  1 <= pos snp ->
  set_counts_in_region options None region
    (py_slice ref_node (start region - 1) (end_ region))
    (py_slice alt_node (start region - 1) (end_ region))
    (py_slice other_node (start region - 1) (end_ region))
    snp w = (Ok snp', w') ->
  pos snp' = pos snp /\ haps snp' = haps snp /\
  (contains region snp -> counts_conserved data_files region snp') /\
  (~ contains region snp -> snp' = snp).
Proof.
  intros Hpolicy Href Halt Hother Hpos Hrun.
  unfold set_counts_in_region in Hrun.
  destruct ((pos snp >=? start region) && (pos snp <=? end_ region)) eqn:Hin.
  - apply contains_test in Hin.
    apply bind_ok in Hrun. destruct Hrun as (ref_count & w1 & Hr & Hrun).
    apply bind_ok in Hrun. destruct Hrun as (alt_count & w2 & Ha & Hrun).
    apply bind_ok in Hrun. destruct Hrun as (other & w3 & Ho & Hrun).
    destruct (region_reads data_files region ref_node alt_node other_node snp
                w ref_count alt_count other w1 w2 w3
                Href Halt Hother Hpos Hin Hr Ha Ho) as (Hraw_r & Hraw_a & _).
    rewrite Hpolicy in Hrun. simpl in Hrun.
    apply bind_ok in Hrun. destruct Hrun as (coin & w4 & _ & Hrun).
    destruct (coin =? 0); injection Hrun as <- _; simpl;
      (split; [reflexivity |]); (split; [reflexivity |]);
      (split; [| intros Hno; contradiction]); intros _.
    + exists ref_count, alt_count, ref_count, alt_count. simpl. auto.
    + exists ref_count, alt_count, alt_count, ref_count. simpl.
      repeat split; auto. lia.
  - injection Hrun as <- _.
    split; [reflexivity |]. split; [reflexivity |].
    split; [| reflexivity].
    intros Hyes. apply contains_test in Hyes. congruence.
Qed.

Lemma rand_allele_draw options region ref_counts alt_counts other_counts
    snp snp' w w' :
  homozygous_as_counts options = "rand_allele" ->
  set_counts_in_region options None region ref_counts alt_counts other_counts
                       snp w = (Ok snp', w') ->
  pos snp' = pos snp /\
  rand_draws w' = (rand_draws w + (if inside region snp then 1 else 0))%nat.
Proof.
  intros Hpolicy Hrun. unfold set_counts_in_region in Hrun. unfold inside.
  destruct ((pos snp >=? start region) && (pos snp <=? end_ region)).
  - apply bind_ok in Hrun. destruct Hrun as (ref_count & w1 & Hr & Hrun).
    apply bind_ok in Hrun. destruct Hrun as (alt_count & w2 & Ha & Hrun).
    apply bind_ok in Hrun. destruct Hrun as (other & w3 & Ho & Hrun).
    apply py_index_ok_world in Hr, Ha, Ho. subst w1 w2 w3.
    rewrite Hpolicy in Hrun. simpl in Hrun.
    apply bind_ok in Hrun. destruct Hrun as (coin & w4 & Hcoin & Hrun).
    unfold randint2 in Hcoin. injection Hcoin as _ <-.
    destruct (coin =? 0); injection Hrun as <- <-; simpl;
      (split; [reflexivity | lia]).
  - injection Hrun as <- <-. split; [reflexivity | lia].
Qed.

Lemma mapM_rand_allele_draws options region ref_counts alt_counts other_counts :
  homozygous_as_counts options = "rand_allele" ->
  forall snps w snps' w',
    mapM (set_counts_in_region options None region
                               ref_counts alt_counts other_counts) snps w
    = (Ok snps', w') ->
    map pos snps' = map pos snps /\
    rand_draws w'
    = (rand_draws w + length (List.filter (inside region) snps))%nat.
Proof.
  intros Hpolicy. induction snps as [|snp snps IH]; intros w snps' w' Hrun.
  - injection Hrun as <- <-. split; [reflexivity | simpl; lia].
  - simpl in Hrun.
    apply bind_ok in Hrun. destruct Hrun as (snp1 & w1 & Hsnp & Hrun).
    apply bind_ok in Hrun. destruct Hrun as (rest & w2 & Hrest & Hrun).
    injection Hrun as <- <-.
    destruct (rand_allele_draw _ _ _ _ _ _ _ _ _ Hpolicy Hsnp) as [Hpos Hdraw].
    destruct (IH _ _ _ Hrest) as [Hposs Hdraws].
    split; [simpl; congruence |].
    simpl. destruct (inside region snp); simpl; lia.
Qed.

Lemma filter_inside_positions region (l l' : list SNP) :
  map pos l = map pos l' ->
  length (List.filter (inside region) l)
  = length (List.filter (inside region) l').
Proof.
  revert l'. induction l as [|x l IH]; intros [|y l'] Hpos;
    try discriminate Hpos; [reflexivity |].
  simpl in Hpos. injection Hpos as Hxy Hrest.
  assert (Hin : inside region x = inside region y)
    by (unfold inside; rewrite Hxy; reflexivity).
  cbn [List.filter]. rewrite Hin.
  destruct (inside region y); cbn [length]; rewrite (IH _ Hrest); reflexivity.
Qed.

Lemma rand_allele_loop_draws data_files options region_list :
  homozygous_as_counts options = "rand_allele" ->
  forall snps cur w snps' w',
    map pos cur = map pos snps ->
    foldM (set_counts_of_region data_files options None) cur region_list w
    = (Ok snps', w') ->
    rand_draws w' = (rand_draws w + containments region_list snps)%nat.
Proof.
  intros Hpolicy.
  induction region_list as [|region rest IH]; intros snps cur w snps' w' Hcur Hrun.
  - injection Hrun as _ <-. unfold containments. simpl. lia.
  - simpl in Hrun.
    apply bind_ok in Hrun. destruct Hrun as (cur1 & w1 & Hregion & Hrun).
    unfold set_counts_of_region in Hregion.
    apply bind_ok in Hregion. destruct Hregion as (rn & wa & Hr & Hregion).
    apply bind_ok in Hregion. destruct Hregion as (an & wb & Ha & Hregion).
    apply bind_ok in Hregion. destruct Hregion as (on & wc & Ho & Hregion).
    apply getNode_ok_draws in Hr, Ha, Ho.
    destruct (mapM_rand_allele_draws _ _ _ _ _ Hpolicy _ _ _ _ Hregion)
      as [Hpos Hdraws].
    rewrite (IH snps cur1 w1 snps' w' (eq_trans Hpos Hcur) Hrun).
    rewrite Hdraws, (filter_inside_positions region cur snps Hcur).
    unfold containments. simpl. lia.
Qed.

(** X8: under [rand_allele] with a test SNP that gives no phase,
    [set_snp_counts], when it returns, has drawn one random number for every
    pair of a region and a SNP it contains (a SNP in two overlapping regions
    is drawn for twice, the second draw replacing the first), and the two
    haplotype counts of every SNP (1-based position) that a region contains
    add up to the raw reference plus the raw alternate count at its
    position. *)
Theorem set_snp_counts_rand_allele
    data_files region_list snps test_snp options w snps' :
  homozygous_as_counts options = "rand_allele" ->
  without_phase test_snp ->
  Forall (fun snp => 1 <= pos snp) snps ->
  fst (set_snp_counts data_files region_list snps test_snp options w)
  = Ok snps' ->
  rand_draws (snd (set_snp_counts data_files region_list snps test_snp
                                  options w))
  = (rand_draws w + containments region_list snps)%nat /\
  Forall2 (settled (counts_conserved data_files) region_list) snps snps'.
Proof.
  intros Hpolicy Hunphased Hpos Hrun.
  assert (Href : phase_reference test_snp options w = (Ok None, w)).
  { rewrite (phase_reference_fallback _ _ _ Hunphased).
    apply fallback_reference_none. rewrite Hpolicy. discriminate. }
  unfold set_snp_counts in *. rewrite (bind_step _ _ _ _ _ Href) in *.
  destruct (foldM _ snps region_list w) as [res w'] eqn:Hfold.
  simpl in Hrun. subst res. simpl. split.
  - exact (rand_allele_loop_draws data_files options region_list Hpolicy
             snps snps w snps' w' eq_refl Hfold).
  - apply (region_loop_settles data_files options None
             (counts_conserved data_files)
             (fun region ref_node alt_node other_node snp snp' w1 w2 =>
                one_snp_rand_allele data_files options region ref_node
                  alt_node other_node snp snp' w1 w2 Hpolicy)
             region_list [] snps snps w snps' w');
      [apply settled_start; exact Hpos | exact Hfold].
Qed.

Lemma set_snp_counts_rand_allele_witness :
  rand_draws (snd (set_snp_counts count_files [region_1_5; region_2_9]
                                  linked_snps None
                                  (args_with_policy "rand_allele") world0))
  = 4%nat.
Proof.
  apply (set_snp_counts_rand_allele count_files [region_1_5; region_2_9]
           linked_snps None (args_with_policy "rand_allele") world0
           linked_snps_unswapped).
  - reflexivity.
  - left. reflexivity.
  - repeat constructor; simpl; lia.
  - vm_compute. reflexivity.
Defined.

(** ** HaplotypePhaser: the phase of the test SNP *)

Lemma flip_one_snp options ref_idx alt_idx alt_idx' region
    ref_counts alt_counts other_counts snp w :
  ref_idx = 0 \/ ref_idx = 1 ->
  het_defined_pair snp ->
  set_counts_in_region options (Some (1 - ref_idx, alt_idx')) region
    ref_counts alt_counts other_counts (swap_counts snp) w
  = (match fst (set_counts_in_region options (Some (ref_idx, alt_idx)) region
                  ref_counts alt_counts other_counts snp w) with
     | Ok snp' => Ok (swap_counts snp')
     | Raise e => Raise e
     end,
     snd (set_counts_in_region options (Some (ref_idx, alt_idx)) region
            ref_counts alt_counts other_counts snp w)).
Proof.
  intros Hidx Hpair. unfold set_counts_in_region.
  change (pos (swap_counts snp)) with (pos snp).
  destruct ((pos snp >=? start region) && (pos snp <=? end_ region));
    [| reflexivity].
  unfold bind.
  destruct (py_index ref_counts (pos snp - start region) w) as [[r|e] w1];
    [| reflexivity].
  destruct (py_index alt_counts (pos snp - start region) w1) as [[a|e] w2];
    [| reflexivity].
  destruct (py_index other_counts (pos snp - start region) w2) as [[o|e] w3];
    [| reflexivity].
  change (haps (with_other_count (swap_counts snp) o)) with (haps snp).
  change (haps (with_other_count snp o)) with (haps snp).
  destruct Hidx as [-> | ->], Hpair as [-> | ->]; reflexivity.
Qed.

Lemma flip_mapM options ref_idx alt_idx alt_idx' region
    ref_counts alt_counts other_counts snps :
  ref_idx = 0 \/ ref_idx = 1 ->
  Forall het_defined_pair snps ->
  forall w,
    mapM (set_counts_in_region options (Some (1 - ref_idx, alt_idx')) region
                               ref_counts alt_counts other_counts)
         (map swap_counts snps) w
    = swap_outcome
        (mapM (set_counts_in_region options (Some (ref_idx, alt_idx)) region
                                    ref_counts alt_counts other_counts)
              snps w).
Proof.
  intros Hidx. induction 1 as [|snp snps Hsnp _ IH]; intros w; [reflexivity |].
  simpl mapM. unfold bind at 1 3.
  rewrite (flip_one_snp options ref_idx alt_idx alt_idx' region ref_counts
             alt_counts other_counts snp w Hidx Hsnp).
  destruct (set_counts_in_region options (Some (ref_idx, alt_idx)) region
              ref_counts alt_counts other_counts snp w) as [[snp'|e] w1];
    [| reflexivity].
  simpl. unfold bind. rewrite IH.
  destruct (mapM _ snps w1) as [[rest|e] w2]; reflexivity.
Qed.

Lemma flip_region data_files options ref_idx alt_idx alt_idx' region snps w :
  ref_idx = 0 \/ ref_idx = 1 ->
  Forall het_defined_pair snps ->
  set_counts_of_region data_files options (Some (1 - ref_idx, alt_idx'))
                       (map swap_counts snps) region w
  = swap_outcome
      (set_counts_of_region data_files options (Some (ref_idx, alt_idx))
                            snps region w).
Proof.
  intros Hidx Hsnps. unfold set_counts_of_region, bind.
  destruct (getNode ref_count_file _ _ w) as [[rn|e] w1]; [| reflexivity].
  destruct (getNode alt_count_file _ _ w1) as [[an|e] w2]; [| reflexivity].
  destruct (getNode other_count_file _ _ w2) as [[on|e] w3]; [| reflexivity].
  apply flip_mapM; assumption.
Qed.

Lemma het_defined_pair_kept data_files options ref_alt_idx region snps w
    snps' w' :
  Forall het_defined_pair snps ->
  set_counts_of_region data_files options ref_alt_idx snps region w
  = (Ok snps', w') ->
  Forall het_defined_pair snps'.
Proof.
  intros Hsnps Hrun. unfold set_counts_of_region in Hrun.
  apply bind_ok in Hrun. destruct Hrun as (rn & w1 & _ & Hrun).
  apply bind_ok in Hrun. destruct Hrun as (an & w2 & _ & Hrun).
  apply bind_ok in Hrun. destruct Hrun as (on & w3 & _ & Hrun).
  apply mapM_ok in Hrun.
  induction Hrun as [|snp snp' l l' (wa & wb & Hsnp) _ IH]; [constructor |].
  constructor; [| exact (IH (Forall_inv_tail Hsnps))].
  destruct (set_counts_in_region_any options ref_alt_idx (fun _ _ => True)
              (fun _ _ _ _ _ _ _ _ _ _ => I) _ _ _ _ _ _ _ _ Hsnp)
    as [Hsame _].
  unfold het_defined_pair.
  replace (haps snp') with (haps snp) by (symmetry; apply Hsame).
  exact (Forall_inv Hsnps).
Qed.

Lemma flip_loop data_files options ref_idx alt_idx alt_idx' region_list :
  ref_idx = 0 \/ ref_idx = 1 ->
  forall snps w,
    Forall het_defined_pair snps ->
    foldM (set_counts_of_region data_files options
                                (Some (1 - ref_idx, alt_idx')))
          (map swap_counts snps) region_list w
    = swap_outcome
        (foldM (set_counts_of_region data_files options
                                     (Some (ref_idx, alt_idx)))
               snps region_list w).
Proof.
  intros Hidx. induction region_list as [|region rest IH]; intros snps w Hsnps;
    [reflexivity |].
  simpl foldM. unfold bind at 1 2.
  rewrite (flip_region data_files options ref_idx alt_idx alt_idx' region
             snps w Hidx Hsnps).
  destruct (set_counts_of_region data_files options (Some (ref_idx, alt_idx))
              snps region w) as [[snps1|e] w1] eqn:Hregion; [| reflexivity].
  simpl. apply IH.
  exact (het_defined_pair_kept _ _ _ _ _ _ _ _ Hsnps Hregion).
Qed.

Lemma swap_uncounted snps :
  Forall uncounted snps -> map swap_counts snps = snps.
Proof.
  induction 1 as [|snp snps [Href Halt] _ IH]; [reflexivity |].
  simpl. rewrite IH. f_equal.
  destruct snp. unfold swap_counts. simpl in *. subst. reflexivity.
Qed.

(** X9: the labels follow the phase of the test SNP.  For linked SNPs with
    haplotype pair (0, 1) or (1, 0) that carry no counts yet, exchanging the
    two haplotype indices of a phased test SNP exchanges the reference and
    the alternate haplotype count of every SNP in the outcome of
    [set_snp_counts], and changes nothing else: the same exception if it
    raises, the same other counts, the same world. *)
Theorem set_snp_counts_phase_flip
    data_files region_list snps test test' options w h0 h1 :
  haps test = [h0; h1] -> haps test' = [h1; h0] ->
  h0 <> h1 -> h0 = 0 \/ h0 = 1 -> h1 = 0 \/ h1 = 1 ->
  Forall het_defined_pair snps ->
  Forall uncounted snps ->
  set_snp_counts data_files region_list snps (Some test') options w
  = swap_outcome
      (set_snp_counts data_files region_list snps (Some test) options w).
Proof.
  intros Htest Htest' Hne H0 H1 Hpairs Hfresh. unfold set_snp_counts.
  assert (Hdef0 : h0 <> HAP_UNDEF) by (destruct H0; subst; discriminate).
  assert (Hdef1 : h1 <> HAP_UNDEF) by (destruct H1; subst; discriminate).
  rewrite (bind_step _ _ _ _ _
             (phase_reference_het test h0 h1 [] options w Htest Hne Hdef0)).
  rewrite (bind_step _ _ _ _ _
             (phase_reference_het test' h1 h0 [] options w Htest'
                (not_eq_sym Hne) Hdef1)).
  rewrite <- (swap_uncounted snps Hfresh) at 1.
  destruct H0 as [-> | ->], H1 as [-> | ->]; try contradiction; simpl.
  - apply (flip_loop data_files options 0 1 0 region_list
             (or_introl eq_refl) snps w Hpairs).
  - apply (flip_loop data_files options 1 0 1 region_list
             (or_intror eq_refl) snps w Hpairs).
Qed.

Lemma set_snp_counts_phase_flip_witness :
  fst (set_snp_counts count_files [region_1_5] linked_snps
                      (Some (snp_at 3 [1; 0])) (args_with_policy "zero")
                      world0)
  = Ok (map swap_counts linked_snps_phased).
Proof.
  assert (Hpairs : Forall het_defined_pair linked_snps).
  { constructor; [left; reflexivity |].
    constructor; [right; reflexivity | constructor]. }
  assert (Hfresh : Forall uncounted linked_snps).
  { repeat constructor. }
  rewrite (set_snp_counts_phase_flip count_files [region_1_5] linked_snps
             (snp_at 3 [0; 1]) (snp_at 3 [1; 0]) (args_with_policy "zero")
             world0 0 1 eq_refl eq_refl ltac:(discriminate)
             (or_introl eq_refl) (or_intror eq_refl) Hpairs Hfresh).
  vm_compute. reflexivity.
Defined.

(** ** RecordWriter after the phaser *)

Lemma mapM_attribute_set attr (get : SNP -> option Z) snps :
  Forall (fun snp => exists n, get snp = Some n) snps ->
  exists values,
    forall w, mapM (fun s => attribute attr (get s)) snps w = (Ok values, w).
Proof.
  intros Hset.
  destruct (mapM_total (fun s => attribute attr (get s)) (fun _ _ => True) snps)
    as (values & Hrun & _).
  - apply (Forall_impl _ _ _ Hset). intros snp (n & Hn).
    exists n. split; [| exact I]. intros w. unfold attribute. rewrite Hn.
    reflexivity.
  - exists values. exact Hrun.
Qed.

Lemma mapM_attribute_unset attr (get : SNP -> option Z) snps w :
  Exists (fun snp => get snp = None) snps ->
  mapM (fun s => attribute attr (get s)) snps w = (Raise (AttributeError attr), w).
Proof.
  induction snps as [|snp snps IH]; intros Hnone.
  - inversion Hnone.
  - simpl. unfold bind at 1. unfold attribute at 1.
    destruct (get snp) as [n|] eqn:Hn; [| reflexivity].
    simpl. apply bind_raise. apply IH.
    inversion Hnone as [? ? Hhere | ? ? Hlater]; subst;
      [congruence | exact Hlater].
Qed.

Lemma write_run f s w : write f s w = (Ok tt, written f s w).
Proof. destruct f; reflexivity. Qed.

Lemma write_ok f s w : exists w', write f s w = (Ok tt, w').
Proof. exists (written f s w). apply write_run. Qed.

Lemma write_output_linked_returns format_2f f region_list snps test
    test_snp_pos region_read_count genomewide_read_count w :
  region_list <> [] ->
  has_two_haps test ->
  Forall counts_set snps ->
  exists w',
    write_output format_2f f region_list snps (Some test) test_snp_pos
                 region_read_count genomewide_read_count w
    = (Ok tt, w').
Proof.
  intros Hregions (h0 & h1 & rest & Hhaps) Hset.
  destruct region_list as [|region0 regions]; [contradiction |].
  destruct (mapM_attribute_set "ref_hap_count" ref_hap_count snps)
    as (ref_haps & Href).
  { apply (Forall_impl _ _ _ Hset). intros snp (r & a & o & Hr & _). eauto. }
  destruct (mapM_attribute_set "alt_hap_count" alt_hap_count snps)
    as (alt_haps & Halt).
  { apply (Forall_impl _ _ _ Hset). intros snp (r & a & o & _ & Ha & _). eauto. }
  destruct (mapM_attribute_set "other_count" other_count snps)
    as (others & Hother).
  { apply (Forall_impl _ _ _ Hset). intros snp (r & a & o & _ & _ & Ho). eauto. }
  unfold write_output.
  rewrite (bind_step _ _ _ _ _ (py_index_0 _ _ _)). rewrite Hhaps.
  rewrite (bind_step _ _ _ _ _ (py_index_0 _ _ _)).
  rewrite (bind_step _ _ _ _ _ (py_index_1 _ _ _ _)).
  rewrite (bind_step _ _ _ _ _ (write_run _ _ _)).
  match goal with
  | |- context [bind (if ?b then ?yes else ?no) ?k ?w1] =>
      assert (Hfields : exists w2, (if b then yes else no) w1 = (Ok tt, w2))
  end.
  { destruct (len snps >? 0); [| apply write_ok].
    rewrite (bind_step _ _ _ _ _ (write_run _ _ _)).
    rewrite (bind_step _ _ _ _ _ (write_run _ _ _)).
    rewrite (bind_step _ _ _ _ _ (write_run _ _ _)).
    rewrite (bind_step _ _ _ _ _ (Href _)).
    rewrite (bind_step _ _ _ _ _ (write_run _ _ _)).
    rewrite (bind_step _ _ _ _ _ (Halt _)).
    rewrite (bind_step _ _ _ _ _ (write_run _ _ _)).
    rewrite (bind_step _ _ _ _ _ (Hother _)).
    apply write_ok. }
  destruct Hfields as (w2 & Hfields).
  rewrite (bind_step _ _ _ _ _ Hfields). apply write_ok.
Qed.

Lemma phase_reference_reads_pair test options w idx w' :
  phase_reference (Some test) options w = (Ok idx, w') -> has_two_haps test.
Proof.
  unfold phase_reference, has_two_haps.
  destruct (haps test) as [|h0 [|h1 rest]]; try discriminate. eauto.
Qed.

(** X10: the phaser leaves the linked SNPs fit for the writer.  When
    [set_snp_counts] has returned on a non-empty region list and every SNP
    of its list lies in some region, [write_output] on its result returns:
    no count attribute is missing and the haplotype pair of the test SNP can
    be printed.  On a SNP that carries no reference-haplotype count, as one
    that no region contains, [write_output] raises [AttributeError]. *)
Theorem write_output_after_set_snp_counts
    format_2f data_files region_list snps test options w snps' w1
    test_snp_pos region_read_count genomewide_read_count :
  set_snp_counts data_files region_list snps (Some test) options w
  = (Ok snps', w1) ->
  region_list <> [] ->
  Forall (in_some_region region_list) snps ->
  (exists w2,
      write_output format_2f sys_stdout region_list snps' (Some test)
                   test_snp_pos region_read_count genomewide_read_count w1
      = (Ok tt, w2)) /\
  (forall others,
      Exists (fun snp => ref_hap_count snp = None) others ->
      fst (write_output format_2f sys_stdout region_list others (Some test)
                        test_snp_pos region_read_count genomewide_read_count
                        w1)
      = Raise (AttributeError "ref_hap_count")).
Proof.
  intros Hrun Hregions Hinside.
  assert (Hpair : has_two_haps test).
  { unfold set_snp_counts in Hrun. apply bind_ok in Hrun.
    destruct Hrun as (idx & w0 & Href & _).
    exact (phase_reference_reads_pair _ _ _ _ _ Href). }
  split.
  - apply write_output_linked_returns; [exact Hregions | exact Hpair |].
    assert (Hcarried :
      Forall2 (carried (fun _ => counts_set) region_list) snps snps').
    { apply (set_snp_counts_carries (fun _ => counts_set) data_files
               region_list snps (Some test) options w snps');
        [| rewrite Hrun; reflexivity].
      intros idx region rc ac oc snp snp' wa wb. apply counted_in_region. }
    clear Hrun.
    induction Hcarried as [|snp snp' l l' (_ & Hin & _) _ IH];
      constructor.
    + destruct (Hin (Forall_inv Hinside)) as (region & _ & _ & Hset).
      exact Hset.
    + exact (IH (Forall_inv_tail Hinside)).
  - intros others Hnone.
    destruct Hpair as (h0 & h1 & rest & Hhaps).
    destruct region_list as [|region0 regions]; [contradiction |].
    unfold write_output.
    rewrite (bind_step _ _ _ _ _ (py_index_0 _ _ _)). rewrite Hhaps.
    rewrite (bind_step _ _ _ _ _ (py_index_0 _ _ _)).
    rewrite (bind_step _ _ _ _ _ (py_index_1 _ _ _ _)).
    rewrite (bind_step _ _ _ _ _ (write_run _ _ _)).
    assert (Hlen : (len others >? 0) = true).
    { unfold len. destruct others; [inversion Hnone |].
      simpl length. apply Z.gtb_lt. lia. }
    rewrite Hlen.
    match goal with
    | |- fst (bind ?c ?k ?w2) = _ =>
        assert (Hfields : exists w3,
                   c w2 = (Raise (AttributeError "ref_hap_count"), w3))
    end.
    { rewrite (bind_step _ _ _ _ _ (write_run _ _ _)).
      rewrite (bind_step _ _ _ _ _ (write_run _ _ _)).
      rewrite (bind_step _ _ _ _ _ (write_run _ _ _)).
      eexists. apply bind_raise. apply mapM_attribute_unset. exact Hnone. }
    destruct Hfields as (w3 & Hfields).
    rewrite (bind_raise _ _ _ _ _ Hfields). reflexivity.
Qed.

Lemma write_output_after_set_snp_counts_witness :
  exists w2,
    write_output (fun _ => "1.00") sys_stdout [region_1_5] linked_snps_phased
                 (Some (snp_at 3 [0; 1])) 3 34 1000
                 (after_lookups world0
                    [(ref_count_file, "/chr1"); (alt_count_file, "/chr1");
                     (other_count_file, "/chr1")])
    = (Ok tt, w2).
Proof.
  apply (write_output_after_set_snp_counts (fun _ => "1.00") count_files
           [region_1_5] linked_snps (snp_at 3 [0; 1])
           (args_with_policy "zero") world0 linked_snps_phased).
  - vm_compute. reflexivity.
  - discriminate.
  - repeat constructor; exists region_1_5;
      (split; [left; reflexivity | unfold contains; simpl; lia]).
Defined.

(** ** RegionAggregator: [get_region_read_counts] *)

Lemma read_counts_from data_files region_list :
  forall acc w,
    foldM
      (fun total_count region =>
         let node_name := "/" +:+ chrom_name (chrom region) in
         node <- getNode read_count_file (read_count_h5 data_files) node_name ;;
         let counts := py_slice node (start region - 1) (end_ region) in
         ret (total_count + fold_right Z.add 0 counts))
      acc region_list w
    = (match fst (get_region_read_counts data_files region_list w) with
       | Ok n => Ok (acc + n)
       | Raise e => Raise e
       end,
       snd (get_region_read_counts data_files region_list w)).
Proof.
  unfold get_region_read_counts.
  induction region_list as [|region rest IH]; intros acc w.
  - simpl. rewrite Z.add_0_r. reflexivity.
  - simpl foldM. unfold bind, ret in *.
    destruct (getNode read_count_file (read_count_h5 data_files)
                ("/" +:+ chrom_name (chrom region)) w) as [[node|e] w1];
      cbv beta iota; [| reflexivity].
    rewrite (IH (acc + _) w1), (IH (0 + _) w1).
    cbn [fst snd].
    destruct (fst (foldM _ 0 rest w1)); [| reflexivity].
    f_equal. f_equal. lia.
Qed.

Lemma read_counts_any_world data_files region_list w w' :
  fst (get_region_read_counts data_files region_list w)
  = fst (get_region_read_counts data_files region_list w').
Proof.
  unfold get_region_read_counts.
  generalize 0 at 2 4. revert w w'.
  induction region_list as [|region rest IH]; intros w w' acc; [reflexivity |].
  simpl foldM. unfold bind, getNode, ret.
  destruct (read_count_h5 data_files !! _); [| reflexivity].
  apply IH.
Qed.

(** X11: the read count of a region list is the sum of the read counts of
    its parts, each region counted as often as it is listed: a list followed
    by another has the sum of the two counts, so a region given twice, or
    two regions that overlap, count their common reads twice. *)
Theorem get_region_read_counts_adds data_files regions1 regions2 w n1 n2 :
  fst (get_region_read_counts data_files regions1 w) = Ok n1 ->
  fst (get_region_read_counts data_files regions2 w) = Ok n2 ->
  fst (get_region_read_counts data_files (regions1 ++ regions2) w)
  = Ok (n1 + n2).
Proof.
  revert n1 w.
  induction regions1 as [|region rest IH]; intros n1 w H1 H2.
  - injection H1 as <-. simpl. exact H2.
  - unfold get_region_read_counts in H1 |- *.
    simpl app. simpl foldM in H1 |- *.
    unfold bind, ret in H1 |- *.
    destruct (getNode read_count_file (read_count_h5 data_files)
                ("/" +:+ chrom_name (chrom region)) w) as [[node|e] w1];
      cbv beta iota in H1 |- *; [| discriminate H1].
    pose proof (read_counts_from data_files rest) as Hrest.
    pose proof (read_counts_from data_files (rest ++ regions2)) as Hall.
    unfold ret in Hrest, Hall.
    rewrite Hrest in H1. rewrite Hall. cbn [fst] in H1 |- *.
    destruct (fst (get_region_read_counts data_files rest w1)) as [m|e] eqn:Hm;
      [| discriminate H1].
    injection H1 as <-.
    rewrite (IH m w1 Hm).
    + f_equal. lia.
    + rewrite <- H2. apply read_counts_any_world.
Qed.

Lemma get_region_read_counts_adds_witness :
  fst (get_region_read_counts count_files [region_1_5; region_1_5] world0)
  = Ok (34 + 34).
Proof.
  apply (get_region_read_counts_adds count_files [region_1_5] [region_1_5]
           world0 34 34); reflexivity.
Defined.

Lemma total_firstn_nth (l : list Z) :
  forall k,
    total (firstn k l) = total (map (fun j => nth j l 0) (seq 0 k)).
Proof.
  induction l as [|x l IH]; intros k.
  - rewrite firstn_nil. simpl. induction (seq 0 k) as [|j js IHj];
      [reflexivity |].
    simpl. rewrite <- IHj. destruct j; reflexivity.
  - destruct k as [|k]; [reflexivity |].
    simpl. rewrite IH. f_equal.
    rewrite <- seq_shift, map_map. reflexivity.
Qed.

Lemma nth_skipn_shift (l : list Z) i j : nth j (skipn i l) 0 = nth (i + j) l 0.
Proof.
  revert l. induction i as [|i IH]; intros l; [reflexivity |].
  destruct l as [|x l]; [destruct j; reflexivity |]. simpl. apply IH.
Qed.

Lemma py_slice_in_track (node : list Z) (s e : Z) :
  1 <= s -> s <= e + 1 ->
  py_slice node (s - 1) e
  = firstn (Z.to_nat (e - s + 1)) (skipn (Z.to_nat (s - 1)) node).
Proof.
  intros Hs He. unfold py_slice, slice_bound, len.
  destruct (Z.ltb_spec (s - 1) 0); [lia |].
  destruct (Z.ltb_spec e 0); [lia |].
  destruct (Z_le_gt_dec (s - 1) (Z.of_nat (length node))) as [Hin|Hout].
  - rewrite (Z.min_l (s - 1)) by lia.
    destruct (Z_le_gt_dec e (Z.of_nat (length node))).
    + rewrite Z.min_l by lia. f_equal. lia.
    + rewrite Z.min_r by lia.
      rewrite !firstn_all2; [reflexivity | |]; rewrite length_skipn; lia.
  - rewrite !skipn_all2 by lia. rewrite !firstn_nil. reflexivity.
Qed.

(** X12: for one region that starts at position 1 or later and whose node
    exists, [get_region_read_counts] returns the sum over the positions
    [start .. end] of the count the track holds there, a position past the
    end of the track counting 0: a region that runs past the end of the
    chromosome's track is cut short without an exception, and an empty or
    out-of-track region counts 0. *)
Theorem get_region_read_counts_by_position data_files region node w :
  read_count_h5 data_files !! ("/" +:+ chrom_name (chrom region)) = Some node ->
  1 <= start region ->
  start region <= end_ region + 1 ->
  fst (get_region_read_counts data_files [region] w)
  = Ok (total (map (count_at node) (positions (start region) (end_ region)))).
Proof.
  intros Hnode Hstart Hend. unfold get_region_read_counts. simpl foldM.
  unfold bind. rewrite (getNode_found _ _ _ _ w Hnode).
  unfold ret. cbn [fst]. f_equal. rewrite Z.add_0_l.
  rewrite (py_slice_in_track node _ _ Hstart Hend).
  change (fold_right Z.add 0) with total.
  rewrite total_firstn_nth. unfold positions. rewrite map_map.
  f_equal. apply map_ext. intros j.
  rewrite nth_skipn_shift. unfold count_at. f_equal. lia.
Qed.

Lemma get_region_read_counts_by_position_witness :
  fst (get_region_read_counts count_files [mkCoord chr1 4 9] world0)
  = Ok 21.
Proof.
  apply (get_region_read_counts_by_position count_files (mkCoord chr1 4 9)
           [4; 9; 0; 20; 1] world0); [reflexivity | simpl; lia | simpl; lia].
Defined.

(** ** Target regions *)

Lemma override_size_chrom args chromosome region :
  chrom (override_size args chromosome region) = chrom region.
Proof.
  unfold override_size. destruct (target_region_size args) as [size|];
    [| reflexivity].
  destruct (size =? 0); [reflexivity |].
  destruct (negb (length_ region =? size)); reflexivity.
Qed.

Lemma override_size_clamps args chromosome region size :
  target_region_size args = Some size -> size <> 0 ->
  (length_ region = size /\ override_size args chromosome region = region) \/
  (1 <= start (override_size args chromosome region) /\
   end_ (override_size args chromosome region) <= chrom_length chromosome).
Proof.
  intros Hsize Hnz. unfold override_size. rewrite Hsize.
  destruct (Z.eqb_spec size 0) as [|_]; [contradiction |].
  destruct (Z.eqb_spec (length_ region) size) as [Heq|_]; simpl;
    [left; auto |].
  right. split.
  - destruct (Z.ltb_spec ((start region + end_ region) / 2 - size / 2) 1); lia.
  - destruct (Z.gtb_spec ((start region + end_ region) / 2 + size / 2)
                         (chrom_length chromosome)); lia.
Qed.

Lemma py_int_ok_world s w n w' : py_int s w = (Ok n, w') -> w' = w.
Proof.
  unfold py_int.
  match goal with
  | |- context [match ?parsed with Some _ => _ | None => _ end] =>
      destruct parsed
  end; [| discriminate].
  intros [= _ <-]. reflexivity.
Qed.

Lemma region_parsing_ok args chromosome start_words end_words indices :
  forall done w regions w',
    foldM
      (fun (region_list : list Coord) i =>
         start_word <- py_index start_words i ;;
         start <- py_int start_word ;;
         end_word <- py_index end_words i ;;
         end_ <- py_int end_word ;;
         let region := mkCoord chromosome start end_ in
         ret (region_list ++ [override_size args chromosome region])%list)
      done indices w = (Ok regions, w') ->
    w' = w /\
    exists parsed,
      regions = (done ++ map (override_size args chromosome) parsed)%list /\
      length parsed = length indices /\
      Forall (fun region => chrom region = chromosome) parsed.
Proof.
  induction indices as [|i indices IH]; intros done w regions w' Hrun.
  - injection Hrun as <- <-. split; [reflexivity |].
    exists []. rewrite app_nil_r. repeat split. constructor.
  - simpl in Hrun.
    apply bind_ok in Hrun. destruct Hrun as (acc & w1 & Hbody & Hrest).
    apply bind_ok in Hbody. destruct Hbody as (sw & wa & Hsw & Hbody).
    apply bind_ok in Hbody. destruct Hbody as (s & wb & Hs & Hbody).
    apply bind_ok in Hbody. destruct Hbody as (ew & wc & Hew & Hbody).
    apply bind_ok in Hbody. destruct Hbody as (e & wd & He & Hbody).
    injection Hbody as <- <-.
    apply py_index_ok_world in Hsw, Hew. apply py_int_ok_world in Hs, He.
    subst wa wb wc wd.
    destruct (IH _ _ _ _ Hrest) as (-> & parsed & -> & Hlen & Hchrom).
    split; [reflexivity |].
    exists (mkCoord chromosome s e :: parsed).
    split; [rewrite <- app_assoc; reflexivity |].
    split; [simpl; congruence |].
    constructor; [reflexivity | exact Hchrom].
Qed.

Lemma split_on_nonempty sep s : split_on sep s <> [].
Proof.
  destruct s as [|c s]; [discriminate |]. simpl.
  destruct (sep c); [discriminate |].
  destruct (split_on sep s); discriminate.
Qed.

(** X13: when [get_target_regions] returns, it has changed nothing in the
    world and returns one region for every start position of the line, at
    least one, all of them on the chromosome it was given (so the regions
    of a line never span two chromosomes); under a non-zero target size
    every region either has that length already and is as parsed, or starts
    at 1 or later and ends at the chromosome length or before. *)
Theorem get_target_regions_regions args chromosome words w regions w' :
  get_target_regions args chromosome words w = (Ok regions, w') ->
  w' = w /\
  regions <> [] /\
  (exists word7 word8,
      nth_error words 7 = Some word7 /\ nth_error words 8 = Some word8 /\
      len regions = len (split_on semicolon word7) /\
      len regions = len (split_on semicolon word8)) /\
  Forall (fun region => chrom region = chromosome) regions /\
  (forall size,
      target_region_size args = Some size -> size <> 0 ->
      Forall (fun region =>
                length_ region = size \/
                (1 <= start region /\ end_ region <= chrom_length chromosome))
             regions).
Proof.
  intros Hrun. unfold get_target_regions in Hrun.
  apply bind_ok in Hrun. destruct Hrun as (word7 & w1 & H7 & Hrun).
  apply bind_ok in Hrun. destruct Hrun as (word8 & w2 & H8 & Hrun).
  apply py_index_ok in H7, H8.
  destruct H7 as (-> & j7 & Hj7 & _ & H7), H8 as (-> & j8 & Hj8 & _ & H8).
  simpl in Hj7, Hj8. subst j7 j8.
  destruct (Z.eqb_spec (len (split_on semicolon word7))
                       (len (split_on semicolon word8))) as [Hlen|];
    [| discriminate Hrun].
  simpl in Hrun. apply region_parsing_ok in Hrun.
  destruct Hrun as (-> & parsed & -> & Hcount & Hchrom).
  simpl app.
  assert (Hn : len (map (override_size args chromosome) parsed)
               = len (split_on semicolon word7)).
  { unfold len, range in *. rewrite length_map in *.
    rewrite length_seq in Hcount. rewrite Hcount. lia. }
  split; [reflexivity |]. split.
  { intros Hnil. rewrite Hnil in Hn. unfold len in Hn. simpl in Hn.
    destruct (split_on semicolon word7) eqn:Hsplit;
      [exact (split_on_nonempty _ _ Hsplit) | simpl in Hn; lia]. }
  split; [exists word7, word8; repeat split; [exact H7 | exact H8 | | ];
          congruence |].
  split.
  - apply Forall_map. apply (Forall_impl _ _ _ Hchrom).
    intros region Hregion. rewrite override_size_chrom. exact Hregion.
  - intros size Hsize Hnz. apply Forall_map.
    apply Forall_forall. intros region _.
    destruct (override_size_clamps args chromosome region size Hsize Hnz)
      as [[Hlen' ->] | Hclamp]; [left; exact Hlen' | right; exact Hclamp].
Qed.

Lemma get_target_regions_regions_witness :
  Forall (fun region => chrom region = chr_short)
         [mkCoord chr_short 24 120].
Proof.
  apply (get_target_regions_regions (args_with_size 200) chr_short
           line_100_149 world0 [mkCoord chr_short 24 120] world0).
  vm_compute. reflexivity.
Defined.

(** X14: what the target size does to one region when nothing is clamped:
    a region of another length is replaced by one with the same midpoint
    and [2 * (size / 2) + 1] bases, which is the target size exactly when
    the size is odd; a region of the target length is kept; and applying
    the size a second time changes nothing. *)
Theorem override_size_recentres args chromosome region size :
  target_region_size args = Some size ->
  size <> 0 ->
  1 <= (start region + end_ region) / 2 - size / 2 ->
  (start region + end_ region) / 2 + size / 2 <= chrom_length chromosome ->
  (length_ region = size ->
   override_size args chromosome region = region) /\
  (length_ region <> size ->
   (start (override_size args chromosome region)
    + end_ (override_size args chromosome region)) / 2
   = (start region + end_ region) / 2 /\
   length_ (override_size args chromosome region) = 2 * (size / 2) + 1) /\
  (size mod 2 = 1 -> length_ (override_size args chromosome region) = size) /\
  override_size args chromosome (override_size args chromosome region)
  = override_size args chromosome region.
Proof.
  intros Hsize Hnz Hlo Hhi.
  assert (Hsame : length_ region = size ->
                  override_size args chromosome region = region).
  { intros Hlen. unfold override_size. rewrite Hsize.
    destruct (Z.eqb_spec size 0) as [|_]; [contradiction |].
    destruct (Z.eqb_spec (length_ region) size); [reflexivity | contradiction]. }
  assert (Hmoved : length_ region <> size ->
                   override_size args chromosome region
                   = with_bounds region
                       ((start region + end_ region) / 2 - size / 2)
                       ((start region + end_ region) / 2 + size / 2)).
  { intros Hlen. unfold override_size. rewrite Hsize.
    destruct (Z.eqb_spec size 0) as [|_]; [contradiction |].
    destruct (Z.eqb_spec (length_ region) size); [contradiction |]. simpl.
    destruct (Z.ltb_spec ((start region + end_ region) / 2 - size / 2) 1);
      [lia |].
    destruct (Z.gtb_spec ((start region + end_ region) / 2 + size / 2)
                         (chrom_length chromosome)); [lia | reflexivity]. }
  assert (Hmid : forall mid half, (mid - half + (mid + half)) / 2 = mid).
  { intros mid half. replace (mid - half + (mid + half)) with (mid * 2) by lia.
    apply Z.div_mul. lia. }
  split; [exact Hsame |]. split; [| split].
  - intros Hlen. rewrite (Hmoved Hlen). unfold length_, with_bounds. simpl.
    split; [apply Hmid | lia].
  - intros Hodd.
    destruct (Z.eq_dec (length_ region) size) as [Hlen|Hlen].
    + rewrite (Hsame Hlen). exact Hlen.
    + rewrite (Hmoved Hlen). unfold length_, with_bounds. simpl.
      pose proof (Z.div_mod size 2 ltac:(lia)) as Hdiv. lia.
  - destruct (Z.eq_dec (length_ region) size) as [Hlen|Hlen].
    + rewrite (Hsame Hlen). exact (Hsame Hlen).
    + rewrite (Hmoved Hlen).
      set (mid := (start region + end_ region) / 2).
      unfold override_size. rewrite Hsize.
      destruct (Z.eqb_spec size 0) as [|_]; [contradiction |].
      unfold length_, with_bounds. simpl.
      destruct (Z.eqb_spec (mid + size / 2 - (mid - size / 2) + 1) size);
        [reflexivity |].
      simpl. rewrite Hmid.
      destruct (Z.ltb_spec (mid - size / 2) 1); [lia |].
      destruct (Z.gtb_spec (mid + size / 2) (chrom_length chromosome));
        [lia | reflexivity].
Qed.

Lemma override_size_recentres_witness :
  length_ (override_size (args_with_size 21) chr1 (mkCoord chr1 100 149)) = 21.
Proof.
  apply (override_size_recentres (args_with_size 21) chr1
           (mkCoord chr1 100 149) 21); try reflexivity; try discriminate.
Defined.


(** ** Decimal numerals and joined lists *)

Lemma digits_value_uint d :
  forall acc,
    digits_value acc (NilEmpty.string_of_uint d) = Some (uint_value acc d).
Proof. induction d; intros acc; simpl; [reflexivity | apply IHd ..]. Qed.

Lemma uint_value_pos d :
  forall p, uint_value (Z.pos p) d = Z.pos (Pos.of_uint_acc d p).
Proof.
  induction d; intros p; simpl; [reflexivity | ..];
    rewrite <- IHd; f_equal; lia.
Qed.

Lemma uint_value_0 d : uint_value 0 d = Z.of_N (Pos.of_uint d).
Proof.
  induction d; simpl; [reflexivity | exact IHd | ..];
    apply (uint_value_pos d).
Qed.

(** A string that starts with a digit is read without a sign. *)
Lemma py_int_digit_first c t w :
  is_digit c = true ->
  py_int (String c t) w
  = match digits_value 0 (String c t) with
    | Some n => (Ok n, w)
    | None =>
        (Raise (ValueError ("invalid literal for int() with base 10: '"
                            +:+ String c t +:+ "'")), w)
    end.
Proof.
  intros Hdigit. unfold py_int.
  destruct c as [b0 b1 b2 b3 b4 b5 b6 b7].
  destruct b0, b1, b2, b3, b4, b5, b6, b7; try discriminate Hdigit;
    cbv beta iota zeta;
    destruct (digits_value 0 _); reflexivity.
Qed.

Lemma string_of_uint_digit d :
  d <> Decimal.Nil ->
  exists c t, NilEmpty.string_of_uint d = String c t /\ is_digit c = true.
Proof.
  destruct d; [contradiction | ..]; intros _; simpl;
    eexists _, _; split; reflexivity.
Qed.

Lemma string_of_pos_value p :
  exists c t,
    NilZero.string_of_uint (Pos.to_uint p) = String c t /\
    is_digit c = true /\
    digits_value 0 (String c t) = Some (Z.pos p).
Proof.
  pose proof (DecimalPos.Unsigned.to_uint_nonnil p) as Hnil.
  destruct (string_of_uint_digit _ Hnil) as (c & t & Hs & Hdigit).
  exists c, t. split; [| split; [exact Hdigit |]].
  - unfold NilZero.string_of_uint.
    destruct (Pos.to_uint p); [contradiction | exact Hs ..].
  - rewrite <- Hs, digits_value_uint, uint_value_0.
    rewrite DecimalPos.Unsigned.of_to. reflexivity.
Qed.

(** [int(str(n))] is [n]. *)
Lemma py_int_str_of_int n w : py_int (str_of_int n) w = (Ok n, w).
Proof.
  unfold str_of_int. destruct n as [|p|p].
  - reflexivity.
  - simpl Z.to_int. unfold NilZero.string_of_int.
    destruct (string_of_pos_value p) as (c & t & -> & Hdigit & Hvalue).
    rewrite (py_int_digit_first c t w Hdigit), Hvalue. reflexivity.
  - simpl Z.to_int. unfold NilZero.string_of_int.
    destruct (string_of_pos_value p) as (c & t & -> & Hdigit & Hvalue).
    unfold py_int. cbv beta iota zeta. rewrite Hvalue. reflexivity.
Qed.

Lemma free_of_string_of_uint d :
  free_of semicolon (NilEmpty.string_of_uint d) = true.
Proof. induction d; simpl; [reflexivity | exact IHd ..]. Qed.

Lemma free_of_str_of_int n : free_of semicolon (str_of_int n) = true.
Proof.
  unfold str_of_int, NilZero.string_of_int, NilZero.string_of_uint.
  destruct n as [|p|p]; simpl Z.to_int; [reflexivity | |];
    destruct (Pos.to_uint p) eqn:Hd; try reflexivity;
    rewrite <- Hd; simpl; apply free_of_string_of_uint.
Qed.

Lemma split_on_free sep s : free_of sep s = true -> split_on sep s = [s].
Proof.
  induction s as [|c s IH]; [reflexivity |]. simpl.
  destruct (sep c); [discriminate |]. simpl. intros Hfree.
  rewrite (IH Hfree). reflexivity.
Qed.

Lemma split_on_app sep s c rest :
  free_of sep s = true -> sep c = true ->
  split_on sep (s +:+ String c rest) = s :: split_on sep rest.
Proof.
  intros Hfree Hsep. induction s as [|c' s IH].
  - simpl. rewrite Hsep. reflexivity.
  - simpl in Hfree |- *. destruct (sep c'); [discriminate |].
    rewrite (IH Hfree). reflexivity.
Qed.

(** [";".join(l).split(";")] is [l] for a non-empty list of strings without
    a semicolon. *)
Lemma split_on_join l :
  l <> [] ->
  Forall (fun s => free_of semicolon s = true) l ->
  split_on semicolon (join ";" l) = l.
Proof.
  intros Hne Hfree. unfold join.
  induction Hfree as [|s l Hs Hl IH]; [contradiction |].
  destruct l as [|s' l].
  - simpl. apply split_on_free, Hs.
  - change (String.concat ";" (s :: s' :: l))
      with (s +:+ String ";" (String.concat ";" (s' :: l))).
    rewrite (split_on_app semicolon s ";" _ Hs eq_refl).
    rewrite IH by discriminate. reflexivity.
Qed.

Lemma split_on_joined_ints (l : list Z) :
  l <> [] ->
  split_on semicolon (join ";" (map str_of_int l)) = map str_of_int l.
Proof.
  intros Hne. apply split_on_join.
  - destruct l; [contradiction | discriminate].
  - apply Forall_map, List.Forall_forall. intros n _.
    apply free_of_str_of_int.
Qed.

Lemma nth_error_map_middle {A B} (f : A -> B) pre x rest :
  nth_error (map f (pre ++ x :: rest)) (length pre) = Some (f x).
Proof.
  rewrite nth_error_map, nth_error_app2 by lia.
  rewrite Nat.sub_diag. reflexivity.
Qed.

Lemma region_parsing_reads_back args chromosome (all : list Coord) :
  Forall (fun r => chrom r = chromosome) all ->
  forall rest pre done w,
    all = (pre ++ rest)%list ->
    foldM
      (fun (region_list : list Coord) i =>
         start_word <- py_index (map (fun r => str_of_int (start r)) all) i ;;
         start <- py_int start_word ;;
         end_word <- py_index (map (fun r => str_of_int (end_ r)) all) i ;;
         end_ <- py_int end_word ;;
         let region := mkCoord chromosome start end_ in
         ret (region_list ++ [override_size args chromosome region])%list)
      done (map Z.of_nat (seq (length pre) (length rest))) w
    = (Ok (done ++ map (override_size args chromosome) rest)%list, w).
Proof.
  intros Hchrom.
  induction rest as [|r rest IH]; intros pre done w Hall.
  - simpl. rewrite app_nil_r. reflexivity.
  - cbn [length seq map foldM].
    assert (Hr : chrom r = chromosome).
    { rewrite List.Forall_forall in Hchrom. apply Hchrom. rewrite Hall.
      apply in_or_app. right. left. reflexivity. }
    assert (Hbody :
      (start_word <- py_index (map (fun r => str_of_int (start r)) all)
                       (Z.of_nat (length pre)) ;;
       start <- py_int start_word ;;
       end_word <- py_index (map (fun r => str_of_int (end_ r)) all)
                     (Z.of_nat (length pre)) ;;
       end_ <- py_int end_word ;;
       let region := mkCoord chromosome start end_ in
       ret (done ++ [override_size args chromosome region])%list) w
      = (Ok (done ++ [override_size args chromosome r])%list, w)).
    { rewrite Hall.
      rewrite (bind_step _ _ _ _ _
                 (py_index_nth _ _ _ w (nth_error_map_middle _ pre r rest))).
      rewrite (bind_step _ _ _ _ _ (py_int_str_of_int _ w)).
      rewrite (bind_step _ _ _ _ _
                 (py_index_nth _ _ _ w (nth_error_map_middle _ pre r rest))).
      rewrite (bind_step _ _ _ _ _ (py_int_str_of_int _ w)).
      cbv zeta. rewrite <- Hr. destruct r; reflexivity. }
    rewrite (bind_step _ _ _ _ _ Hbody).
    specialize (IH (pre ++ [r])%list (done ++ [override_size args chromosome r])%list w).
    rewrite length_app, Nat.add_1_r in IH.
    assert (Hnext : all = ((pre ++ [r]) ++ rest)%list)
      by (rewrite <- app_assoc; exact Hall).
    etransitivity; [exact (IH Hnext) |].
    rewrite <- app_assoc. reflexivity.
Qed.

(** The joined starts and ends of a region list, read back from fields 7
    and 8 of a line. *)
Lemma target_regions_of_fields args chromosome region_list words w :
  region_list <> [] ->
  Forall (fun r => chrom r = chromosome) region_list ->
  nth_error words 7 = Some (region_start_str region_list) ->
  nth_error words 8 = Some (region_end_str region_list) ->
  get_target_regions args chromosome words w
  = (Ok (map (override_size args chromosome) region_list), w).
Proof.
  intros Hne Hchrom H7 H8.
  unfold get_target_regions.
  rewrite (bind_step _ _ _ _ _ (py_index_nth _ 7 _ w H7)).
  rewrite (bind_step _ _ _ _ _ (py_index_nth _ 8 _ w H8)).
  unfold region_start_str, region_end_str.
  rewrite <- (map_map start str_of_int), <- (map_map end_ str_of_int).
  rewrite !split_on_joined_ints
    by (destruct region_list; [contradiction | discriminate]).
  rewrite !map_map. unfold len. rewrite !length_map, Z.eqb_refl.
  cbn [negb]. unfold range. rewrite Nat2Z.id.
  exact (region_parsing_reads_back args chromosome region_list Hchrom
           region_list [] [] w eq_refl).
Qed.

Lemma override_size_none args chromosome region_list :
  target_region_size args = None ->
  map (override_size args chromosome) region_list = region_list.
Proof.
  intros Hnone. rewrite <- (map_id region_list) at 2. apply map_ext.
  intros r. unfold override_size. rewrite Hnone. reflexivity.
Qed.

(** X15: the two region fields that [write_output] prints for a region list
    are read back by [get_target_regions] as the same regions: for a
    non-empty list of regions of one chromosome, an input line that holds
    the joined starts in field 7 and the joined ends in field 8 gives back
    the list, every region after the target size of the command line has
    been applied to it, and so the very list when no size is given; nothing
    in the world changes. *)
Theorem get_target_regions_reads_back args chromosome region_list words w :
  region_list <> [] ->
  Forall (fun r => chrom r = chromosome) region_list ->
  nth_error words 7 = Some (region_start_str region_list) ->
  nth_error words 8 = Some (region_end_str region_list) ->
  get_target_regions args chromosome words w
  = (Ok (map (override_size args chromosome) region_list), w) /\
  (target_region_size args = None ->
   get_target_regions args chromosome words w = (Ok region_list, w)).
Proof.
  intros Hne Hchrom H7 H8.
  rewrite (target_regions_of_fields args chromosome region_list words w
             Hne Hchrom H7 H8).
  split; [reflexivity |].
  intros Hnone. rewrite (override_size_none _ _ _ Hnone). reflexivity.
Qed.

Lemma get_target_regions_reads_back_witness :
  get_target_regions args_without_size chr1
    ["chr1"; "4"; "rs4"; "A"; "C"; "+"; "gene"; "1;2"; "5;9"] world0
  = (Ok [region_1_5; region_2_9], world0).
Proof.
  apply (get_target_regions_reads_back args_without_size chr1
           [region_1_5; region_2_9]);
    [discriminate | repeat constructor | reflexivity | reflexivity
    | reflexivity].
Defined.

(** ** The input loop of [main] *)

Lemma keeps_stdout_ret {A} (a : A) : keeps_stdout (ret a).
Proof. intros w. reflexivity. Qed.

Lemma keeps_stdout_raise {A} e : keeps_stdout (@raise A e).
Proof. intros w. reflexivity. Qed.

Lemma keeps_stdout_bind {A B} (c : M A) (k : A -> M B) :
  keeps_stdout c -> (forall a, keeps_stdout (k a)) -> keeps_stdout (bind c k).
Proof.
  intros Hc Hk w. unfold bind. specialize (Hc w).
  destruct (c w) as [[a|e] w1]; simpl in *.
  - rewrite Hk. exact Hc.
  - exact Hc.
Qed.

Lemma keeps_stdout_py_index {A} (l : list A) i : keeps_stdout (py_index l i).
Proof. intros w. rewrite py_index_world. reflexivity. Qed.

Lemma py_int_world s w : snd (py_int s w) = w.
Proof.
  unfold py_int.
  match goal with
  | |- context [match ?parsed with Some _ => _ | None => _ end] =>
      destruct parsed
  end; reflexivity.
Qed.

Lemma keeps_stdout_py_int s : keeps_stdout (py_int s).
Proof. intros w. rewrite py_int_world. reflexivity. Qed.

Lemma keeps_stdout_foldM {A S} (body : S -> A -> M S) l :
  (forall acc x, keeps_stdout (body acc x)) ->
  forall acc, keeps_stdout (foldM body acc l).
Proof.
  intros Hbody. induction l as [|x l IH]; intros acc; simpl.
  - apply keeps_stdout_ret.
  - apply keeps_stdout_bind; [apply Hbody | exact IH].
Qed.

Lemma keeps_stdout_get_target_regions args chromosome words :
  keeps_stdout (get_target_regions args chromosome words).
Proof.
  unfold get_target_regions.
  apply keeps_stdout_bind; [apply keeps_stdout_py_index |]. intros word7.
  apply keeps_stdout_bind; [apply keeps_stdout_py_index |]. intros word8.
  destruct (negb _); [apply keeps_stdout_raise |].
  apply keeps_stdout_foldM. intros acc i.
  apply keeps_stdout_bind; [apply keeps_stdout_py_index |]. intros start_word.
  apply keeps_stdout_bind; [apply keeps_stdout_py_int |]. intros s.
  apply keeps_stdout_bind; [apply keeps_stdout_py_index |]. intros end_word.
  apply keeps_stdout_bind; [apply keeps_stdout_py_int |]. intros e.
  apply keeps_stdout_ret.
Qed.

Lemma fails_quietly_bind_l {A B} (c : M A) (k : A -> M B) :
  fails_quietly c -> fails_quietly (bind c k).
Proof.
  intros Hc w. unfold bind. destruct (Hc w) as [[e He] Hout].
  destruct (c w) as [[a|e'] w1]; simpl in *; [discriminate He |].
  split; [exists e'; reflexivity | exact Hout].
Qed.

Lemma fails_quietly_bind_r {A B} (c : M A) (k : A -> M B) :
  keeps_stdout c -> (forall a, fails_quietly (k a)) ->
  fails_quietly (bind c k).
Proof.
  intros Hc Hk w. unfold bind. specialize (Hc w).
  destruct (c w) as [[a|e] w1]; simpl in *.
  - destruct (Hk a w1) as [Hraise Hout]. split; [exact Hraise |].
    rewrite Hout. exact Hc.
  - split; [exists e; reflexivity | exact Hc].
Qed.

Lemma fails_quietly_get_region_snps data_files region_list ind_idx :
  fails_quietly (get_region_snps data_files region_list ind_idx).
Proof.
  intros w. split; [apply get_region_snps_raises |].
  destruct region_list as [|region0 rest]; simpl; [reflexivity |].
  unfold bind, getNode.
  destruct (snp_tab_h5 data_files !! _); [| reflexivity].
  destruct (hap_h5 data_files !! _); [| reflexivity].
  destruct (geno_prob_h5 data_files !! _); [| reflexivity].
  destruct (snp_index_h5 data_files !! _); [| reflexivity].
  rewrite String.eqb_refl. reflexivity.
Qed.

Lemma tick_run (line_count : Z) w :
  exists w1,
    (if line_count mod 1000 =? 0 then write sys_stderr "." else ret tt) w
    = (Ok tt, w1) /\ stdout w1 = stdout w.
Proof. destruct (_ =? 0); eexists; split; reflexivity. Qed.

(** The three ways a turn of the loop ends. *)
Lemma main_loop_body_cases format_2f args data_files chrom_dict
    ind_idx genomewide_read_counts line_count line w :
  (startswith line "#" = true /\
   fst (main_loop_body format_2f args data_files chrom_dict ind_idx
          genomewide_read_counts line_count line w) = Ok (line_count + 1) /\
   stdout (snd (main_loop_body format_2f args data_files chrom_dict ind_idx
                  genomewide_read_counts line_count line w)) = stdout w) \/
  (NA_line line = true /\
   fst (main_loop_body format_2f args data_files chrom_dict ind_idx
          genomewide_read_counts line_count line w) = Ok (line_count + 1) /\
   stdout (snd (main_loop_body format_2f args data_files chrom_dict ind_idx
                  genomewide_read_counts line_count line w))
   = (stdout w ++ [NA_row])%list) \/
  (startswith line "#" = false /\ NA_line line = false /\
   (exists e,
       fst (main_loop_body format_2f args data_files chrom_dict ind_idx
              genomewide_read_counts line_count line w) = Raise e) /\
   stdout (snd (main_loop_body format_2f args data_files chrom_dict ind_idx
                  genomewide_read_counts line_count line w)) = stdout w).
Proof.
  unfold main_loop_body, NA_line, second_field.
  destruct (tick_run (line_count + 1) w) as (w1 & Htick & Hout).
  rewrite (bind_step _ _ _ _ _ Htick).
  destruct (startswith line "#") eqn:Hcomment.
  - left. repeat split. exact Hout.
  - right. cbn [negb andb].
    destruct (py_index (split_ws (rstrip line)) 1 w1) as [[word1|e] w2] eqn:H1.
    + rewrite (bind_step _ _ _ _ _ H1).
      apply py_index_ok in H1. destruct H1 as (-> & j & Hj & _ & Hnth).
      simpl in Hj. subst j. change (Z.to_nat 1) with 1%nat in Hnth.
      rewrite Hnth.
      destruct (String.eqb word1 "NA") eqn:Hword.
      * left. repeat split. simpl. rewrite Hout. reflexivity.
      * right. split; [reflexivity |]. split; [reflexivity |].
        rewrite <- Hout.
        match goal with
        | |- (exists e, fst (?c w1) = Raise e) /\ _ =>
            enough (Hq : fails_quietly c) by exact (Hq w1)
        end.
        apply fails_quietly_bind_r; [apply keeps_stdout_py_index |].
        intros chrom_word.
        apply fails_quietly_bind_r;
          [destruct (chrom_dict !! chrom_word);
           [apply keeps_stdout_ret | apply keeps_stdout_raise] |].
        intros chromosome.
        apply fails_quietly_bind_r;
          [apply keeps_stdout_get_target_regions |].
        intros region_list.
        apply fails_quietly_bind_r; [apply keeps_stdout_py_int |].
        intros snp_pos.
        apply fails_quietly_bind_r; [apply keeps_stdout_py_index |].
        intros snp_ref_base.
        apply fails_quietly_bind_r; [apply keeps_stdout_py_index |].
        intros snp_alt_base.
        apply fails_quietly_bind_l, fails_quietly_get_region_snps.
    + right. split; [reflexivity |].
      pose proof (py_index_world (split_ws (rstrip line)) 1 w1) as Hw.
      rewrite H1 in Hw. simpl in Hw. subst w2.
      assert (Hnth : nth_error (split_ws (rstrip line)) 1 = None).
      { unfold py_index in H1. cbv zeta in H1.
        change (1 <? 0) with false in H1. cbv iota in H1.
        change (Z.to_nat 1) with 1%nat in H1.
        destruct (nth_error (split_ws (rstrip line)) 1);
          [discriminate H1 | reflexivity]. }
      rewrite Hnth. split; [reflexivity |].
      unfold bind. rewrite H1. split; [exists e; reflexivity | exact Hout].
Qed.

(** X16: a turn of the input loop writes no data row.  It returns, with the
    line counted, exactly for a comment line and for a line with ["NA"] in
    its second field; every other line, the lines that name a test SNP
    among them, ends the turn with an exception.  The standard output
    receives the row of ["NA"] tokens for an ["NA"] line and nothing
    otherwise. *)
Theorem main_loop_body_writes_no_row format_2f args data_files chrom_dict
    ind_idx genomewide_read_counts line_count line w :
  stdout (snd (main_loop_body format_2f args data_files chrom_dict ind_idx
                 genomewide_read_counts line_count line w))
  = (stdout w ++ (if NA_line line then [NA_row] else []))%list /\
  ((comment_line line || NA_line line = true ->
    fst (main_loop_body format_2f args data_files chrom_dict ind_idx
           genomewide_read_counts line_count line w) = Ok (line_count + 1)) /\
   (comment_line line || NA_line line = false ->
    exists e,
      fst (main_loop_body format_2f args data_files chrom_dict ind_idx
             genomewide_read_counts line_count line w) = Raise e)).
Proof.
  destruct (main_loop_body_cases format_2f args data_files chrom_dict ind_idx
              genomewide_read_counts line_count line w)
    as [(Hc & Hok & Hout) | [(Hna & Hok & Hout) | (Hc & Hna & He & Hout)]].
  - assert (Hna : NA_line line = false)
      by (unfold NA_line; rewrite Hc; reflexivity).
    unfold comment_line. rewrite Hc, Hna, Hout, app_nil_r.
    split; [reflexivity |]. split; [intros _; exact Hok | discriminate].
  - rewrite Hna, Hout, orb_true_r.
    split; [reflexivity |]. split; [intros _; exact Hok | discriminate].
  - unfold comment_line. rewrite Hc, Hna, Hout, app_nil_r.
    split; [reflexivity |]. split; [discriminate | intros _; exact He].
Qed.

Lemma main_loop_rows format_2f args data_files chrom_dict ind_idx
    genomewide_read_counts f :
  forall acc w,
    exists k,
      (k <= length f)%nat /\
      stdout (snd (foldM (main_loop_body format_2f args data_files chrom_dict
                            ind_idx genomewide_read_counts) acc f w))
      = (stdout w ++ repeat NA_row k)%list.
Proof.
  induction f as [|line f IH]; intros acc w.
  - exists 0%nat. simpl. rewrite app_nil_r. split; [lia | reflexivity].
  - simpl foldM. unfold bind.
    destruct (main_loop_body_cases format_2f args data_files chrom_dict
                ind_idx genomewide_read_counts acc line w)
      as [(_ & Hok & Hout) | [(_ & Hok & Hout) | (_ & _ & [e Hok] & Hout)]];
      destruct (main_loop_body format_2f args data_files chrom_dict ind_idx
                  genomewide_read_counts acc line w) as [[n|e'] w1];
      simpl in Hok, Hout |- *; try discriminate.
    + destruct (IH n w1) as (k & Hk & Hrows). exists k.
      split; [lia |]. rewrite Hrows, Hout. reflexivity.
    + destruct (IH n w1) as (k & Hk & Hrows). exists (S k).
      split; [lia |]. rewrite Hrows, Hout, <- app_assoc. reflexivity.
    + exists 0%nat. split; [lia |]. rewrite Hout, app_nil_r. reflexivity.
Qed.

Lemma main_loop_skips format_2f args data_files chrom_dict ind_idx
    genomewide_read_counts f :
  Forall (fun line => comment_line line || NA_line line = true) f ->
  forall acc w,
    fst (foldM (main_loop_body format_2f args data_files chrom_dict
                  ind_idx genomewide_read_counts) acc f w)
    = Ok (acc + len f) /\
    stdout (snd (foldM (main_loop_body format_2f args data_files chrom_dict
                          ind_idx genomewide_read_counts) acc f w))
    = (stdout w ++ repeat NA_row (length (List.filter NA_line f)))%list.
Proof.
  induction 1 as [|line f Hline Hrest IH]; intros acc w.
  - simpl. rewrite app_nil_r, Z.add_0_r. split; reflexivity.
  - simpl foldM. unfold bind. cbn [List.filter].
    destruct (main_loop_body_cases format_2f args data_files chrom_dict
                ind_idx genomewide_read_counts acc line w)
      as [(Hc & Hok & Hout) | [(Hna & Hok & Hout) | (Hc & Hna & _ & _)]];
      [| | unfold comment_line in Hline; rewrite Hc, Hna in Hline;
           discriminate Hline];
      destruct (main_loop_body format_2f args data_files chrom_dict ind_idx
                  genomewide_read_counts acc line w) as [[n|e'] w1];
      simpl in Hok, Hout |- *; try discriminate;
      injection Hok as ->; destruct (IH (acc + 1) w1) as (Hn & Hrows);
      rewrite Hn, Hrows, Hout.
    + assert (Hna : NA_line line = false)
        by (unfold NA_line; rewrite Hc; reflexivity).
      rewrite Hna. split; [| reflexivity].
      f_equal. unfold len. simpl length. lia.
    + rewrite Hna. simpl. rewrite <- app_assoc.
      split; [| reflexivity].
      f_equal. unfold len. simpl length. lia.
Qed.

Lemma size_notice_run args w :
  exists w1,
    (match target_region_size args with
     | None => ret tt
     | Some size =>
         if size =? 0 then ret tt
         else write sys_stderr ("setting target region size to "
                                +:+ str_of_int size +:+ newline)
     end) w = (Ok tt, w1) /\ stdout w1 = stdout w.
Proof.
  destruct (target_region_size args) as [size|];
    [destruct (size =? 0) |]; eexists; split; reflexivity.
Qed.

(** [main_input] ends where its loop ends, or at [dt.close()]. *)
Lemma main_input_ends format_2f args data_files chrom_dict ind_idx
    genomewide_read_counts f w :
  exists w1,
    stdout w1 = stdout w /\
    fst (main_input format_2f args data_files chrom_dict ind_idx
           genomewide_read_counts f w)
    = match fst (foldM (main_loop_body format_2f args data_files chrom_dict
                          ind_idx genomewide_read_counts) 0 f w1) with
      | Ok _ => Raise (NameError "dt")
      | Raise e => Raise e
      end /\
    stdout (snd (main_input format_2f args data_files chrom_dict ind_idx
                   genomewide_read_counts f w))
    = stdout (snd (foldM (main_loop_body format_2f args data_files chrom_dict
                            ind_idx genomewide_read_counts) 0 f w1)).
Proof.
  destruct (size_notice_run args w) as (w1 & Hnotice & Hout).
  exists w1. split; [exact Hout |].
  unfold main_input. rewrite (bind_step _ _ _ _ _ Hnotice).
  unfold bind.
  destruct (foldM _ 0 f w1) as [[n|e] w2]; split; reflexivity.
Qed.

(** X17: [main] never completes its work on the input: whatever the
    arguments, the data files and the lines of the input file, the part of
    [main] that follows the opening of the input ends with an exception,
    and the rows it has written to the standard output by then are rows of
    ["NA"] tokens only, at most one for each input line. *)
Theorem main_input_never_returns format_2f args data_files chrom_dict ind_idx
    genomewide_read_counts f w :
  (exists e,
      fst (main_input format_2f args data_files chrom_dict ind_idx
             genomewide_read_counts f w) = Raise e) /\
  exists k,
    (k <= length f)%nat /\
    stdout (snd (main_input format_2f args data_files chrom_dict ind_idx
                   genomewide_read_counts f w))
    = (stdout w ++ repeat NA_row k)%list.
Proof.
  destruct (main_input_ends format_2f args data_files chrom_dict ind_idx
              genomewide_read_counts f w) as (w1 & Hout & -> & ->).
  split.
  - destruct (fst (foldM _ 0 f w1)) as [n|e]; eexists; reflexivity.
  - destruct (main_loop_rows format_2f args data_files chrom_dict ind_idx
                genomewide_read_counts f 0 w1) as (k & Hk & Hrows).
    exists k. split; [exact Hk |]. rewrite Hrows, Hout. reflexivity.
Qed.

(** X18: on an input file in which every line is a comment or has ["NA"]
    in its second field, the loop of [main] reaches the end of the file,
    one row of ["NA"] tokens written for each ["NA"] line and none for a
    comment, and [main] then stops at [dt.close()] with the [NameError] of
    [dt], a name that is bound nowhere. *)
Theorem main_input_without_snp format_2f args data_files chrom_dict ind_idx
    genomewide_read_counts f w :
  Forall (fun line => comment_line line || NA_line line = true) f ->
  fst (main_input format_2f args data_files chrom_dict ind_idx
         genomewide_read_counts f w) = Raise (NameError "dt") /\
  stdout (snd (main_input format_2f args data_files chrom_dict ind_idx
                 genomewide_read_counts f w))
  = (stdout w ++ repeat NA_row (length (List.filter NA_line f)))%list /\
  name_bound main_locals "dt" = false.
Proof.
  intros Hlines.
  destruct (main_input_ends format_2f args data_files chrom_dict ind_idx
              genomewide_read_counts f w) as (w1 & Hout & -> & ->).
  destruct (main_loop_skips format_2f args data_files chrom_dict ind_idx
              genomewide_read_counts f Hlines 0 w1) as (-> & ->).
  rewrite Hout. split; [reflexivity |]. split; [reflexivity |].
  apply unbound_names.
Qed.

Lemma main_input_without_snp_witness :
  fst (main_input (fun _ => "0.00") (args_with_size 20) one_snp_files ∅ 0 0
         lines_without_snp world0) = Raise (NameError "dt") /\
  stdout (snd (main_input (fun _ => "0.00") (args_with_size 20) one_snp_files
                 ∅ 0 0 lines_without_snp world0))
  = (stdout world0 ++ repeat NA_row 2)%list /\
  name_bound main_locals "dt" = false.
Proof.
  apply (main_input_without_snp (fun _ => "0.00") (args_with_size 20)
           one_snp_files ∅ 0 0 lines_without_snp world0).
  repeat constructor.
Defined.

(** ** The fields of a written row *)

Lemma append_assoc (a b c : string) : (a +:+ b) +:+ c = a +:+ (b +:+ c).
Proof.
  induction a as [|x a IH]; [reflexivity |].
  change (String x ((a +:+ b) +:+ c) = String x (a +:+ (b +:+ c))).
  f_equal. exact IH.
Qed.

Lemma free_of_app p a b : free_of p (a +:+ b) = free_of p a && free_of p b.
Proof.
  induction a as [|x a IH]; [reflexivity |].
  change (negb (p x) && free_of p (a +:+ b)
          = negb (p x) && free_of p a && free_of p b).
  rewrite IH, andb_assoc. reflexivity.
Qed.

Lemma free_of_join p sep l :
  free_of p sep = true ->
  Forall (fun s => free_of p s = true) l ->
  free_of p (join sep l) = true.
Proof.
  intros Hsep Hl. unfold join.
  induction Hl as [|s l Hs Hl IH]; [reflexivity |].
  destruct l as [|s' l]; [exact Hs |].
  change (String.concat sep (s :: s' :: l))
    with (s +:+ sep +:+ String.concat sep (s' :: l)).
  rewrite !free_of_app, Hs, Hsep, IH. reflexivity.
Qed.

Lemma free_of_space_string_of_uint d :
  free_of is_space (NilEmpty.string_of_uint d) = true.
Proof. induction d; simpl; [reflexivity | exact IHd ..]. Qed.

Lemma free_of_space_str_of_int n : free_of is_space (str_of_int n) = true.
Proof.
  unfold str_of_int, NilZero.string_of_int, NilZero.string_of_uint.
  destruct n as [|p|p]; simpl Z.to_int; [reflexivity | |];
    destruct (Pos.to_uint p) eqn:Hd; try reflexivity;
    rewrite <- Hd; simpl; apply free_of_space_string_of_uint.
Qed.

Lemma str_of_int_nonempty n : nonempty (str_of_int n) = true.
Proof.
  unfold str_of_int, NilZero.string_of_int, NilZero.string_of_uint.
  destruct n as [|p|p]; simpl Z.to_int; [reflexivity | | reflexivity].
  destruct (Pos.to_uint p); reflexivity.
Qed.

Lemma nonempty_app a b : nonempty a = true -> nonempty (a +:+ b) = true.
Proof. destruct a; [discriminate | reflexivity]. Qed.

Lemma join_nonempty sep s l : nonempty s = true -> nonempty (join sep (s :: l)) = true.
Proof.
  intros Hs. unfold join. destruct l as [|s' l]; [exact Hs |].
  change (String.concat sep (s :: s' :: l))
    with (s +:+ sep +:+ String.concat sep (s' :: l)).
  apply nonempty_app, Hs.
Qed.

Lemma split_ws_field s c rest :
  free_of is_space s = true -> nonempty s = true -> is_space c = true ->
  split_ws (s +:+ String c rest) = s :: split_ws rest.
Proof.
  intros Hfree Hs Hc. unfold split_ws.
  rewrite (split_on_app is_space s c rest Hfree Hc).
  cbn [List.filter]. rewrite Hs. reflexivity.
Qed.

Lemma split_on_nonnil sep s : exists w ws, split_on sep s = w :: ws.
Proof.
  destruct s as [|c s]; simpl; [eexists _, _; reflexivity |].
  destruct (sep c); [eexists _, _; reflexivity |].
  destruct (split_on sep s); eexists _, _; reflexivity.
Qed.

Lemma split_on_cons sep c s :
  split_on sep (String c s)
  = if sep c then EmptyString :: split_on sep s
    else match split_on sep s with
         | w :: ws => String c w :: ws
         | [] => [String c EmptyString]
         end.
Proof. reflexivity. Qed.

(** Stripping the end of a line takes empty words off the end of its split
    and nothing else. *)
Lemma split_on_rstrip s :
  exists k,
    split_on is_space s
    = (split_on is_space (rstrip s) ++ repeat EmptyString k)%list.
Proof.
  induction s as [|c s IH]; [exists 0%nat; reflexivity |].
  destruct IH as (k & IH). simpl rstrip.
  destruct (rstrip s) as [|c' r] eqn:Hr.
  - simpl in IH. destruct (is_space c) eqn:Hc.
    + exists (S k). simpl. rewrite Hc, IH. reflexivity.
    + exists k. simpl. rewrite Hc, IH. reflexivity.
  - exists k.
    destruct (split_on_nonnil is_space (String c' r)) as (w & ws & Hsplit).
    rewrite (split_on_cons is_space c s).
    rewrite (split_on_cons is_space c (String c' r)).
    rewrite IH, Hsplit. destruct (is_space c); reflexivity.
Qed.

Lemma filter_nonempty_repeat l k :
  List.filter nonempty (l ++ repeat EmptyString k) = List.filter nonempty l.
Proof.
  rewrite List.filter_app.
  assert (Hnone : List.filter nonempty (repeat EmptyString k) = [])
    by (induction k; [reflexivity | exact IHk]).
  rewrite Hnone, app_nil_r. reflexivity.
Qed.

(** [line.rstrip().split()] gives the words of [line.split()]. *)
Lemma split_ws_rstrip s : split_ws (rstrip s) = split_ws s.
Proof.
  unfold split_ws. destruct (split_on_rstrip s) as (k & ->).
  rewrite filter_nonempty_repeat. reflexivity.
Qed.

Lemma NA_fields_app x :
  " NA NA NA NA NA " +:+ x
  = String " " ("NA" +:+ String " " ("NA" +:+ String " " ("NA" +:+ String " "
      ("NA" +:+ String " " ("NA" +:+ String " " x))))).
Proof. reflexivity. Qed.

Lemma missing_snp_row_fields name p starts ends :
  free_of is_space name = true -> nonempty name = true ->
  free_of is_space p = true -> nonempty p = true ->
  free_of is_space starts = true -> nonempty starts = true ->
  free_of is_space ends = true -> nonempty ends = true ->
  split_ws ((name +:+ " " +:+ p +:+ " NA NA NA NA NA " +:+ starts +:+ " "
             +:+ ends)
            +:+ (" " +:+ join " " (repeat "NA" 8) +:+ newline))
  = ([name; p; "NA"; "NA"; "NA"; "NA"; "NA"; starts; ends]
     ++ repeat "NA" 8)%list.
Proof.
  intros Hname Hname' Hp Hp' Hstarts Hstarts' Hends Hends'.
  rewrite !append_assoc. rewrite NA_fields_app.
  change (" " +:+ p +:+ ?x) with (String " " (p +:+ x)).
  change (" " +:+ ends +:+ ?x) with (String " " (ends +:+ x)).
  change (" " +:+ join " " (repeat "NA" 8) +:+ newline)
    with (String " " (join " " (repeat "NA" 8) +:+ newline)).
  rewrite (split_ws_field name " " _ Hname Hname' eq_refl).
  rewrite (split_ws_field p " " _ Hp Hp' eq_refl).
  rewrite !(split_ws_field "NA" " " _ eq_refl eq_refl eq_refl).
  rewrite (split_ws_field starts " " _ Hstarts Hstarts' eq_refl).
  rewrite (split_ws_field ends " " _ Hends Hends' eq_refl).
  reflexivity.
Qed.

Lemma joined_ints_free (l : list Z) :
  free_of is_space (join ";" (map str_of_int l)) = true.
Proof.
  apply free_of_join; [reflexivity |].
  apply Forall_map, List.Forall_forall. intros n _.
  apply free_of_space_str_of_int.
Qed.

Lemma write_header_run f w :
  exists header, write_header f w = (Ok tt, written f header w) /\
                 length (split_ws (rstrip header)) = 17%nat.
Proof. eexists. split; [apply write_run | reflexivity]. Qed.

(** X19: for a test SNP that was not found, [write_output] returns after
    two writes, and the row they make has exactly these fields when it is
    split as [main] splits an input line: the name of the first region's
    chromosome, the position asked for, five ["NA"], the joined starts, the
    joined ends and eight ["NA"].  That is 17 fields, one for each column
    of the header [write_header] writes; the two read counts handed to the
    function are not written.  Fields 7 and 8 of the row are read back by
    [get_target_regions] as the regions the row was written for, each after
    the target size has been applied to it. *)
Theorem write_output_missing_snp_row format_2f args region_list region0 rest
    snps test_snp_pos region_read_count genomewide_read_count w :
  region_list = region0 :: rest ->
  Forall (fun r => chrom r = chrom region0) region_list ->
  free_of is_space (chrom_name (chrom region0)) = true ->
  nonempty (chrom_name (chrom region0)) = true ->
  exists s1 s2,
    write_output format_2f sys_stdout region_list snps None test_snp_pos
                 region_read_count genomewide_read_count w
    = (Ok tt, written sys_stdout s2 (written sys_stdout s1 w)) /\
    split_ws (rstrip (s1 +:+ s2))
    = ([chrom_name (chrom region0); str_of_int test_snp_pos;
        "NA"; "NA"; "NA"; "NA"; "NA";
        region_start_str region_list; region_end_str region_list]
       ++ repeat "NA" 8)%list /\
    (exists header,
        write_header sys_stdout w = (Ok tt, written sys_stdout header w) /\
        length (split_ws (rstrip header))
        = length (split_ws (rstrip (s1 +:+ s2)))) /\
    get_target_regions args (chrom region0) (split_ws (rstrip (s1 +:+ s2))) w
    = (Ok (map (override_size args (chrom region0)) region_list), w).
Proof.
  intros Hlist Hchrom Hfree Hname.
  exists (chrom_name (chrom region0) +:+ " " +:+ str_of_int test_snp_pos
          +:+ " NA NA NA NA NA " +:+ region_start_str region_list +:+ " "
          +:+ region_end_str region_list),
         (" " +:+ join " " (repeat "NA" 8) +:+ newline).
  assert (Hfields :
    split_ws (rstrip
      ((chrom_name (chrom region0) +:+ " " +:+ str_of_int test_snp_pos
        +:+ " NA NA NA NA NA " +:+ region_start_str region_list +:+ " "
        +:+ region_end_str region_list)
       +:+ (" " +:+ join " " (repeat "NA" 8) +:+ newline)))
    = ([chrom_name (chrom region0); str_of_int test_snp_pos;
        "NA"; "NA"; "NA"; "NA"; "NA";
        region_start_str region_list; region_end_str region_list]
       ++ repeat "NA" 8)%list).
  { rewrite split_ws_rstrip.
    apply missing_snp_row_fields;
      try exact Hfree; try exact Hname;
      try apply free_of_space_str_of_int; try apply str_of_int_nonempty;
      unfold region_start_str, region_end_str; rewrite Hlist;
      try (rewrite <- (map_map start str_of_int); apply joined_ints_free);
      try (rewrite <- (map_map end_ str_of_int); apply joined_ints_free);
      cbn [map]; apply join_nonempty, str_of_int_nonempty. }
  split; [| split; [exact Hfields | split]].
  - unfold write_output. rewrite Hlist.
    rewrite (bind_step _ _ _ _ _ (py_index_0 region0 rest w)).
    rewrite <- Hlist.
    rewrite (bind_step _ _ _ _ _ (write_run _ _ _)).
    apply write_run.
  - destruct (write_header_run sys_stdout w) as (header & Hrun & Hcount).
    exists header. split; [exact Hrun |].
    rewrite Hcount, Hfields. reflexivity.
  - rewrite Hfields.
    apply target_regions_of_fields;
      [rewrite Hlist; discriminate | exact Hchrom | reflexivity
      | reflexivity].
Qed.

Lemma write_output_missing_snp_row_witness :
  exists s1 s2,
    write_output (fun _ => "0.00") sys_stdout [region_1_5; region_2_9] [] None
                 4 34 100 world0
    = (Ok tt, written sys_stdout s2 (written sys_stdout s1 world0)) /\
    split_ws (rstrip (s1 +:+ s2))
    = ([chrom_name (chrom region_1_5); str_of_int 4;
        "NA"; "NA"; "NA"; "NA"; "NA";
        region_start_str [region_1_5; region_2_9];
        region_end_str [region_1_5; region_2_9]]
       ++ repeat "NA" 8)%list /\
    (exists header,
        write_header sys_stdout world0
        = (Ok tt, written sys_stdout header world0) /\
        length (split_ws (rstrip header))
        = length (split_ws (rstrip (s1 +:+ s2)))) /\
    get_target_regions args_without_size (chrom region_1_5)
      (split_ws (rstrip (s1 +:+ s2))) world0
    = (Ok (map (override_size args_without_size (chrom region_1_5))
             [region_1_5; region_2_9]), world0).
Proof.
  apply (write_output_missing_snp_row (fun _ => "0.00") args_without_size
           [region_1_5; region_2_9] region_1_5 [region_2_9] [] 4 34 100
           world0);
    [reflexivity | repeat constructor | reflexivity | reflexivity].
Defined.

(** ** The command line *)

Lemma never_returns_bind_l {A B} (c : M A) (k : A -> M B) :
  never_returns c -> never_returns (bind c k).
Proof.
  intros Hc w. unfold bind. destruct (Hc w) as [e He].
  destruct (c w) as [[a|e'] w1]; simpl in *; [discriminate He |].
  exists e'. reflexivity.
Qed.

Lemma never_returns_bind_r {A B} (c : M A) (k : A -> M B) :
  (forall a, never_returns (k a)) -> never_returns (bind c k).
Proof.
  intros Hk w. unfold bind. destruct (c w) as [[a|e] w1].
  - apply Hk.
  - exists e. reflexivity.
Qed.

(** The declaration of [--geno_prob] is refused, the parser not asked. *)
Lemma add_argument_geno_prob add_action w :
  add_argument add_action "--geno_prob"
    ["Path to HDF5 file containing genotype probabilities"] w
  = (Raise (ValueError geno_prob_message), w).
Proof. reflexivity. Qed.

Lemma add_argument_long add_action name w :
  accepts_all add_action ->
  add_argument add_action (String "-" name) [] w = (Ok tt, w).
Proof.
  intros Haccept. unfold add_argument, starts_with_prefix, bind, ret.
  cbn. apply Haccept.
Qed.

(** X20: [parse_args] returns no arguments.  Its sixth declaration hands
    [add_argument] the help text of [--geno_prob] as a second option
    string, which does not start with ["-"]: whatever the parser does with
    the declarations it accepts and whatever the command line holds,
    [parse_args] ends with an exception, and [main], which starts with it,
    ends there with its header not written.  With a parser that takes the
    five declarations before it, the exception is the [ValueError] of that
    string, raised before the command line is read. *)
Theorem parse_args_never_returns (Namespace : Type)
    (add_action : string -> list string -> M unit)
    (parser_parse_args : M Namespace) :
  never_returns (parse_args Namespace add_action parser_parse_args) /\
  (forall w,
      main_opening Namespace add_action parser_parse_args w
      = parse_args Namespace add_action parser_parse_args w) /\
  (accepts_all add_action ->
   forall w,
     parse_args Namespace add_action parser_parse_args w
     = (Raise (ValueError geno_prob_message), w)).
Proof.
  assert (Hnever : never_returns
                     (parse_args Namespace add_action parser_parse_args)).
  { unfold parse_args.
    do 5 (apply never_returns_bind_r; intros []).
    apply never_returns_bind_l. intros w.
    rewrite add_argument_geno_prob. eexists. reflexivity. }
  split; [exact Hnever |]. split.
  - intros w. unfold main_opening, bind at 1.
    destruct (Hnever w) as [e He].
    destruct (parse_args Namespace add_action parser_parse_args w)
      as [[a|e'] w1]; [discriminate He | reflexivity].
  - intros Haccept w. unfold parse_args.
    do 5 rewrite (bind_step _ _ _ _ _ (add_argument_long _ _ w Haccept)).
    unfold bind at 1. rewrite add_argument_geno_prob. reflexivity.
Qed.

Lemma parse_args_never_returns_witness :
  parse_args unit (fun _ _ => ret tt) (ret tt) world0
  = (Raise (ValueError geno_prob_message), world0).
Proof.
  apply (parse_args_never_returns unit (fun _ _ => ret tt) (ret tt)).
  intros name more w. reflexivity.
Defined.
